(** * SENTINEL console: the client-side orchestration layer of [static/js/script.js]

    A shallow embedding of the browser script: its module-level variables,
    the part of the document it reads and writes, the chart instances it
    creates and destroys, and its asynchronous functions, each cut at its
    [await]s into the code that runs when the call is made and the code that
    runs when the backend answers. *)

From Stdlib Require Import ZArith QArith Qabs Qround PrimFloat SpecFloat FloatOps.
From Stdlib Require Import Ascii String DecimalString.
From stdpp Require Import gmap strings list fin_maps.

Local Open Scope string_scope.
Local Open Scope list_scope.

(** ** JavaScript numbers

    A JavaScript Number is an IEEE 754 binary64 value, which is what Rocq's
    primitive [float] is; [*] and [/] are [PrimFloat.mul] and [PrimFloat.div].
    The built-ins the script calls on numbers ([Math.round], the conversion
    to a string, [toFixed], [toLocaleString]) are written from ECMA-262 and
    ECMA-402 on the exact rational value of the float, [toLocaleString] on
    the decimal of its shortest digits. *)
Module JSNumber.

Abbreviation number := float.

(** The exact value of a float as a rational; 0 for zeros, infinities and NaN. *)
Definition value (x : number) : Q :=
  match Prim2SF x with
  | S754_finite s m e =>
      ((if s then inject_Z (Z.neg m) else inject_Z (Z.pos m)) * Qpower 2 e)%Q
  | _ => 0%Q
  end.

(** The float nearest to an integer (exact below 2^53). *)
Definition of_Z (z : Z) : number := SF2Prim (binary_normalize prec emax z 0 false).

(** [Math.round(x)]: the integer closest to [x], ties towards +∞; NaN,
    infinities, zeros and integers are returned as they are, and a negative
    [x] that rounds to zero gives -0. *)
Definition Math_round (x : number) : number :=
  match Prim2SF x with
  | S754_finite s _ e =>
      if (0 <=? e)%Z then x
      else
        let z := Qfloor (value x + (1 # 2))%Q in
        if (z =? 0)%Z then (if s then PrimFloat.neg_zero else PrimFloat.zero) else of_Z z
  | _ => x
  end.

Definition dec_digits (n : Z) : string :=
  NilZero.string_of_uint (N.to_uint (Z.to_N n)).

Fixpoint zeros (n : nat) : string :=
  match n with O => "" | S n' => String "0"%char (zeros n') end.

Definition take (n : nat) (s : string) : string := substring 0 n s.
Definition drop (n : nat) (s : string) : string := substring n (String.length s - n) s.

(** *** Number::toString (ECMA-262, 6.1.6.1.20), radix 10 *)

(** The interval of reals that round to the positive finite float [x]:
    half-way to its two neighbours, the end points included exactly when
    the significand of [x] is even. *)
Definition rounding_interval (x : number) : Q * Q * bool :=
  let v := value x in
  let below := value (next_down x) in
  let above := if PrimFloat.is_infinity (next_up x) then (v + (v - below))%Q else value (next_up x) in
  let even := match Prim2SF x with
              | S754_finite _ m _ => Z.even (Z.pos m)
              | _ => true
              end in
  (((below + v) / 2)%Q, ((v + above) / 2)%Q, even).

Definition rounds_to (x : number) (d : Q) : bool :=
  let '(lo, hi, closed) := rounding_interval x in
  if closed then Qle_bool lo d && Qle_bool d hi
  else negb (Qle_bool d lo) && negb (Qle_bool hi d).

(** [n] with 10^(n-1) <= v < 10^n, for a positive [v]. *)
Definition decimal_exponent (v : Q) : Z :=
  let l2 := (Z.log2 (Qnum v) - Z.log2 (Z.pos (Qden v)))%Z in
  let fix adjust (fuel : nat) (n : Z) : Z :=
    match fuel with
    | O => n
    | S fuel' =>
        if negb (Qle_bool (Qpower 10 (n - 1)) v) then adjust fuel' (n - 1)%Z
        else if Qle_bool (Qpower 10 n) v then adjust fuel' (n + 1)%Z
        else n
    end in
  adjust 6%nat (l2 * 30103 / 100000 + 1)%Z.

(** The candidates with [k] digits: the two multiples of 10^(n-k) around
    [v]; of those that round to [x], the closer one, the even one on a tie. *)
Definition shortest_at (x : number) (n k : Z) : option (Z * Z) :=
  let v := value x in
  let unit := Qpower 10 (n - k) in
  let s1 := Qfloor (v / unit)%Q in
  let s2 := (s1 + 1)%Z in
  let d1 := (inject_Z s1 * unit)%Q in
  let d2 := (inject_Z s2 * unit)%Q in
  let norm s := if (s =? 10 ^ k)%Z then ((10 ^ (k - 1))%Z, (n + 1)%Z) else (s, n) in
  match rounds_to x d1, rounds_to x d2 with
  | true, false => Some (norm s1)
  | false, true => Some (norm s2)
  | false, false => None
  | true, true =>
      match ((v - d1) ?= (d2 - v))%Q with
      | Lt => Some (norm s1)
      | Gt => Some (norm s2)
      | Eq => Some (norm (if Z.even s1 then s1 else s2))
      end
  end.

Fixpoint shortest_from (x : number) (n : Z) (fuel : nat) (k : Z) : Z * Z * Z :=
  match fuel with
  | O => (k, Qfloor (value x / Qpower 10 (n - k))%Q, n)
  | S fuel' =>
      match shortest_at x n k with
      | Some (s, n') => (k, s, n')
      | None => shortest_from x n fuel' (k + 1)
      end
  end.

(** The digits [s], their number [k] and the exponent [n] of step 5. *)
Definition shortest (x : number) : Z * Z * Z :=
  shortest_from x (decimal_exponent (value x)) 17 1.

Definition toString_positive (x : number) : string :=
  let '(k, s, n) := shortest x in
  let ds := dec_digits s in
  if ((k <=? n) && (n <=? 21))%Z then ds +:+ zeros (Z.to_nat (n - k))
  else if ((0 <? n) && (n <=? 21))%Z then
    take (Z.to_nat n) ds +:+ "." +:+ drop (Z.to_nat n) ds
  else if ((-6 <? n) && (n <=? 0))%Z then "0." +:+ zeros (Z.to_nat (- n)) +:+ ds
  else
    let e := (n - 1)%Z in
    let es := (if (e <? 0)%Z then "-" else "+") +:+ dec_digits (Z.abs e) in
    if (k =? 1)%Z then ds +:+ "e" +:+ es
    else take 1 ds +:+ "." +:+ drop 1 ds +:+ "e" +:+ es.

Definition toString (x : number) : string :=
  match Prim2SF x with
  | S754_nan => "NaN"
  | S754_zero _ => "0"
  | S754_infinity s => if s then "-Infinity" else "Infinity"
  | S754_finite s _ _ => if s then "-" +:+ toString_positive (abs x) else toString_positive x
  end.

(** *** Number.prototype.toFixed(f) (ECMA-262, 21.1.3.3) *)
Definition toFixed (f : nat) (x : number) : string :=
  match Prim2SF x with
  | S754_nan => "NaN"
  | S754_infinity _ => toString x
  | _ =>
      let v := Qabs (value x) in
      if Qle_bool (Qpower 10 21)%Q v then toString x
      else
        let n := Qfloor (v * Qpower 10 (Z.of_nat f) + (1 # 2))%Q in
        let ds := dec_digits n in
        let ds := if (String.length ds <=? f)%nat
                  then zeros (f + 1 - String.length ds) +:+ ds else ds in
        let i := (String.length ds - f)%nat in
        let body := if (f =? 0)%nat then ds else take i ds +:+ "." +:+ drop i ds in
        if Qle_bool 0 (value x) then body else "-" +:+ body
  end.

(** *** Number.prototype.toLocaleString() (ECMA-402), host locale en-US

    The script passes no locale, so the browser's default applies; the model
    fixes it to en-US, the locale the page names for its clock: groups of
    three digits separated by commas, at most three fraction digits, ties
    rounded away from zero. As the browsers' formatter does, it formats the
    shortest decimal that reads back as the number (the digits of
    [toString]), not the exact binary value: 1.0005 gives 1.001, and an
    integer past 2^53 ends in zeros. *)
Fixpoint group_thousands (s : string) : string :=
  match s with
  | EmptyString => EmptyString
  | String c rest =>
      let r := String.length rest in
      String c (if (0 <? r)%nat && (r mod 3 =? 0)%nat
                then "," +:+ group_thousands rest else group_thousands rest)
  end.

Fixpoint strip_zeros (rev_digits : list ascii) : list ascii :=
  match rev_digits with
  | "0"%char :: r => strip_zeros r
  | _ => rev_digits
  end.

(** The decimal [toString] writes for a positive finite number. *)
Definition shortest_value (x : number) : Q :=
  let '(k, s, n) := shortest x in (inject_Z s * Qpower 10 (n - k))%Q.

Definition toLocaleString (x : number) : string :=
  match Prim2SF x with
  | S754_nan => "NaN"
  | S754_infinity s => if s then "-∞" else "∞"
  | S754_zero s => if s then "-0" else "0"
  | S754_finite s _ _ =>
      let n := Qfloor (shortest_value (abs x) * 1000 + (1 # 2))%Q in
      let ip := group_thousands (dec_digits (n / 1000)%Z) in
      let fd := dec_digits (n mod 1000)%Z in
      let fd := zeros (3 - String.length fd) +:+ fd in
      let fr := string_of_list_ascii (rev (strip_zeros (rev (list_ascii_of_string fd)))) in
      (if s then "-" else "") +:+ ip +:+ (if String.eqb fr "" then "" else "." +:+ fr)
  end.

End JSNumber.

(** ** Strings *)

(** [||] on a string that may be absent: the left operand unless it is
    [undefined] or empty. *)
Definition or_else (o : option string) (d : string) : string :=
  match o with
  | Some EmptyString | None => d
  | Some s => s
  end.

(** Strings are kept as their UTF-8 bytes. White space, for [trim], is
    ECMA-262's WhiteSpace and LineTerminator: TAB, LF, VT, FF, CR and SP,
    which are one byte each, and U+00A0, U+1680, U+2000 to U+200A, U+2028,
    U+2029, U+202F, U+205F, U+3000 and U+FEFF, which are two or three. *)
Definition is_space (c : ascii) : bool :=
  match c with
  | " "%char | "009"%char | "010"%char | "011"%char | "012"%char | "013"%char => true
  | _ => false
  end.

Definition byte_is (c : ascii) (n : N) : bool := (N_of_ascii c =? n)%N.

(** U+00A0 is [C2 A0]. *)
Definition is_space2 (c1 c2 : ascii) : bool := byte_is c1 194 && byte_is c2 160.

(** U+1680 is [E1 9A 80]; U+2000 to U+200A are [E2 80 80] to [E2 80 8A];
    U+2028, U+2029 and U+202F are [E2 80 A8], [E2 80 A9] and [E2 80 AF];
    U+205F is [E2 81 9F]; U+3000 is [E3 80 80]; U+FEFF is [EF BB BF]. *)
Definition is_space3 (c1 c2 c3 : ascii) : bool :=
  let b3 := N_of_ascii c3 in
  (byte_is c1 225 && byte_is c2 154 && byte_is c3 128) ||
  (byte_is c1 226 && byte_is c2 128 &&
   (((128 <=? b3) && (b3 <=? 138))%N || byte_is c3 168 || byte_is c3 169 || byte_is c3 175)) ||
  (byte_is c1 226 && byte_is c2 129 && byte_is c3 159) ||
  (byte_is c1 227 && byte_is c2 128 && byte_is c3 128) ||
  (byte_is c1 239 && byte_is c2 187 && byte_is c3 191).

Fixpoint trim_start (s : string) : string :=
  match s with
  | EmptyString => EmptyString
  | String c1 rest1 =>
      if is_space c1 then trim_start rest1
      else
        match rest1 with
        | EmptyString => s
        | String c2 rest2 =>
            if is_space2 c1 c2 then trim_start rest2
            else
              match rest2 with
              | EmptyString => s
              | String c3 rest3 => if is_space3 c1 c2 c3 then trim_start rest3 else s
              end
        end
  end.

(** Whether nothing but white space is left. *)
Definition all_space (s : string) : bool := String.eqb (trim_start s) "".

Fixpoint trim_end (s : string) : string :=
  match s with
  | EmptyString => EmptyString
  | String c rest => if all_space s then EmptyString else String c (trim_end rest)
  end.

(** [String.prototype.trim] *)
Definition trim (s : string) : string := trim_end (trim_start s).

Definition truthy (s : string) : bool := negb (String.eqb s "").

(** ** Backend payloads (the JSON the endpoints return) *)

Import JSNumber.

(** What comes back from one [fetch] followed by [response.json()]: the
    promise rejects, or the envelope says [success: false], or it carries
    data. *)
Inductive Answer (A : Type) : Type :=
| NetworkFailure (message : string)
| BackendError (error : string)
| Success (data : A).
Arguments NetworkFailure {A} message.
Arguments BackendError {A} error.
Arguments Success {A} data.

Record Stats := {
  total_complaints : number;
  silence_rate : number;
  avg_silence_score : number;
  avg_days_in_system : number }.

(** An object whose values are [{avg_silence}], in key order. *)
Definition Breakdown := list (string * number).

Record Demographic := {
  by_gender : Breakdown;
  by_caste : Breakdown;
  by_income : Breakdown }.

Record Ward := {
  ward : string;
  ward_avg_silence : number;
  ward_count : number;
  ward_silenced_pct : number }.

Record Category := { category : string; cat_silenced_pct : number }.

Record Bucket := { time_bucket : string; bucket_silenced_pct : number }.

Record SearchResult := {
  sr_id : option string;
  sr_text : string;
  silence_score : number;
  sr_category : string;
  sr_gender : string;
  sr_income : string;
  sr_ward : string }.

(** [chart_data] of a chat reply. *)
Record ChartData := {
  cd_type : option string;
  cd_title : option string;
  cd_label : option string;
  cd_labels : list string;
  cd_values : list number }.

Record ChatData := {
  chat_session_id : option string;
  response : string;
  chart_data : option ChartData }.

Record SessionInfo := { session_id : string; session_name : option string }.

Record HistoryMessage := { role : string; content : string }.

(** ** Chart instances *)

Inductive Colour :=
| OneColour (c : string)
| Colours (cs : list string).

Record Scales := {
  value_max : option Z;
  index_axis_y : bool }.

(** The configuration object handed to [new Chart]. *)
Record ChartConfig := {
  cfg_type : string;
  cfg_labels : list string;
  cfg_label : option string;
  cfg_data : list number;
  cfg_backgroundColor : Colour;
  cfg_borderRadius : Z;
  cfg_tension : number;
  cfg_title : option string;
  cfg_scales : option Scales }.

(** A Chart object: the canvas it draws on, what it draws, and whether
    [destroy()] was called on it. *)
Record Chart := {
  canvas : string;
  config : ChartConfig;
  destroyed : bool }.

(** ** The document *)

Record Element := {
  el_text : string;          (* textContent / innerHTML *)
  el_value : string;         (* value of an input or select *)
  el_checked : bool;
  el_display : string;       (* style.display *)
  el_disabled : bool;
  el_class : gset string }.  (* classList *)

Record NavItem := { data_screen : string; nav_active : bool }.

(** Children of [#chatMessages]. *)
Inductive Node :=
| Message (role : string) (content : string)
| Typing (id : nat)
| Banner (title : string) (body : string).

(** ** Requests in flight *)

Inductive Request :=
| GetStats
| GetDemographicSilence
| GetGeographicSilence (top_n : nat)
| GetComplaintTypes
| GetTemporalDecay
| PostSearch (query : string) (top_k : nat) (silence_threshold : option nat)
| PostChat (message : string) (session_id : option string)
| GetSessions
| PostNewSession (name : string)
| GetHistory (id : string)
| PostInvestigate.

(** What resumes when [await loadSessions()] completes. *)
Inductive AfterSessions :=
| Detached
| ResumeNewSession (name : string)
| ResumeChat (typing : nat) (reply : string) (chart : option ChartData).

(** A suspended call: the function that waits and the locals it still
    needs. For a chat call, [tag] is the [session_id] its request carried; the
    suspended call itself keeps no copy of it. *)
Inductive Task :=
| AwaitStats
| AwaitOverview
| AwaitSessions (k : AfterSessions)
| AwaitNewSession (name : string)
| AwaitHistory (sessionId : string)
| AwaitChat (typing : nat) (message : string) (tag : option string)
| AwaitSearch
| AwaitDemographics
| AwaitGeography
| AwaitCategories
| AwaitTemporal
| AwaitReport
| TimerSend (query : string).

Inductive Effect :=
| Fetch (r : Request)
| Construct (ref : nat) (on : string)
| Destroy (ref : nat)
| ConsoleError (label : string) (message : string)
| Alert (message : string).

(** ** The state of the page

    The module's [let] variables ([currentSession] and the seven chart
    variables, kept as the map from the name of each variable that holds a
    Chart to its reference), the Chart objects constructed so far, the part
    of the document the script touches, what is waiting for an answer, and a
    trace of what the script did to the outside. *)

Record World := {
  currentSession : option string;
  chartVars : gmap string nat;      (* the chart variables that are not null *)
  charts : list Chart;              (* every Chart constructed; a reference is an index *)
  els : gmap string Element;        (* the elements, by id *)
  navItems : list NavItem;          (* .nav-item, in document order *)
  transcript : list Node;           (* children of #chatMessages *)
  sessionOptions : list (string * string);  (* options of #sessionSelect *)
  nodes : nat;                      (* typing indicators created so far *)
  pending : list Task;
  trace : list Effect;
  uncaught : list string }.         (* errors no handler caught *)

Definition set_currentSession (v : option string) (w : World) : World :=
  {| currentSession := v; chartVars := chartVars w; charts := charts w; els := els w;
     navItems := navItems w; transcript := transcript w;
     sessionOptions := sessionOptions w; nodes := nodes w; pending := pending w;
     trace := trace w; uncaught := uncaught w |}.

Definition set_chartVars (v : gmap string nat) (w : World) : World :=
  {| currentSession := currentSession w; chartVars := v; charts := charts w; els := els w;
     navItems := navItems w; transcript := transcript w;
     sessionOptions := sessionOptions w; nodes := nodes w; pending := pending w;
     trace := trace w; uncaught := uncaught w |}.

Definition set_charts (v : list Chart) (w : World) : World :=
  {| currentSession := currentSession w; chartVars := chartVars w; charts := v; els := els w;
     navItems := navItems w; transcript := transcript w;
     sessionOptions := sessionOptions w; nodes := nodes w; pending := pending w;
     trace := trace w; uncaught := uncaught w |}.

Definition set_els (v : gmap string Element) (w : World) : World :=
  {| currentSession := currentSession w; chartVars := chartVars w; charts := charts w; els := v;
     navItems := navItems w; transcript := transcript w;
     sessionOptions := sessionOptions w; nodes := nodes w; pending := pending w;
     trace := trace w; uncaught := uncaught w |}.

Definition set_navItems (v : list NavItem) (w : World) : World :=
  {| currentSession := currentSession w; chartVars := chartVars w; charts := charts w; els := els w;
     navItems := v; transcript := transcript w;
     sessionOptions := sessionOptions w; nodes := nodes w; pending := pending w;
     trace := trace w; uncaught := uncaught w |}.

Definition set_transcript (v : list Node) (w : World) : World :=
  {| currentSession := currentSession w; chartVars := chartVars w; charts := charts w; els := els w;
     navItems := navItems w; transcript := v;
     sessionOptions := sessionOptions w; nodes := nodes w; pending := pending w;
     trace := trace w; uncaught := uncaught w |}.

Definition set_sessionOptions (v : list (string * string)) (w : World) : World :=
  {| currentSession := currentSession w; chartVars := chartVars w; charts := charts w; els := els w;
     navItems := navItems w; transcript := transcript w;
     sessionOptions := v; nodes := nodes w; pending := pending w;
     trace := trace w; uncaught := uncaught w |}.

Definition set_nodes (v : nat) (w : World) : World :=
  {| currentSession := currentSession w; chartVars := chartVars w; charts := charts w; els := els w;
     navItems := navItems w; transcript := transcript w;
     sessionOptions := sessionOptions w; nodes := v; pending := pending w;
     trace := trace w; uncaught := uncaught w |}.

Definition set_pending (v : list Task) (w : World) : World :=
  {| currentSession := currentSession w; chartVars := chartVars w; charts := charts w; els := els w;
     navItems := navItems w; transcript := transcript w;
     sessionOptions := sessionOptions w; nodes := nodes w; pending := v;
     trace := trace w; uncaught := uncaught w |}.

Definition set_trace (v : list Effect) (w : World) : World :=
  {| currentSession := currentSession w; chartVars := chartVars w; charts := charts w; els := els w;
     navItems := navItems w; transcript := transcript w;
     sessionOptions := sessionOptions w; nodes := nodes w; pending := pending w;
     trace := v; uncaught := uncaught w |}.

Definition set_uncaught (v : list string) (w : World) : World :=
  {| currentSession := currentSession w; chartVars := chartVars w; charts := charts w; els := els w;
     navItems := navItems w; transcript := transcript w;
     sessionOptions := sessionOptions w; nodes := nodes w; pending := pending w;
     trace := trace w; uncaught := v |}.

(** ** Running script code: state and exceptions *)

Inductive Res (A : Type) : Type :=
| Ok (a : A) (w : World)
| Throw (e : string) (w : World).
Arguments Ok {A} a w.
Arguments Throw {A} e w.

Definition M (A : Type) : Type := World -> Res A.

Definition ret {A} (a : A) : M A := fun w => Ok a w.

Definition bind {A B} (m : M A) (k : A -> M B) : M B :=
  fun w => match m w with
           | Ok a w' => k a w'
           | Throw e w' => Throw e w'
           end.

Definition throw {A} (e : string) : M A := fun w => Throw e w.

(** [try { body } catch (error) { handler }]; [error.message] is what the
    handler receives. *)
Definition try_catch {A} (body : M A) (handler : string -> M A) : M A :=
  fun w => match body w with
           | Ok a w' => Ok a w'
           | Throw e w' => handler e w'
           end.

(** [try { body } finally { cleanup }]. *)
Definition try_finally {A} (body : M A) (cleanup : M unit) : M A :=
  fun w => match body w with
           | Ok a w' => match cleanup w' with
                        | Ok _ w'' => Ok a w''
                        | Throw e w'' => Throw e w''
                        end
           | Throw e w' => match cleanup w' with
                           | Ok _ w'' => Throw e w''
                           | Throw e' w'' => Throw e' w''
                           end
           end.

Definition get {A} (f : World -> A) : M A := fun w => Ok (f w) w.
Definition modify (f : World -> World) : M unit := fun w => Ok tt (f w).

Declare Scope js_scope.
Delimit Scope js_scope with js.
Notation "'let*' x := e 'in' k" := (bind e (fun x => k))
  (at level 10, x name, e at level 100, k at level 200) : js_scope.
Notation "e ;; k" := (bind e (fun _ => k))
  (at level 100, k at level 200, right associativity) : js_scope.
Local Open Scope js_scope.

Definition TypeError : string := "TypeError".

(** [a.forEach(f)] *)
Fixpoint forEach {A} (f : A -> M unit) (a : list A) : M unit :=
  match a with
  | [] => ret tt
  | x :: rest => f x ;; forEach f rest
  end.

Definition emit (e : Effect) : M unit := modify (fun w => set_trace (trace w ++ [e]) w).

Definition console_error (label message : string) : M unit := emit (ConsoleError label message).

(** [fetch(...)] up to the first [await]: the request leaves and the caller
    is parked until the answer is delivered. *)
Definition fetch (r : Request) (t : Task) : M unit :=
  emit (Fetch r) ;; modify (fun w => set_pending (pending w ++ [t]) w).

(** *** Document access *)

(** [document.getElementById(id)]: whether the element is there. *)
Definition getElementById (id : string) : M (option Element) :=
  get (fun w => els w !! id).

Definition update_element (id : string) (f : Element -> Element) : M unit :=
  fun w => match els w !! id with
           | Some e => Ok tt (set_els (<[id := f e]> (els w)) w)
           | None => Throw TypeError w
           end.

Definition with_text (s : string) (e : Element) : Element :=
  {| el_text := s; el_value := el_value e; el_checked := el_checked e;
     el_display := el_display e; el_disabled := el_disabled e; el_class := el_class e |}.

Definition with_value (s : string) (e : Element) : Element :=
  {| el_text := el_text e; el_value := s; el_checked := el_checked e;
     el_display := el_display e; el_disabled := el_disabled e; el_class := el_class e |}.

Definition with_display (s : string) (e : Element) : Element :=
  {| el_text := el_text e; el_value := el_value e; el_checked := el_checked e;
     el_display := s; el_disabled := el_disabled e; el_class := el_class e |}.

Definition with_disabled (b : bool) (e : Element) : Element :=
  {| el_text := el_text e; el_value := el_value e; el_checked := el_checked e;
     el_display := el_display e; el_disabled := b; el_class := el_class e |}.

Definition with_class (c : gset string) (e : Element) : Element :=
  {| el_text := el_text e; el_value := el_value e; el_checked := el_checked e;
     el_display := el_display e; el_disabled := el_disabled e; el_class := c |}.

Definition add_class (c : string) (e : Element) : Element := with_class ({[c]} ∪ el_class e) e.
Definition remove_class (c : string) (e : Element) : Element := with_class (el_class e ∖ {[c]}) e.

(** [document.getElementById(id).textContent = s] (or [.innerHTML = s]);
    a TypeError when the element is missing. *)
Definition set_text (id s : string) : M unit := update_element id (with_text s).
Definition set_display (id s : string) : M unit := update_element id (with_display s).

(** [el?.m(...)]: nothing happens when the element is missing. *)
Definition update_element_opt (id : string) (f : Element -> Element) : M unit :=
  modify (fun w => match els w !! id with
                   | Some e => set_els (<[id := f e]> (els w)) w
                   | None => w
                   end).

(** Run a listener or a resumed call to its end; an exception nobody caught
    is reported by the browser and recorded here. *)
Definition run (m : M unit) (w : World) : World :=
  match m w with
  | Ok _ w' => w'
  | Throw e w' => set_uncaught (uncaught w' ++ [e]) w'
  end.

(** *** Chart objects and the variables that hold them *)

Definition mark_destroyed (c : Chart) : Chart :=
  {| canvas := canvas c; config := config c; destroyed := true |}.

(** [chart.destroy()] *)
Definition destroy (ref : nat) : M unit :=
  modify (fun w => set_charts (alter mark_destroyed ref (charts w)) w) ;;
  emit (Destroy ref).

(** [new Chart(ctx, cfg)], [ctx] being the canvas with id [cv]. *)
Definition new_Chart (cv : string) (cfg : ChartConfig) : M nat :=
  let* ref := get (fun w => length (charts w)) in
  modify (fun w => set_charts (charts w ++ [{| canvas := cv; config := cfg; destroyed := false |}]) w) ;;
  emit (Construct ref cv) ;;
  ret ref.

Definition get_var (name : string) : M (option nat) := get (fun w => chartVars w !! name).

Definition set_var (name : string) (v : option nat) : M unit :=
  modify (fun w => set_chartVars (match v with
                                  | Some ref => <[name := ref]> (chartVars w)
                                  | None => delete name (chartVars w)
                                  end) w).

(** [if (chart) chart.destroy()] *)
Definition destroy_if (v : option nat) : M unit :=
  match v with
  | Some ref => destroy ref
  | None => ret tt
  end.

Definition alive_on (cv : string) (c : Chart) : bool :=
  String.eqb (canvas c) cv && negb (destroyed c).

Fixpoint live_from (cv : string) (i : nat) (cs : list Chart) : list nat :=
  match cs with
  | [] => []
  | c :: rest => (if alive_on cv c then [i] else []) ++ live_from cv (S i) rest
  end.

(** The references of the Chart objects that are alive on a canvas. *)
Definition live_on (cv : string) (w : World) : list nat := live_from cv 0 (charts w).

(** Every chart variable of the script is named like the canvas its chart
    is drawn on. The registry is in order when each Chart that is alive is
    the one its variable holds. *)
Definition registry_ok (w : World) : Prop :=
  forall r c, charts w !! r = Some c -> destroyed c = false ->
              chartVars w !! canvas c = Some r.

(** *** Chart.js

    The script is written against Chart.js 3 or later ([Chart.defaults.color],
    [options.plugins], [indexAxis]). There [backgroundColor] is an indexable
    option: for the data point at [index] an array [value] resolves to
    [value[index % value.length]], anything else to itself. *)
Definition resolve_indexable (value : Colour) (index : nat) : option string :=
  match value with
  | OneColour c => Some c
  | Colours [] => None
  | Colours cs => cs !! (index mod length cs)%nat
  end.

(** ** The script

    An [async] function [f] is two definitions: [f], what runs when it is
    called, up to its first [await fetch(...)], and [f_resume], what runs
    when the answer is delivered. [fetch] and [response.json()] are one
    suspension: nothing of the page is read or written between them. *)

(** *** Clock and menu *)

(** [updateTimestamp()], [now] being the formatted time. *)
Definition updateTimestamp (now : string) : M unit := set_text "timestamp" now.

(** [classList.toggle('open')] *)
Definition toggle_open (e : Element) : Element :=
  if bool_decide ("open" ∈ el_class e) then remove_class "open" e else add_class "open" e.

(** *** Dashboard *)

Definition num_or (o : option number) (d : number) : number :=
  match o with
  | Some x => if PrimFloat.is_zero x || PrimFloat.is_nan x then d else x
  | None => d
  end.

Definition lookup_key (k : string) (b : Breakdown) : option number :=
  snd <$> List.find (fun kv => String.eqb (fst kv) k) b.

Definition silenced_count (data : Stats) : number :=
  Math_round (total_complaints data * silence_rate data / 100)%float.

Definition alert_text (data : Stats) : string :=
  toString (silence_rate data) +:+ "% of complaints (" +:+
  toLocaleString (silenced_count data) +:+ " cases) are being systematically ignored".

Definition overview_config (scores : list number) : ChartConfig :=
  {| cfg_type := "bar";
     cfg_labels := ["0-3L"; "3-6L"; "6-10L"; "10L+"];
     cfg_label := Some "Avg Silence Score";
     cfg_data := scores;
     cfg_backgroundColor := Colours ["#ff6b6b"; "#ffb700"; "#00d4ff"; "#00ff88"];
     cfg_borderRadius := 2;
     cfg_tension := 0;
     cfg_title := Some "Silence Score by Income Level";
     cfg_scales := Some {| value_max := Some 100%Z; index_axis_y := false |} |}.

Definition loadOverviewChart : M unit :=
  fetch GetDemographicSilence AwaitOverview.

Definition loadOverviewChart_resume (a : Answer Demographic) : M unit :=
  try_catch
    (match a with
     | NetworkFailure msg => throw msg
     | BackendError _ => ret tt
     | Success data =>
         let* ctx := getElementById "overviewChart" in
         match ctx with
         | None => ret tt
         | Some _ =>
             let* old := get_var "overviewChart" in
             destroy_if old ;;
             let incomeData := by_income data in
             let labels := ["0-3L"; "3-6L"; "6-10L"; "10L+"] in
             let scores := List.map (fun l => num_or (lookup_key l incomeData) 0) labels in
             let* c := new_Chart "overviewChart" (overview_config scores) in
             set_var "overviewChart" (Some c)
         end
     end)
    (fun e => console_error "Overview chart error:" e).

Definition loadDashboard : M unit :=
  fetch GetStats AwaitStats.

Definition loadDashboard_resume (a : Answer Stats) : M unit :=
  try_catch
    (match a with
     | NetworkFailure msg => throw msg
     | BackendError _ => ret tt
     | Success data =>
         set_text "totalCases" (toLocaleString (total_complaints data)) ;;
         set_text "headerCases" (toLocaleString (total_complaints data)) ;;
         let silenced := silenced_count data in
         set_text "silencedCount" (toLocaleString silenced) ;;
         set_text "silenceRate" (toString (silence_rate data) +:+ "%") ;;
         set_text "headerSilenced" (toLocaleString silenced) ;;
         set_text "avgScore" (toString (avg_silence_score data)) ;;
         set_text "avgDays" (toString (Math_round (avg_days_in_system data))) ;;
         set_text "alertText" (alert_text data) ;;
         loadOverviewChart
     end)
    (fun e => console_error "Dashboard error:" e).

(** *** Dynamic chart *)

Definition palette : list string :=
  ["#00d4ff"; "#ffb700"; "#ff6b6b"; "#00ff88"; "#a855f7"; "#ec4899"].

(** [a.slice(0, n)] *)
Definition slice0 {A} (n : nat) (a : list A) : list A := firstn n a.

Definition is_type (t : string) (chartData : ChartData) : bool :=
  match cd_type chartData with
  | Some s => String.eqb s t
  | None => false
  end.

Definition dynamic_config (chartData : ChartData) : ChartConfig :=
  {| cfg_type := or_else (cd_type chartData) "bar";
     cfg_labels := cd_labels chartData;
     cfg_label := Some (or_else (cd_label chartData) "Value");
     cfg_data := cd_values chartData;
     cfg_backgroundColor := Colours (slice0 (length (cd_labels chartData)) palette);
     cfg_borderRadius := if is_type "bar" chartData then 2 else 0;
     cfg_tension := if is_type "line" chartData then 0x1.999999999999ap-2%float else 0%float;
     cfg_title := None;
     cfg_scales := if negb (is_type "pie" chartData) && negb (is_type "doughnut" chartData)
                   then Some {| value_max := None; index_axis_y := false |}
                   else None |}.

Definition renderDynamicChart (chartData : ChartData) : M unit :=
  let* panel := getElementById "chartPanel" in
  let* ctx := getElementById "dynamicChart" in
  match panel, ctx with
  | Some _, Some _ =>
      set_display "chartPanel" "flex" ;;
      set_text "chartTitle" (or_else (cd_title chartData) "Analysis Chart") ;;
      let* old := get_var "dynamicChart" in
      destroy_if old ;;
      let* c := new_Chart "dynamicChart" (dynamic_config chartData) in
      set_var "dynamicChart" (Some c)
  | _, _ => ret tt
  end.

Definition closeChart : M unit :=
  update_element_opt "chartPanel" (with_display "none") ;;
  let* old := get_var "dynamicChart" in
  match old with
  | Some ref => destroy ref ;; set_var "dynamicChart" None
  | None => ret tt
  end.

(** *** Chat *)

Definition append_node (n : Node) : M unit :=
  fun w => match els w !! "chatMessages" with
           | Some _ => Ok tt (set_transcript (transcript w ++ [n]) w)
           | None => Throw TypeError w
           end.

(** [messages.innerHTML = ...]: the children are replaced. *)
Definition replace_nodes (ns : list Node) : M unit :=
  fun w => match els w !! "chatMessages" with
           | Some _ => Ok tt (set_transcript ns w)
           | None => Throw TypeError w
           end.

(** The markdown rendering of [content] does not change what the node says;
    it is left out. *)
Definition addMessageToChat (role content : string) : M unit :=
  append_node (Message role content).

Definition is_typing (id : nat) (n : Node) : bool :=
  match n with
  | Typing i => Nat.eqb i id
  | _ => false
  end.

(** [typingDiv.remove()]: the node leaves its parent, if it has one. *)
Definition remove_typing (id : nat) : M unit :=
  modify (fun w => set_transcript (List.filter (fun n => negb (is_typing id n)) (transcript w)) w).

(** [id.slice(0, 8)] is [take 8]: it counts bytes, which are the UTF-16
    units [slice] counts as long as the first eight characters of the id are
    ASCII, as those of a UUID are. *)
Definition session_label (s : SessionInfo) : string :=
  or_else (session_name s) ("Session " +:+ JSNumber.take 8 (session_id s)).

Definition loadSessions (k : AfterSessions) : M unit :=
  fetch GetSessions (AwaitSessions k).

Definition loadSessions_resume (a : Answer (list SessionInfo)) : M unit :=
  try_catch
    (match a with
     | NetworkFailure msg => throw msg
     | BackendError _ => ret tt
     | Success sessions =>
         let* select := getElementById "sessionSelect" in
         match select with
         | None => ret tt
         | Some _ =>
             modify (set_sessionOptions
                       (("", "New Investigation") ::
                        List.map (fun s => (session_id s, session_label s)) sessions))
         end
     end)
    (fun e => console_error "Load sessions error:" e).

Definition no_session (w : World) : bool :=
  match currentSession w with
  | Some s => String.eqb s ""
  | None => true
  end.

Definition chat_catch (typing : nat) (e : string) : M unit :=
  remove_typing typing ;;
  addMessageToChat "assistant" ("Connection error: " +:+ e).

(** The end of the [try] block of [sendChatMessage], from "Add assistant
    message" on. *)
Definition chat_finish (reply : string) (chart : option ChartData) : M unit :=
  addMessageToChat "assistant" reply ;;
  match chart with
  | Some chartData => renderDynamicChart chartData
  | None => ret tt
  end.

Definition sendChatMessage (message : string) : M unit :=
  update_element_opt "chatInput" (with_value "") ;;
  addMessageToChat "user" message ;;
  let* typing := get nodes in
  modify (fun w => set_nodes (S (nodes w)) w) ;;
  append_node (Typing typing) ;;
  let* session := get currentSession in
  fetch (PostChat message session) (AwaitChat typing message session).

Definition sendChatMessage_resume (typing : nat) (a : Answer ChatData) : M unit :=
  try_catch
    (match a with
     | NetworkFailure msg => throw msg
     | BackendError error =>
         remove_typing typing ;;
         addMessageToChat "assistant" ("Error: " +:+ error)
     | Success data =>
         remove_typing typing ;;
         let* fresh := get no_session in
         if truthy (or_else (chat_session_id data) "") && fresh then
           modify (set_currentSession (chat_session_id data)) ;;
           loadSessions (ResumeChat typing (response data) (chart_data data))
         else chat_finish (response data) (chart_data data)
     end)
    (chat_catch typing).

(** [sendChatMessage] after [await loadSessions()]. *)
Definition sendChatMessage_resume2 (typing : nat) (reply : string) (chart : option ChartData) : M unit :=
  try_catch (chat_finish reply chart) (chat_catch typing).

Definition sendSuggestion (query : string) : M unit := sendChatMessage query.

(** [select.value = v]: the value sticks only if an option carries it. *)
Definition select_value (options : list (string * string)) (v : string) : string :=
  if existsb (fun o => String.eqb (fst o) v) options then v else "".

Definition createNewSession (answer : option string) : M unit :=
  match answer with
  | None | Some EmptyString => ret tt
  | Some name => fetch (PostNewSession name) (AwaitNewSession name)
  end.

Definition createNewSession_resume (name : string) (a : Answer string) : M unit :=
  try_catch
    (match a with
     | NetworkFailure msg => throw msg
     | BackendError _ => ret tt
     | Success sid =>
         modify (set_currentSession (Some sid)) ;;
         loadSessions (ResumeNewSession name)
     end)
    (fun e => console_error "Create session error:" e).

Definition createNewSession_resume2 (name : string) : M unit :=
  try_catch
    (let* session := get currentSession in
     let* options := get sessionOptions in
     update_element_opt "sessionSelect" (with_value (select_value options (default "" session))) ;;
     match session with
     | None => throw TypeError
     | Some sid =>
         replace_nodes [Banner ("NEW SESSION: " +:+ name)
                               ("Session ID: " +:+ JSNumber.take 8 sid +:+ "...")]
     end)
    (fun e => console_error "Create session error:" e).

Definition loadSessionHistory (sessionId : string) : M unit :=
  fetch (GetHistory sessionId) (AwaitHistory sessionId).

Definition loadSessionHistory_resume (sessionId : string) (a : Answer (list HistoryMessage)) : M unit :=
  try_catch
    (match a with
     | NetworkFailure msg => throw msg
     | BackendError _ => ret tt
     | Success messages =>
         modify (set_currentSession (Some sessionId)) ;;
         replace_nodes [] ;;
         forEach (fun msg => addMessageToChat (role msg) (content msg)) messages
     end)
    (fun e => console_error "Load history error:" e).

(** *** Search *)

Definition panel_body : string := "#searchResults .panel-body".

Definition newline : string := String "010"%char "".

Definition score_class (score : number) : string :=
  if (70 <=? score)%float then "high"
  else if (50 <=? score)%float then "medium" else "low".

(** The text of one result card; of the markup only the class of the score
    is kept. *)
Definition result_card (r : SearchResult) : string :=
  "#" +:+ or_else (sr_id r) "N/A" +:+ " [" +:+ score_class (silence_score r) +:+ "] " +:+
  toString (silence_score r) +:+ newline +:+ sr_text r +:+ newline +:+
  sr_category r +:+ " " +:+ sr_gender r +:+ " " +:+ sr_income r +:+ " " +:+ sr_ward r +:+ newline.

(** [resultsPanel.querySelector('.panel-body').innerHTML = ...] *)
Definition set_panel (what : string) : M unit :=
  let* resultsPanel := getElementById "searchResults" in
  match resultsPanel with
  | None => throw TypeError
  | Some _ => set_text panel_body what
  end.

Definition performSearch : M unit :=
  let* searchInput := getElementById "searchInput" in
  let* silencedBox := getElementById "silencedOnly" in
  let query := default "" (trim <$> (el_value <$> searchInput)) in
  let silencedOnly := default false (el_checked <$> silencedBox) in
  if negb (truthy query) then emit (Alert "Please enter a search query")
  else
    set_panel "Searching..." ;;
    fetch (PostSearch query 20 (if silencedOnly then Some 70 else None)) AwaitSearch.

Definition performSearch_resume (a : Answer (list SearchResult)) : M unit :=
  try_catch
    (match a with
     | NetworkFailure msg => throw msg
     | BackendError _ => ret tt
     | Success results =>
         if (length results =? 0)%nat then set_panel "No results found"
         else set_panel (String.concat "" (List.map result_card results))
     end)
    (fun e => set_panel ("Error: " +:+ e)).

(** *** Demographics *)

Definition demo_colours (type : string) : list string :=
  if String.eqb type "gender" then ["#ff6b6b"; "#00d4ff"; "#ffb700"]
  else if String.eqb type "caste" then ["#00ff88"; "#ffb700"; "#ff6b6b"; "#a855f7"]
  else if String.eqb type "income" then ["#ff6b6b"; "#ffb700"; "#00d4ff"; "#00ff88"]
  else ["#00d4ff"].

Definition demo_config (data : Breakdown) (type : string) : ChartConfig :=
  {| cfg_type := "bar";
     cfg_labels := List.map fst data;
     cfg_label := None;
     cfg_data := List.map snd data;
     cfg_backgroundColor := Colours (demo_colours type);
     cfg_borderRadius := 2;
     cfg_tension := 0;
     cfg_title := None;
     cfg_scales := Some {| value_max := Some 100%Z; index_axis_y := false |} |}.

Definition createDemoChart (canvasId : string) (data : Breakdown) (type : string)
    (chartRef : option nat) (setChart : nat -> M unit) : M unit :=
  let* ctx := getElementById canvasId in
  match ctx with
  | None => ret tt
  | Some _ =>
      destroy_if chartRef ;;
      let* chart := new_Chart canvasId (demo_config data type) in
      setChart chart
  end.

Definition li (s : string) : string := s +:+ newline.

(** [findings.innerHTML += ...] *)
Definition append_text (id s : string) : M unit :=
  update_element id (fun e => with_text (el_text e +:+ s) e).

(** One ratio finding: written only when both operands are there. *)
Definition ratio_finding (b : Breakdown) (k1 k2 : string) (say : string -> string) : M unit :=
  match lookup_key k1 b, lookup_key k2 b with
  | Some x, Some y => append_text "demoFindings" (li (say (toFixed 2 (x / y)%float)))
  | _, _ => ret tt
  end.

Definition loadDemographics : M unit :=
  fetch GetDemographicSilence AwaitDemographics.

Definition loadDemographics_resume (a : Answer Demographic) : M unit :=
  try_catch
    (match a with
     | NetworkFailure msg => throw msg
     | BackendError _ => ret tt
     | Success data =>
         let* genderChart := get_var "genderChart" in
         createDemoChart "genderChart" (by_gender data) "gender" genderChart
           (fun c => set_var "genderChart" (Some c)) ;;
         let* casteChart := get_var "casteChart" in
         createDemoChart "casteChart" (by_caste data) "caste" casteChart
           (fun c => set_var "casteChart" (Some c)) ;;
         let incomeOrder := ["0-3L"; "3-6L"; "6-10L"; "10L+"] in
         let incomeData :=
           omap (fun k => (fun v => (k, v)) <$> lookup_key k (by_income data)) incomeOrder in
         let* incomeChart := get_var "incomeChart" in
         createDemoChart "incomeChart" incomeData "income" incomeChart
           (fun c => set_var "incomeChart" (Some c)) ;;
         let* findings := getElementById "demoFindings" in
         match findings with
         | None => ret tt
         | Some _ =>
             set_text "demoFindings" "" ;;
             ratio_finding (by_gender data) "F" "M"
               (fun ratio => "Women face " +:+ ratio +:+ "x higher silence scores than men") ;;
             ratio_finding (by_income data) "0-3L" "10L+"
               (fun ratio => "Lowest income bracket silenced " +:+ ratio +:+ "x more than highest") ;;
             ratio_finding (by_caste data) "SC" "General"
               (fun ratio => "SC caste faces " +:+ ratio +:+ "x higher silence rates than General")
         end
     end)
    (fun e => console_error "Demographics error:" e).

(** *** Geography *)

Definition status_text (w : Ward) : string :=
  if (70 <=? ward_avg_silence w)%float then "CRITICAL"
  else if (50 <=? ward_avg_silence w)%float then "WARNING" else "OK".

Definition ward_row (i : nat) (w : Ward) : string :=
  JSNumber.dec_digits (Z.of_nat (i + 1)) +:+ " " +:+ ward w +:+ " " +:+
  toString (ward_avg_silence w) +:+ " " +:+ toString (ward_count w) +:+ " " +:+
  toString (ward_silenced_pct w) +:+ "% " +:+ status_text w +:+ newline.

Definition loadGeography : M unit :=
  fetch (GetGeographicSilence 15) AwaitGeography.

Definition loadGeography_resume (a : Answer (list Ward)) : M unit :=
  try_catch
    (match a with
     | NetworkFailure msg => throw msg
     | BackendError _ => ret tt
     | Success wards =>
         let* tbody := getElementById "geoTableBody" in
         match tbody with
         | None => ret tt
         | Some _ =>
             set_text "geoTableBody" "" ;;
             forEach (fun iw => append_text "geoTableBody" (ward_row (fst iw) (snd iw)))
                     (imap (fun i w => (i, w)) wards)
         end
     end)
    (fun e => console_error "Geography error:" e).

(** *** Categories *)

Definition category_config (categories : list Category) : ChartConfig :=
  {| cfg_type := "bar";
     cfg_labels := List.map category categories;
     cfg_label := Some "Silenced %";
     cfg_data := List.map cat_silenced_pct categories;
     cfg_backgroundColor := OneColour "#ff6b6b";
     cfg_borderRadius := 2;
     cfg_tension := 0;
     cfg_title := None;
     cfg_scales := Some {| value_max := Some 100%Z; index_axis_y := true |} |}.

Definition category_findings (most least : Category) : string :=
  li (category most +:+ " complaints are most ignored (" +:+
      toString (cat_silenced_pct most) +:+ "% silenced)") +:+
  li (category least +:+ " complaints are least ignored (" +:+
      toString (cat_silenced_pct least) +:+ "% silenced)") +:+
  li "Critical infrastructure issues face systematic deprioritization".

Definition loadCategories : M unit :=
  fetch GetComplaintTypes AwaitCategories.

Definition loadCategories_resume (a : Answer (list Category)) : M unit :=
  try_catch
    (match a with
     | NetworkFailure msg => throw msg
     | BackendError _ => ret tt
     | Success categories =>
         let* ctx := getElementById "categoryChart" in
         match ctx with
         | None => ret tt
         | Some _ =>
             let* old := get_var "categoryChart" in
             destroy_if old ;;
             let* c := new_Chart "categoryChart" (category_config categories) in
             set_var "categoryChart" (Some c)
         end ;;
         let* findings := getElementById "catFindings" in
         match findings with
         | None => ret tt
         | Some _ =>
             (* categories[0] and categories[length - 1] are undefined on an
                empty array; reading .category of undefined throws *)
             match categories !! 0%nat, categories !! (length categories - 1)%nat with
             | Some most, Some least => set_text "catFindings" (category_findings most least)
             | _, _ => throw TypeError
             end
         end
     end)
    (fun e => console_error "Categories error:" e).

(** *** Temporal *)

Definition temporal_config (buckets : list Bucket) : ChartConfig :=
  {| cfg_type := "line";
     cfg_labels := List.map time_bucket buckets;
     cfg_label := Some "Silenced %";
     cfg_data := List.map bucket_silenced_pct buckets;
     cfg_backgroundColor := OneColour "rgba(255, 107, 107, 0.1)";
     cfg_borderRadius := 0;
     cfg_tension := 0x1.999999999999ap-2%float;
     cfg_title := None;
     cfg_scales := Some {| value_max := Some 100%Z; index_axis_y := false |} |}.

Definition temporal_insight (first last : Bucket) : string :=
  "Complaints in the " +:+ time_bucket first +:+ " range have " +:+
  toString (bucket_silenced_pct first) +:+ "% silence rate. Those in " +:+
  time_bucket last +:+ " range reach " +:+ toString (bucket_silenced_pct last) +:+
  "%. This exponential decay demonstrates institutional neglect - the longer a complaint waits, the more likely it's forgotten.".

Definition loadTemporal : M unit :=
  fetch GetTemporalDecay AwaitTemporal.

Definition loadTemporal_resume (a : Answer (list Bucket)) : M unit :=
  try_catch
    (match a with
     | NetworkFailure msg => throw msg
     | BackendError _ => ret tt
     | Success buckets =>
         let* ctx := getElementById "temporalChart" in
         match ctx with
         | None => ret tt
         | Some _ =>
             let* old := get_var "temporalChart" in
             destroy_if old ;;
             let* c := new_Chart "temporalChart" (temporal_config buckets) in
             set_var "temporalChart" (Some c)
         end ;;
         let* insight := getElementById "temporalInsight" in
         match insight, buckets !! 0%nat, buckets !! (length buckets - 1)%nat with
         | Some _, Some first, Some last => set_text "temporalInsight" (temporal_insight first last)
         | _, _, _ => ret tt
         end
     end)
    (fun e => console_error "Temporal error:" e).

(** *** Report *)

Definition runFullReport : M unit :=
  update_element "runReportBtn" (fun e => with_text "Investigating..." (with_disabled true e)) ;;
  set_display "reportStatus" "block" ;;
  set_display "reportResults" "none" ;;
  fetch PostInvestigate AwaitReport.

Definition runFullReport_resume (a : Answer string) : M unit :=
  try_finally
    (try_catch
       (match a with
        | NetworkFailure msg => throw msg
        | BackendError error =>
            set_display "reportStatus" "none" ;;
            emit (Alert ("Error: " +:+ error))
        | Success report =>
            set_display "reportStatus" "none" ;;
            set_display "reportResults" "block" ;;
            set_text "reportContent" report
        end)
       (fun e => set_display "reportStatus" "none" ;; emit (Alert ("Error: " +:+ e))))
    (update_element "runReportBtn"
       (fun e => with_text "RUN FULL INVESTIGATION" (with_disabled false e))).

(** *** Navigation *)

Definition pageNames : list (string * string) :=
  [("dashboard", "Command Center");
   ("chat", "AI Analysis");
   ("search", "Case Search");
   ("demographics", "Demographics");
   ("geography", "Geographic Analysis");
   ("categories", "Category Analysis");
   ("temporal", "Temporal Analysis");
   ("report", "Full Report")].

(** The names every object literal inherits; [pageNames[name]] is then a
    function (or the prototype itself), which is truthy. *)
Definition Object_prototype : list string :=
  ["constructor"; "hasOwnProperty"; "isPrototypeOf"; "propertyIsEnumerable";
   "toLocaleString"; "toString"; "valueOf"; "__defineGetter__"; "__defineSetter__";
   "__lookupGetter__"; "__lookupSetter__"; "__proto__"].

Definition inherited_text (name : string) : string :=
  if String.eqb name "__proto__" then "[object Object]"
  else if String.eqb name "constructor" then "function Object() { [native code] }"
  else "function " +:+ name +:+ "() { [native code] }".

(** [pageNames[screenId] || screenId] *)
Definition page_title (screenId : string) : string :=
  match List.find (fun kv => String.eqb (fst kv) screenId) pageNames with
  | Some kv => snd kv
  | None =>
      if existsb (String.eqb screenId) Object_prototype then inherited_text screenId
      else screenId
  end.

Definition loadScreenData (screenId : string) : M unit :=
  if String.eqb screenId "dashboard" then loadDashboard
  else if String.eqb screenId "demographics" then loadDemographics
  else if String.eqb screenId "geography" then loadGeography
  else if String.eqb screenId "categories" then loadCategories
  else if String.eqb screenId "temporal" then loadTemporal
  else ret tt.

(** The request each branch of the [switch] sends. *)
Definition refresh_request (screenId : string) : option Request :=
  if String.eqb screenId "dashboard" then Some GetStats
  else if String.eqb screenId "demographics" then Some GetDemographicSilence
  else if String.eqb screenId "geography" then Some (GetGeographicSilence 15)
  else if String.eqb screenId "categories" then Some GetComplaintTypes
  else if String.eqb screenId "temporal" then Some GetTemporalDecay
  else None.

Definition is_screen (e : Element) : bool := bool_decide ("screen" ∈ el_class e).
Definition is_active (e : Element) : bool := bool_decide ("active" ∈ el_class e).

Definition deactivate (e : Element) : Element :=
  if is_screen e then remove_class "active" e else e.

Definition sidebar : string := ".sidebar".

(** The click listener of a nav item, from "Update screen" on, for the
    item's [data-screen]. *)
Definition selectScreen (screenId : string) : M unit :=
  modify (fun w => set_els (deactivate <$> els w) w) ;;
  update_element_opt screenId (add_class "active") ;;
  set_text "pageTitle" (page_title screenId) ;;
  loadScreenData screenId ;;
  update_element_opt sidebar (remove_class "open").

(** The click listener of the [i]-th nav item. *)
Definition navClick (i : nat) : M unit :=
  let* items := get navItems in
  match items !! i with
  | None => ret tt
  | Some item =>
      modify (set_navItems
                (imap (fun j it => {| data_screen := data_screen it;
                                      nav_active := Nat.eqb j i |}) items)) ;;
      selectScreen (data_screen item)
  end.

(** The ids of the screens that carry the class [active]. *)
Definition active_screens (w : World) : gset string :=
  dom (filter (fun kv => is_screen kv.2 = true ∧ is_active kv.2 = true) (els w)).

Fixpoint find_index {A} (p : A -> bool) (l : list A) : option nat :=
  match l with
  | [] => None
  | x :: rest => if p x then Some 0%nat else S <$> find_index p rest
  end.

(** [quickAnalysis(query)]: click the chat nav item, then send after 300 ms.
    An exception in the click listener is reported, not passed on. *)
Definition quickAnalysis (query : string) : M unit :=
  let* items := get navItems in
  match find_index (fun it => String.eqb (data_screen it) "chat") items with
  | Some i => modify (run (navClick i))
  | None => ret tt
  end ;;
  modify (fun w => set_pending (pending w ++ [TimerSend query]) w).

(** ** The event loop *)

Inductive Reply :=
| StatsReply (a : Answer Stats)
| DemographicReply (a : Answer Demographic)
| GeographicReply (a : Answer (list Ward))
| ComplaintTypesReply (a : Answer (list Category))
| TemporalReply (a : Answer (list Bucket))
| SearchReply (a : Answer (list SearchResult))
| ChatReply (a : Answer ChatData)
| SessionsReply (a : Answer (list SessionInfo))
| NewSessionReply (a : Answer string)
| HistoryReply (a : Answer (list HistoryMessage))
| ReportReply (a : Answer string)
| TimerFired.

(** What the caller of [await loadSessions()] does next. *)
Definition after_sessions (k : AfterSessions) : M unit :=
  match k with
  | Detached => ret tt
  | ResumeNewSession name => createNewSession_resume2 name
  | ResumeChat typing reply chart => sendChatMessage_resume2 typing reply chart
  end.

(** The code a task runs on its answer; [None] when the answer is not one
    the task's request can get. *)
Definition resume (t : Task) (r : Reply) : option (M unit) :=
  match t, r with
  | AwaitStats, StatsReply a => Some (loadDashboard_resume a)
  | AwaitOverview, DemographicReply a => Some (loadOverviewChart_resume a)
  | AwaitSessions k, SessionsReply a => Some (loadSessions_resume a ;; after_sessions k)
  | AwaitNewSession name, NewSessionReply a => Some (createNewSession_resume name a)
  | AwaitHistory sessionId, HistoryReply a => Some (loadSessionHistory_resume sessionId a)
  | AwaitChat typing _ _, ChatReply a => Some (sendChatMessage_resume typing a)
  | AwaitSearch, SearchReply a => Some (performSearch_resume a)
  | AwaitDemographics, DemographicReply a => Some (loadDemographics_resume a)
  | AwaitGeography, GeographicReply a => Some (loadGeography_resume a)
  | AwaitCategories, ComplaintTypesReply a => Some (loadCategories_resume a)
  | AwaitTemporal, TemporalReply a => Some (loadTemporal_resume a)
  | AwaitReport, ReportReply a => Some (runFullReport_resume a)
  | TimerSend query, TimerFired => Some (sendChatMessage query)
  | _, _ => None
  end.

(** The [i]-th pending task gets its answer. *)
Definition deliver (i : nat) (r : Reply) (w : World) : World :=
  match pending w !! i with
  | None => w
  | Some t =>
      match resume t r with
      | None => w
      | Some m => run m (set_pending (delete i (pending w)) w)
      end
  end.

(** What the user, the clock and the network can do to the page. The
    listeners are taken as attached: [DOMContentLoaded] here is the work the
    page does on load besides attaching them. *)
Inductive Event :=
| DOMContentLoaded (now : string)
| Tick (now : string)
| ClickMenu
| ClickNav (i : nat)
| TypeChat (text : string)
| ClickSend
| KeypressChat (key : string) (shiftKey : bool)
| ClickNewSession (prompt_answer : option string)
| ClickClearChat
| ChangeSession (value : string)
| ClickSuggestion (query : string)
| ClickQuickAnalysis (query : string)
| ClickCloseChart
| TypeSearch (text : string)
| ToggleSilencedOnly (checked : bool)
| ClickSearch
| KeypressSearch (key : string)
| ClickRunReport
| Deliver (i : nat) (r : Reply).

(** A listener attached with [el?.addEventListener] exists only if the
    element does. *)
Definition on (id : string) (listener : M unit) : M unit :=
  let* el := getElementById id in
  match el with
  | Some _ => listener
  | None => ret tt
  end.

(** The listeners [initChat] attaches to the send button and the input. *)
Definition send_from_input : M unit :=
  let* chatInput := getElementById "chatInput" in
  match chatInput with
  | None => ret tt
  | Some el =>
      let msg := trim (el_value el) in
      if truthy msg then sendChatMessage msg else ret tt
  end.

Definition clear_chat : M unit :=
  replace_nodes [Banner "SENTINEL INITIALIZED"
                        "Chat display cleared. Session history preserved."].

Definition session_changed (sessionId : string) : M unit :=
  update_element_opt "sessionSelect" (with_value sessionId) ;;
  if truthy sessionId then loadSessionHistory sessionId
  else modify (set_currentSession None).

Definition handler (e : Event) : M unit :=
  match e with
  | DOMContentLoaded now => updateTimestamp now ;; loadDashboard ;; loadSessions Detached
  | Tick now => updateTimestamp now
  | ClickMenu => on "menuBtn" (update_element_opt sidebar toggle_open)
  | ClickNav i => navClick i
  | TypeChat text => update_element_opt "chatInput" (with_value text)
  | ClickSend => on "sendBtn" send_from_input
  | KeypressChat key shiftKey =>
      on "chatInput" (if String.eqb key "Enter" && negb shiftKey then send_from_input else ret tt)
  | ClickNewSession answer => on "newSessionBtn" (createNewSession answer)
  | ClickClearChat => on "clearChatBtn" clear_chat
  | ChangeSession value => on "sessionSelect" (session_changed value)
  | ClickSuggestion query => sendSuggestion query
  | ClickQuickAnalysis query => quickAnalysis query
  | ClickCloseChart => closeChart
  | TypeSearch text => update_element_opt "searchInput" (with_value text)
  | ToggleSilencedOnly checked =>
      update_element_opt "silencedOnly"
        (fun e => {| el_text := el_text e; el_value := el_value e; el_checked := checked;
                     el_display := el_display e; el_disabled := el_disabled e;
                     el_class := el_class e |})
  | ClickSearch => on "searchBtn" performSearch
  | KeypressSearch key => on "searchInput" (if String.eqb key "Enter" then performSearch else ret tt)
  | ClickRunReport => on "runReportBtn" runFullReport
  | Deliver _ _ => ret tt
  end.

Definition step (e : Event) (w : World) : World :=
  match e with
  | Deliver i r => deliver i r w
  | _ => run (handler e) w
  end.

Definition steps (es : list Event) (w : World) : World := foldl (fun w e => step e w) w es.

(** Chat requests that have left and have no answer yet. *)
Definition is_chat (t : Task) : bool :=
  match t with
  | AwaitChat _ _ _ => true
  | _ => false
  end.

Definition chat_in_flight (w : World) : nat := length (List.filter is_chat (pending w)).

(** ** A page to run the script on

    The markup is not part of the script; this page has every element the
    script asks for, the eight screens of [pageNames] with the dashboard
    showing, and a nav item per screen. *)

Definition blank : Element :=
  {| el_text := ""; el_value := ""; el_checked := false; el_display := "";
     el_disabled := false; el_class := ∅ |}.

Definition screen_el (active : bool) : Element :=
  with_class (if active then {["screen"; "active"]} else {["screen"]}) blank.

Definition widget_ids : list string :=
  ["timestamp"; "pageTitle"; "totalCases"; "headerCases"; "silencedCount"; "silenceRate";
   "headerSilenced"; "avgScore"; "avgDays"; "alertText"; "overviewChart"; "chatInput";
   "sendBtn"; "newSessionBtn"; "clearChatBtn"; "sessionSelect"; "chatMessages";
   "chartPanel"; "chartTitle"; "dynamicChart"; "searchBtn"; "searchInput"; "silencedOnly";
   "searchResults"; panel_body; "demoFindings"; "genderChart"; "casteChart"; "incomeChart";
   "geoTableBody"; "categoryChart"; "catFindings"; "temporalChart"; "temporalInsight";
   "runReportBtn"; "reportStatus"; "reportResults"; "reportContent"; "menuBtn"; sidebar].

Definition page_elements : gmap string Element :=
  list_to_map (List.map (fun id => (id, blank)) widget_ids ++
               List.map (fun kv => (fst kv, screen_el (String.eqb (fst kv) "dashboard"))) pageNames).

Definition page : World :=
  {| currentSession := None;
     chartVars := ∅;
     charts := [];
     els := page_elements;
     navItems := List.map (fun kv => {| data_screen := fst kv;
                                        nav_active := String.eqb (fst kv) "dashboard" |}) pageNames;
     transcript := [];
     sessionOptions := [];
     nodes := 0;
     pending := [];
     trace := [];
     uncaught := [] |}.

Definition text_of (id : string) (w : World) : option string := el_text <$> els w !! id.

(** ** Fixtures *)

(** The page without some of its elements. *)
Definition without (ids : list string) (w : World) : World :=
  set_els (foldr delete (els w) ids) w.

Definition income_chart : ChartData :=
  {| cd_type := Some "bar"; cd_title := Some "Income"; cd_label := None;
     cd_labels := ["0-3L"; "10L+"]; cd_values := [72; 31]%float |}.

(** ** Invariants of script code

    [preserves I m]: if [I] holds before [m], it holds after, whether [m]
    returns or throws. *)
Definition preserves (I : World -> Prop) {A} (m : M A) : Prop :=
  forall w, I w -> match m w with
                   | Ok _ w' => I w'
                   | Throw _ w' => I w'
                   end.

Definition seven_slices : ChartData :=
  {| cd_type := Some "pie"; cd_title := None; cd_label := None;
     cd_labels := ["Mon"; "Tue"; "Wed"; "Thu"; "Fri"; "Sat"; "Sun"];
     cd_values := [7; 6; 5; 4; 3; 2; 1]%float |}.



(** ** Worlds after a write *)

Definition present (id : string) (w : World) : Prop := is_Some (els w !! id).

(** The page after [update_element id f] went through. *)
Definition updated (id : string) (f : Element -> Element) (w : World) : World :=
  set_els (alter f id (els w)) w.

(** The page after [fetch r t]. *)
Definition fetched (r : Request) (t : Task) (w : World) : World :=
  set_pending (pending w ++ [t]) (set_trace (trace w ++ [Fetch r]) w).

(** [if (v) v.destroy(); v = new Chart(ctx, cfg)], [v] being the variable
    named like the canvas: the lines [loadOverviewChart],
    [renderDynamicChart], [loadCategories] and [loadTemporal] share. *)
Definition replace_chart (cv : string) (cfg : ChartConfig) : M unit :=
  let* old := get_var cv in
  destroy_if old ;;
  let* c := new_Chart cv cfg in
  set_var cv (Some c).


(** Whether [id] is the id of a screen of the page. *)
Definition names_screen (id : string) (w : World) : bool :=
  match els w !! id with
  | Some e => is_screen e
  | None => false
  end.

(** One [selectScreen] after the other. *)
Definition select_all (ids : list string) (w : World) : World :=
  foldl (fun w id => run (selectScreen id) w) w ids.

(** What [selectScreen screenId] makes of the element with id [k]. *)
Definition selected (screenId k : string) (e : Element) : Element :=
  let e1 := deactivate e in
  let e2 := if decide (screenId = k) then add_class "active" e1 else e1 in
  let e3 := if decide ("pageTitle" = k) then with_text (page_title screenId) e2 else e2 in
  if decide (sidebar = k) then remove_class "open" e3 else e3.

(** An invariant that looks only at the session and the chart objects:
    writing anything else of the page cannot break it. *)
Class Framed (I : World -> Prop) : Prop := {
  framed_els : forall v w, I w -> I (set_els v w);
  framed_navItems : forall v w, I w -> I (set_navItems v w);
  framed_transcript : forall v w, I w -> I (set_transcript v w);
  framed_sessionOptions : forall v w, I w -> I (set_sessionOptions v w);
  framed_nodes : forall v w, I w -> I (set_nodes v w);
  framed_pending : forall v w, I w -> I (set_pending v w);
  framed_trace : forall v w, I w -> I (set_trace v w);
  framed_uncaught : forall v w, I w -> I (set_uncaught v w) }.

(** An invariant the chart code keeps: replacing the chart of a slot,
    closing the dynamic chart, and [createDemoChart] called, as
    [loadDemographics] does, with the slot's variable and its setter. *)
Class ChartSafe (I : World -> Prop) : Prop := {
  safe_replace : forall cv cfg, preserves I (replace_chart cv cfg);
  safe_close : preserves I closeChart;
  safe_demo : forall cv data type w, I w ->
    match createDemoChart cv data type (chartVars w !! cv)
            (fun c => set_var cv (Some c)) w with
    | Ok _ w' | Throw _ w' => I w'
    end }.

(** An invariant that does not look at the session. *)
Class SessionFree (I : World -> Prop) : Prop :=
  session_free : forall v w, I w -> I (set_currentSession v w).

(** The transcript without the typing indicator [id]. *)
Definition without_typing (id : nat) (ns : list Node) : list Node :=
  List.filter (fun n => negb (is_typing id n)) ns.

Definition history_A : list HistoryMessage :=
  [{| role := "user"; content := "Which wards are ignored?" |};
   {| role := "assistant"; content := "Ward 12 leads." |}].

Definition history_B : list HistoryMessage :=
  [{| role := "user"; content := "Any income bias?" |}].

Definition reply_for (sid text : string) : Reply :=
  ChatReply (Success {| chat_session_id := Some sid; response := text; chart_data := None |}).

(** The current session is [c]. *)
Definition session_is (c : option string) (w : World) : Prop := currentSession w = c.

(** The chat shows [ns] and its container is in the document. *)
Definition chat_shows (ns : list Node) (w : World) : Prop :=
  transcript w = ns /\ present "chatMessages" w.

(** Two sends, the second while the first is pending. *)
Definition two_sends : World :=
  steps [TypeChat "first"; ClickSend; TypeChat "second"; ClickSend] page.

(** Session A selected, a question sent in it, session B selected and its
    history shown while the question is still pending. *)
Definition switched_while_pending : World :=
  steps [ChangeSession "A"; Deliver 0 (HistoryReply (Success history_A));
         TypeChat "And ward 7?"; ClickSend;
         ChangeSession "B"; Deliver 1 (HistoryReply (Success history_B))] page.

(** ** Reading the page *)

Definition display_of (id : string) (w : World) : option string := el_display <$> els w !! id.
Definition disabled_of (id : string) (w : World) : option bool := el_disabled <$> els w !! id.
Definition value_of (id : string) (w : World) : option string := el_value <$> els w !! id.

(** Whether the check box [#silencedOnly] is there and ticked. *)
Definition silenced_only (w : World) : bool :=
  match els w !! "silencedOnly" with
  | Some e => el_checked e
  | None => false
  end.

(** What [#searchInput] holds, trimmed; nothing when the input is missing. *)
Definition search_query (w : World) : string :=
  match els w !! "searchInput" with
  | Some e => trim (el_value e)
  | None => ""
  end.

(** U+00A0, the no-break space, in UTF-8. *)
Definition no_break_space : string := String "194" (String "160" "").

(** The page with the search input filled in and the box ticked or not. *)
Definition searching_for (text : string) (only : bool) (w : World) : World :=
  steps [TypeSearch text; ToggleSilencedOnly only] w.

(** The node [addMessageToChat] makes of a history entry. *)
Definition history_node (m : HistoryMessage) : Node := Message (role m) (content m).

(** The banner [createNewSession] puts in place of the transcript. *)
Definition new_session_banner (name sid : string) : Node :=
  Banner ("NEW SESSION: " +:+ name) ("Session ID: " +:+ JSNumber.take 8 sid +:+ "...").

Definition two_sessions : list SessionInfo :=
  [{| session_id := "3f9a2c1e-77aa"; session_name := Some "Ward 12" |};
   {| session_id := "b01d5e6f-0042"; session_name := None |}].

(** The other typing indicators of [before] are still in [after]. *)
Definition keeps_other_typing (id : nat) (before after : list Node) : Prop :=
  forall other, other <> id -> In (Typing other) before -> In (Typing other) after.

(** What runs when the session list requested by [k]'s caller is answered. *)
Definition sessions_answered (a : Answer (list SessionInfo)) (k : AfterSessions) : M unit :=
  loadSessions_resume a ;; after_sessions k.

(** The transcript has lost indicator [id] and kept the others of [before]. *)
Definition settled (id : nat) (before : list Node) (w : World) : Prop :=
  present "chatMessages" w /\
  ~ In (Typing id) (transcript w) /\
  keeps_other_typing id before (transcript w).


Definition ward_chart : ChartData :=
  {| cd_type := None; cd_title := Some "Wards"; cd_label := None;
     cd_labels := ["Ward 7"; "Ward 12"]; cd_values := [40; 82]%float |}.

(** What replacing the chart of slot [cv] adds to the trace. *)
Definition replace_events (cv : string) (w : World) : list Effect :=
  match chartVars w !! cv with
  | Some old => [Destroy old]
  | None => []
  end ++ [Construct (length (charts w)) cv].

(** The chart part of [loadCategories] and [loadTemporal]: nothing without
    the canvas. *)
Definition chart_events (cv : string) (w : World) : list Effect :=
  match els w !! cv with
  | Some _ => replace_events cv w
  | None => []
  end.




(** The line of one ratio finding: nothing when an operand is missing. *)
Definition ratio_line (b : Breakdown) (k1 k2 : string) (say : string -> string) : string :=
  match lookup_key k1 b, lookup_key k2 b with
  | Some x, Some y => li (say (toFixed 2 (x / y)%float))
  | _, _ => ""
  end.

(** An answer with no top income bracket and no men with a score above 0. *)
Definition partial_breakdown : Demographic :=
  {| by_gender := [("F", 60); ("M", 0)]%float;
     by_caste := [("SC", 75); ("General", 50)]%float;
     by_income := [("0-3L", 70); ("3-6L", 55)]%float |}.

(** The elements [loadDashboard] writes, in the order it writes them. *)
Definition stat_ids : list string :=
  ["totalCases"; "headerCases"; "silencedCount"; "silenceRate"; "headerSilenced";
   "avgScore"; "avgDays"; "alertText"].

Definition some_stats : Stats :=
  {| total_complaints := 1000; silence_rate := 40; avg_silence_score := 55;
     avg_days_in_system := 12 |}.

(** The page with the chart of [income_chart] drawn in the panel. *)
Definition charted : World := run (renderDynamicChart income_chart) page.

Definition untyped_chart : ChartData :=
  {| cd_type := None; cd_title := None; cd_label := None;
     cd_labels := ["A"; "B"]; cd_values := [1; 2]%float |}.

(** The page with the mobile menu open. *)
Definition menu_open : World := step ClickMenu page.

(** The nav items after a click on the [i]-th. *)
Definition highlight (i : nat) (items : list NavItem) : list NavItem :=
  imap (fun j it => {| data_screen := data_screen it; nav_active := Nat.eqb j i |}) items.

(** The brackets of the income chart, in the order the script goes
    through them. *)
Definition income_order : list string := ["0-3L"; "3-6L"; "6-10L"; "10L+"].

(** An answer whose brackets come in another order, one of them missing. *)
Definition shuffled_income : Demographic :=
  {| by_gender := []; by_caste := [];
     by_income := [("10L+", 31); ("0-3L", 72); ("6-10L", 44)]%float |}.

(** The banner the clear button leaves in the transcript. *)
Definition cleared_banner : Node :=
  Banner "SENTINEL INITIALIZED" "Chat display cleared. Session history preserved.".

(** A conversation under session A with one message waiting for its answer. *)
Definition waiting_for_answer : World :=
  steps [TypeChat "Which wards are worst?"; ClickSend]
        (set_currentSession (Some "A") page).

(** * Properties *)

(** ** Rules for [preserves] *)
Section Preservation.

Variable I : World -> Prop.

Local Abbreviation preserves := (preserves I).

Lemma preserves_ret {A} (a : A) : preserves (ret a).
Proof. intros w H. exact H. Qed.

Lemma preserves_throw {A} e : preserves (@throw A e).
Proof. intros w H. exact H. Qed.

Lemma preserves_get {A} (f : World -> A) : preserves (get f).
Proof. intros w H. exact H. Qed.

Lemma preserves_bind {A B} (m : M A) (k : A -> M B) :
  preserves m -> (forall a, preserves (k a)) -> preserves (bind m k).
Proof.
  intros Hm Hk w H. unfold bind. specialize (Hm w H).
  destruct (m w) as [a w'|e w']; [apply Hk; exact Hm | exact Hm].
Qed.

Lemma preserves_try_catch {A} (body : M A) (handler : string -> M A) :
  preserves body -> (forall e, preserves (handler e)) -> preserves (try_catch body handler).
Proof.
  intros Hb Hh w H. unfold try_catch. specialize (Hb w H).
  destruct (body w) as [a w'|e w']; [exact Hb | apply Hh; exact Hb].
Qed.

Lemma preserves_try_finally {A} (body : M A) (cleanup : M unit) :
  preserves body -> preserves cleanup -> preserves (try_finally body cleanup).
Proof.
  intros Hb Hc w H. unfold try_finally. specialize (Hb w H).
  destruct (body w) as [a w'|e w']; specialize (Hc w' Hb);
    destruct (cleanup w'); exact Hc.
Qed.

Lemma preserves_modify (f : World -> World) :
  (forall w, I w -> I (f w)) -> preserves (modify f).
Proof. intros Hf w H. apply Hf, H. Qed.

Lemma preserves_forEach {A} (f : A -> M unit) (a : list A) :
  (forall x, preserves (f x)) -> preserves (forEach f a).
Proof.
  intros Hf. induction a as [|x rest IH]; simpl.
  - apply preserves_ret.
  - apply preserves_bind; [apply Hf | intros _; exact IH].
Qed.

Lemma preserves_run (m : M unit) w :
  (forall w v, I w -> I (set_uncaught v w)) -> preserves m -> I w -> I (run m w).
Proof.
  intros Hu Hm H. unfold run. specialize (Hm w H).
  destruct (m w); [exact Hm | apply Hu, Hm].
Qed.

End Preservation.

(** ** Rendering where the surface is gone *)

(** C7. Rendering into a slot whose surface is no longer in the document is
    a no-op: [renderDynamicChart] without its canvas or its panel,
    [createDemoChart] without its canvas and [loadOverviewChart] without its
    canvas return normally and leave the whole page state as it was (no Chart
    is constructed, nothing is written). *)
Theorem render_without_surface_is_noop (w : World) :
  (forall chartData,
      els w !! "dynamicChart" = None \/ els w !! "chartPanel" = None ->
      renderDynamicChart chartData w = Ok tt w) /\
  (forall canvasId data type chartRef setChart,
      els w !! canvasId = None ->
      createDemoChart canvasId data type chartRef setChart w = Ok tt w) /\
  (forall data,
      els w !! "overviewChart" = None ->
      loadOverviewChart_resume (Success data) w = Ok tt w).
Proof.
  repeat split.
  - intros chartData H. unfold renderDynamicChart, bind, getElementById, get.
    destruct H as [H|H]; rewrite H; [destruct (els w !! "chartPanel")|]; reflexivity.
  - intros canvasId data type chartRef setChart H.
    unfold createDemoChart, bind, getElementById, get. rewrite H. reflexivity.
  - intros data H.
    unfold loadOverviewChart_resume, try_catch, bind, getElementById, get.
    rewrite H. reflexivity.
Qed.

Lemma render_without_surface_is_noop_witness :
  let w := without ["dynamicChart"; "genderChart"; "overviewChart"] page in
  renderDynamicChart income_chart w = Ok tt w /\
  createDemoChart "genderChart" [("F", 70%float); ("M", 50%float)] "gender" None
    (fun c => set_var "genderChart" (Some c)) w = Ok tt w /\
  loadOverviewChart_resume
    (Success {| by_gender := []; by_caste := []; by_income := [] |}) w = Ok tt w.
Proof.
  intros w.
  destruct (render_without_surface_is_noop w) as (H1 & H2 & H3).
  split; [|split].
  - apply H1. left. reflexivity.
  - apply H2. reflexivity.
  - apply H3. reflexivity.
Defined.

(** ** Element updates *)

Lemma update_element_ok id f w :
  present id w -> update_element id f w = Ok tt (updated id f w).
Proof.
  intros [e He]. unfold update_element, updated. rewrite He. do 2 f_equal.
  apply map_eq. intros k. destruct (decide (id = k)) as [->|Hne].
  - rewrite lookup_insert_eq, lookup_alter_eq, He. reflexivity.
  - rewrite lookup_insert_ne, lookup_alter_ne by exact Hne. reflexivity.
Qed.

Lemma update_element_missing id f w :
  els w !! id = None -> update_element id f w = Throw TypeError w.
Proof. intros H. unfold update_element. rewrite H. reflexivity. Qed.

Lemma present_updated k id f w : present k (updated id f w) <-> present k w.
Proof. unfold present, updated. simpl. apply lookup_alter_is_Some. Qed.

Lemma text_of_updated_eq id s w :
  present id w -> text_of id (updated id (with_text s) w) = Some s.
Proof.
  intros [e He]. unfold text_of, updated. simpl. rewrite lookup_alter_eq, He. reflexivity.
Qed.

Lemma fetch_ok r t w : fetch r t w = Ok tt (fetched r t w).
Proof. reflexivity. Qed.

Lemma bind_ok {A B} (m : M A) (k : A -> M B) w a w' :
  m w = Ok a w' -> bind m k w = k a w'.
Proof. intros H. unfold bind. rewrite H. reflexivity. Qed.

Lemma set_text_ok id s w :
  present id w -> set_text id s w = Ok tt (updated id (with_text s) w).
Proof. apply update_element_ok. Qed.

(** ** Dashboard statistics *)



(** ** Categories on an empty answer *)

(** C10. When [GET /complaint-types] answers with an empty sequence (and
    the canvas and the findings list are in the document), [loadCategories]
    still constructs the category chart, over no labels and no data, and
    binds it; the findings code then reads the first element of the empty
    sequence and fails; the failure is caught by the function's own handler,
    which logs it to the console: nothing escapes, no element of the document
    changes (the findings list keeps its content) and nothing tells the user. *)
Theorem empty_categories_failure_is_caught (w : World) :
  present "categoryChart" w -> present "catFindings" w ->
  let w' := run (loadCategories_resume (Success [])) w in
  let n := length (charts w) in
  charts w' !! n = Some {| canvas := "categoryChart"; config := category_config [];
                           destroyed := false |} /\
  cfg_labels (category_config []) = [] /\ cfg_data (category_config []) = [] /\
  chartVars w' !! "categoryChart" = Some n /\
  trace w' = trace w ++
             match chartVars w !! "categoryChart" with
             | Some old => [Destroy old]
             | None => []
             end ++
             [Construct n "categoryChart"; ConsoleError "Categories error:" TypeError] /\
  els w' = els w /\
  uncaught w' = uncaught w.
Proof.
  intros [e1 H1] [e2 H2] w' n. subst w' n.
  unfold run, loadCategories_resume, try_catch, bind, getElementById, get, get_var.
  simpl. rewrite H1.
  destruct (chartVars w !! "categoryChart") as [old|] eqn:Hold; simpl; rewrite H2; simpl.
  - rewrite !length_alter. repeat split.
    + rewrite lookup_app_r; rewrite length_alter; [|lia]. rewrite Nat.sub_diag. reflexivity.
    + apply lookup_insert_eq.
    + rewrite <- !app_assoc. reflexivity.
  - repeat split.
    + rewrite lookup_app_r by lia. rewrite Nat.sub_diag. reflexivity.
    + apply lookup_insert_eq.
    + rewrite <- !app_assoc. reflexivity.
Qed.

Lemma empty_categories_failure_is_caught_witness :
  let w' := run (loadCategories_resume (Success [])) page in
  trace w' = [Construct 0 "categoryChart"; ConsoleError "Categories error:" TypeError] /\
  els w' = els page /\
  uncaught w' = [].
Proof.
  assert (H1 : present "categoryChart" page) by (vm_compute; eexists; reflexivity).
  assert (H2 : present "catFindings" page) by (vm_compute; eexists; reflexivity).
  destruct (empty_categories_failure_is_caught page H1 H2) as (_ & _ & _ & _ & Ht & He & Hu).
  split; [exact Ht | split; [exact He | exact Hu]].
Defined.

(** ** The chart registry *)

Lemma live_from_app cv i a b :
  live_from cv i (a ++ b) = live_from cv i a ++ live_from cv (i + length a) b.
Proof.
  revert i. induction a as [|c a IH]; intros i; simpl.
  - rewrite Nat.add_0_r. reflexivity.
  - rewrite IH, <- app_assoc. do 3 f_equal. lia.
Qed.

Lemma elem_of_live_from cv i cs r :
  r ∈ live_from cv i cs <->
  exists c, (i <= r)%nat /\ cs !! (r - i)%nat = Some c /\ alive_on cv c = true.
Proof.
  revert i. induction cs as [|c cs IH]; intros i; simpl.
  - split; [intros H; inversion H | intros (c & _ & H & _); discriminate].
  - rewrite elem_of_app, IH. split.
    + intros [H|(c' & Hle & Hl & Ha)].
      * destruct (alive_on cv c) eqn:Ha; [|inversion H].
        apply list_elem_of_singleton in H. subst r. exists c.
        rewrite Nat.sub_diag. auto.
      * exists c'. split; [lia|]. split; [|exact Ha].
        replace (r - i)%nat with (S (r - S i)) by lia. exact Hl.
    + intros (c' & Hle & Hl & Ha).
      destruct (decide (r = i)) as [->|Hne].
      * rewrite Nat.sub_diag in Hl. simpl in Hl. injection Hl as ->.
        left. rewrite Ha. apply list_elem_of_singleton. reflexivity.
      * right. exists c'. split; [lia|]. split; [|exact Ha].
        replace (r - i)%nat with (S (r - S i)) in Hl by lia. exact Hl.
Qed.

Lemma live_from_none cv i cs :
  (forall r c, cs !! r = Some c -> alive_on cv c = false) -> live_from cv i cs = [].
Proof.
  revert i. induction cs as [|c cs IH]; intros i H; simpl; [reflexivity|].
  rewrite (H 0%nat c eq_refl). simpl. apply IH. intros r c' Hr. exact (H (S r) c' Hr).
Qed.

Lemma alive_on_true cv c :
  alive_on cv c = true <-> canvas c = cv /\ destroyed c = false.
Proof.
  unfold alive_on. rewrite andb_true_iff, String.eqb_eq, negb_true_iff. reflexivity.
Qed.

Lemma elem_of_live_on cv w r :
  r ∈ live_on cv w <->
  exists c, charts w !! r = Some c /\ canvas c = cv /\ destroyed c = false.
Proof.
  unfold live_on. rewrite elem_of_live_from. split.
  - intros (c & _ & Hl & Ha). rewrite Nat.sub_0_r in Hl. apply alive_on_true in Ha.
    exists c. tauto.
  - intros (c & Hl & Ha). exists c. rewrite Nat.sub_0_r, alive_on_true.
    split; [lia | tauto].
Qed.

Lemma live_from_NoDup cv i cs : NoDup (live_from cv i cs).
Proof.
  revert i. induction cs as [|c cs IH]; intros i; simpl; [constructor|].
  destruct (alive_on cv c); simpl; [|apply IH].
  constructor; [|apply IH].
  rewrite elem_of_live_from. intros (c' & Hle & _). lia.
Qed.

(** With the registry in order, a canvas carries at most one live Chart. *)
Lemma registry_ok_at_most_one cv w :
  registry_ok w -> (length (live_on cv w) <= 1)%nat.
Proof.
  intros Hok.
  destruct (live_on cv w) as [|r1 [|r2 rest]] eqn:E; simpl; try lia.
  exfalso.
  assert (H1 : r1 ∈ live_on cv w) by (rewrite E; set_solver).
  assert (H2 : r2 ∈ live_on cv w) by (rewrite E; set_solver).
  apply elem_of_live_on in H1 as (c1 & Hc1 & Hv1 & Hd1).
  apply elem_of_live_on in H2 as (c2 & Hc2 & Hv2 & Hd2).
  pose proof (Hok r1 c1 Hc1 Hd1) as V1. pose proof (Hok r2 c2 Hc2 Hd2) as V2.
  rewrite Hv1 in V1. rewrite Hv2 in V2. rewrite V1 in V2. injection V2 as ->.
  pose proof (live_from_NoDup cv 0 (charts w)) as ND. fold (live_on cv w) in ND.
  rewrite E in ND. inversion ND as [|? ? Hnin _]. apply Hnin. set_solver.
Qed.

Lemma replace_chart_spec cv cfg w :
  registry_ok w ->
  exists w',
    replace_chart cv cfg w = Ok tt w' /\
    registry_ok w' /\
    chartVars w' !! cv = Some (length (charts w)) /\
    live_on cv w' = [length (charts w)] /\
    charts w' !! length (charts w) =
      Some {| canvas := cv; config := cfg; destroyed := false |} /\
    length (charts w') = S (length (charts w)) /\
    trace w' = trace w ++
               match chartVars w !! cv with
               | Some old => [Destroy old]
               | None => []
               end ++ [Construct (length (charts w)) cv] /\
    els w' = els w /\ transcript w' = transcript w /\ pending w' = pending w /\
    currentSession w' = currentSession w /\ uncaught w' = uncaught w.
Proof.
  intros Hok. unfold replace_chart, bind, get_var, get, new_Chart, set_var, modify, emit.
  simpl.
  set (cs := match chartVars w !! cv with
             | Some old => alter mark_destroyed old (charts w)
             | None => charts w
             end).
  assert (Hlen : length cs = length (charts w)).
  { subst cs. destruct (chartVars w !! cv); [apply length_alter | reflexivity]. }
  assert (Hdead : forall r c, cs !! r = Some c -> alive_on cv c = false).
  { intros r c Hr. destruct (alive_on cv c) eqn:Ha; [|reflexivity]. exfalso.
    apply alive_on_true in Ha as [Hcv Hd]. subst cs.
    destruct (chartVars w !! cv) as [old|] eqn:Hold.
    - rewrite list_lookup_alter in Hr. destruct (decide (old = r)) as [->|Hne].
      + destruct (charts w !! r); [|discriminate]. injection Hr as <-. discriminate.
      + pose proof (Hok r c Hr Hd) as V. rewrite Hcv, Hold in V. congruence.
    - pose proof (Hok r c Hr Hd) as V. rewrite Hcv, Hold in V. discriminate. }
  assert (Hother : forall r c, cs !! r = Some c -> destroyed c = false ->
                               chartVars w !! canvas c = Some r /\ canvas c <> cv).
  { intros r c Hr Hd.
    assert (Hne : canvas c <> cv).
    { intros E. specialize (Hdead r c Hr). unfold alive_on in Hdead.
      rewrite Hd in Hdead. apply String.eqb_eq in E. rewrite E in Hdead. discriminate. }
    split; [|exact Hne]. subst cs.
    destruct (chartVars w !! cv) as [old|] eqn:Hold; [|apply Hok; assumption].
    rewrite list_lookup_alter in Hr. destruct (decide (old = r)) as [->|Hne'].
    - destruct (charts w !! r); [|discriminate]. injection Hr as <-. discriminate.
    - apply Hok; assumption. }
  exists (set_chartVars (<[cv := length cs]> (chartVars w))
            (set_trace ((trace w ++ match chartVars w !! cv with
                                    | Some old => [Destroy old]
                                    | None => []
                                    end) ++ [Construct (length cs) cv])
               (set_charts (cs ++ [{| canvas := cv; config := cfg; destroyed := false |}]) w))).
  split.
  { subst cs. destruct (chartVars w !! cv); simpl; [reflexivity|].
    rewrite app_nil_r. reflexivity. }
  simpl. rewrite Hlen. repeat split.
  - intros r c Hr Hd. simpl in *.
    destruct (decide (r < length cs)%nat) as [Hlt|Hge]; [|apply not_lt in Hge].
    + rewrite lookup_app_l in Hr by exact Hlt.
      destruct (Hother r c Hr Hd) as [V Hne]. rewrite lookup_insert_ne by congruence. exact V.
    + rewrite lookup_app_r in Hr by exact Hge.
      destruct (r - length cs)%nat as [|k] eqn:Hk; [|destruct k; discriminate].
      injection Hr as <-. simpl. rewrite lookup_insert_eq. f_equal. lia.
  - apply lookup_insert_eq.
  - unfold live_on. simpl. rewrite live_from_app, (live_from_none cv 0 cs Hdead).
    simpl. unfold alive_on. simpl. rewrite String.eqb_refl, Hlen. reflexivity.
  - rewrite lookup_app_r by lia. rewrite Hlen, Nat.sub_diag. reflexivity.
  - rewrite length_app, Hlen. simpl. lia.
  - rewrite <- app_assoc. reflexivity.
Qed.

(** ** What the script code keeps *)

Create HintDb pres.

Ltac pres_step :=
  lazymatch goal with
  | |- preserves _ (replace_chart _ _) => apply safe_replace
  | |- preserves _ (bind (get_var ?cv) _) =>
      first [apply (safe_replace cv) | apply preserves_bind; [|intros ?]]
  | |- preserves _ (bind _ _) => apply preserves_bind; [|intros ?]
  | |- preserves _ (try_catch _ _) => apply preserves_try_catch; [|intros ?]
  | |- preserves _ (try_finally _ _) => apply preserves_try_finally
  | |- preserves _ (forEach _ _) => apply preserves_forEach; intros ?
  | |- preserves _ (match ?x with _ => _ end) => destruct x
  | |- _ => solve [auto with pres]
  end.

Ltac pres_auto := repeat pres_step.

(** *** Code that writes neither the session nor the charts *)
Section Frame.

Context (I : World -> Prop) `{!Framed I}.

Local Abbreviation pres := (preserves I).

Lemma pres_emit e : pres (emit e).
Proof. intros w H. apply framed_trace, H. Qed.

Lemma pres_fetch r t : pres (fetch r t).
Proof. intros w H. apply framed_pending, framed_trace, H. Qed.

Lemma pres_getElementById id : pres (getElementById id).
Proof. intros w H. exact H. Qed.

Lemma pres_get_var name : pres (get_var name).
Proof. intros w H. exact H. Qed.

Lemma pres_update_element id f : pres (update_element id f).
Proof.
  intros w H. unfold update_element.
  destruct (els w !! id); [apply framed_els|]; exact H.
Qed.

Lemma pres_update_element_opt id f : pres (update_element_opt id f).
Proof.
  intros w H. unfold update_element_opt, modify.
  destruct (els w !! id); [apply framed_els|]; exact H.
Qed.

Lemma pres_append_node n : pres (append_node n).
Proof.
  intros w H. unfold append_node.
  destruct (els w !! "chatMessages"); [apply framed_transcript|]; exact H.
Qed.

Lemma pres_replace_nodes ns : pres (replace_nodes ns).
Proof.
  intros w H. unfold replace_nodes.
  destruct (els w !! "chatMessages"); [apply framed_transcript|]; exact H.
Qed.

Lemma pres_remove_typing id : pres (remove_typing id).
Proof. intros w H. apply framed_transcript, H. Qed.

Lemma pres_set_text id s : pres (set_text id s).
Proof. apply pres_update_element. Qed.

Lemma pres_set_display id s : pres (set_display id s).
Proof. apply pres_update_element. Qed.

Lemma pres_append_text id s : pres (append_text id s).
Proof. apply pres_update_element. Qed.

Lemma pres_console_error l m : pres (console_error l m).
Proof. apply pres_emit. Qed.

Lemma pres_addMessageToChat r c : pres (addMessageToChat r c).
Proof. apply pres_append_node. Qed.

Lemma pres_set_nodes f : pres (modify (fun w => set_nodes (f w) w)).
Proof. intros w H. apply framed_nodes, H. Qed.

Lemma pres_set_sessionOptions v : pres (modify (set_sessionOptions v)).
Proof. intros w H. apply framed_sessionOptions, H. Qed.

Lemma pres_set_navItems v : pres (modify (set_navItems v)).
Proof. intros w H. apply framed_navItems, H. Qed.

Lemma pres_set_all_els f : pres (modify (fun w => set_els (f w) w)).
Proof. intros w H. apply framed_els, H. Qed.

Lemma pres_park t : pres (modify (fun w => set_pending (pending w ++ [t]) w)).
Proof. intros w H. apply framed_pending, H. Qed.

#[local] Hint Resolve preserves_ret preserves_throw preserves_get
  pres_emit pres_fetch pres_getElementById pres_get_var pres_update_element
  pres_update_element_opt pres_append_node pres_replace_nodes pres_remove_typing
  pres_set_text pres_set_display pres_append_text pres_console_error
  pres_addMessageToChat pres_set_nodes pres_set_sessionOptions pres_set_navItems
  pres_set_all_els pres_park : pres.

Lemma pres_set_panel s : pres (set_panel s).
Proof. unfold set_panel. pres_auto. Qed.

#[local] Hint Resolve pres_set_panel : pres.

Lemma pres_loadSessions_resume a : pres (loadSessions_resume a).
Proof. unfold loadSessions_resume. pres_auto. Qed.

Lemma pres_chat_catch typing e : pres (chat_catch typing e).
Proof. unfold chat_catch. pres_auto. Qed.

Lemma pres_sendChatMessage message : pres (sendChatMessage message).
Proof. unfold sendChatMessage. pres_auto. Qed.

Lemma pres_createNewSession answer : pres (createNewSession answer).
Proof. unfold createNewSession. pres_auto. Qed.

Lemma pres_createNewSession_resume2 name : pres (createNewSession_resume2 name).
Proof. unfold createNewSession_resume2. pres_auto. Qed.

Lemma pres_performSearch : pres performSearch.
Proof. unfold performSearch. pres_auto. Qed.

Lemma pres_performSearch_resume a : pres (performSearch_resume a).
Proof. unfold performSearch_resume. pres_auto. Qed.

Lemma pres_ratio_finding b k1 k2 say : pres (ratio_finding b k1 k2 say).
Proof. unfold ratio_finding. pres_auto. Qed.

Lemma pres_loadGeography_resume a : pres (loadGeography_resume a).
Proof. unfold loadGeography_resume. pres_auto. Qed.

Lemma pres_runFullReport : pres runFullReport.
Proof. unfold runFullReport. pres_auto. Qed.

Lemma pres_runFullReport_resume a : pres (runFullReport_resume a).
Proof. unfold runFullReport_resume. pres_auto. Qed.

Lemma pres_loadScreenData screenId : pres (loadScreenData screenId).
Proof.
  unfold loadScreenData, loadDashboard, loadDemographics, loadGeography, loadCategories,
    loadTemporal.
  repeat (destruct (String.eqb screenId _)); auto with pres.
Qed.

#[local] Hint Resolve pres_loadScreenData : pres.

Lemma pres_selectScreen screenId : pres (selectScreen screenId).
Proof. unfold selectScreen. pres_auto. Qed.

Lemma pres_navClick i : pres (navClick i).
Proof. unfold navClick. pres_auto. apply pres_selectScreen. Qed.

Lemma pres_quickAnalysis query : pres (quickAnalysis query).
Proof.
  unfold quickAnalysis. pres_auto.
  apply preserves_modify. intros w H.
  apply preserves_run; [intros; apply framed_uncaught; assumption | apply pres_navClick | exact H].
Qed.

(** *** Code that also works on the charts *)

Context `{!ChartSafe I}.

Lemma pres_createDemoChart cv data type {B} (rest : M B) :
  pres rest ->
  pres (let* r := get_var cv in
        createDemoChart cv data type r (fun c => set_var cv (Some c)) ;; rest).
Proof.
  intros Hrest w H. pose proof (safe_demo cv data type w H) as Hd.
  unfold bind, get_var, get.
  destruct (createDemoChart cv data type (chartVars w !! cv) _ w); [apply Hrest|]; exact Hd.
Qed.

Lemma pres_renderDynamicChart chartData : pres (renderDynamicChart chartData).
Proof. unfold renderDynamicChart. pres_auto. Qed.

Lemma pres_loadOverviewChart_resume a : pres (loadOverviewChart_resume a).
Proof. unfold loadOverviewChart_resume. pres_auto. Qed.

Lemma pres_loadDashboard_resume a : pres (loadDashboard_resume a).
Proof. unfold loadDashboard_resume, loadOverviewChart. pres_auto. Qed.

#[local] Hint Resolve pres_renderDynamicChart pres_ratio_finding : pres.

Lemma pres_chat_finish reply chart : pres (chat_finish reply chart).
Proof. unfold chat_finish. pres_auto. Qed.

#[local] Hint Resolve pres_chat_finish pres_chat_catch : pres.

Lemma pres_sendChatMessage_resume2 typing reply chart :
  pres (sendChatMessage_resume2 typing reply chart).
Proof. unfold sendChatMessage_resume2. pres_auto. Qed.

Lemma pres_loadDemographics_resume a : pres (loadDemographics_resume a).
Proof.
  unfold loadDemographics_resume. apply preserves_try_catch; [|intros; auto with pres].
  destruct a; [auto with pres | auto with pres |].
  do 3 apply pres_createDemoChart. pres_auto.
Qed.

Lemma pres_loadCategories_resume a : pres (loadCategories_resume a).
Proof. unfold loadCategories_resume. pres_auto. Qed.

Lemma pres_loadTemporal_resume a : pres (loadTemporal_resume a).
Proof. unfold loadTemporal_resume. pres_auto. Qed.

(** *** Code that also writes the session *)

Context `{!SessionFree I}.

Lemma pres_set_currentSession v : pres (modify (set_currentSession v)).
Proof. intros w H. apply session_free, H. Qed.

#[local] Hint Resolve pres_set_currentSession pres_loadSessions_resume
  pres_sendChatMessage pres_sendChatMessage_resume2 pres_createNewSession
  pres_createNewSession_resume2 pres_performSearch pres_performSearch_resume
  pres_loadOverviewChart_resume pres_loadDashboard_resume pres_loadDemographics_resume
  pres_loadGeography_resume pres_loadCategories_resume pres_loadTemporal_resume
  pres_runFullReport pres_runFullReport_resume pres_navClick pres_quickAnalysis
  safe_close : pres.

Lemma pres_sendChatMessage_resume typing a : pres (sendChatMessage_resume typing a).
Proof. unfold sendChatMessage_resume, loadSessions. pres_auto. Qed.

Lemma pres_createNewSession_resume name a : pres (createNewSession_resume name a).
Proof. unfold createNewSession_resume, loadSessions. pres_auto. Qed.

Lemma pres_loadSessionHistory_resume sessionId a : pres (loadSessionHistory_resume sessionId a).
Proof. unfold loadSessionHistory_resume. pres_auto. Qed.

#[local] Hint Resolve pres_sendChatMessage_resume pres_createNewSession_resume
  pres_loadSessionHistory_resume : pres.

Lemma pres_resume t r m : resume t r = Some m -> pres m.
Proof.
  destruct t, r; simpl; intros E; try discriminate; injection E as <-; auto with pres.
  apply preserves_bind; [auto with pres | intros _]. destruct k; simpl; auto with pres.
Qed.

Lemma pres_handler e : pres (handler e).
Proof.
  destruct e; simpl;
    unfold on, send_from_input, clear_chat, session_changed, sendSuggestion,
      updateTimestamp, loadDashboard, loadSessions, loadSessionHistory;
    pres_auto.
Qed.

(** Such an invariant survives every event. *)
Lemma pres_step e w : I w -> I (step e w).
Proof.
  intros H.
  assert (Hh : I (run (handler e) w))
    by (apply preserves_run; [intros; apply framed_uncaught; assumption
                             | apply pres_handler | exact H]).
  destruct e; try exact Hh.
  simpl. unfold deliver. destruct (pending w !! _) as [t|]; [|exact H].
  destruct (resume t _) as [m|] eqn:E; [|exact H].
  apply preserves_run; [intros; apply framed_uncaught; assumption
                       | exact (pres_resume _ _ m E) | apply framed_pending, H].
Qed.

Lemma pres_steps es w : I w -> I (steps es w).
Proof.
  revert w. induction es as [|e es IH]; intros w H; [exact H|].
  apply IH, pres_step, H.
Qed.

End Frame.

(** *** The registry stays in order *)

#[local] Instance registry_ok_framed : Framed registry_ok.
Proof. split; intros v w H; exact H. Qed.

#[local] Instance registry_ok_session_free : SessionFree registry_ok.
Proof. intros v w H. exact H. Qed.

Lemma closeChart_registry_ok : preserves registry_ok closeChart.
Proof.
  unfold closeChart. apply preserves_bind; [apply pres_update_element_opt, _ | intros _].
  intros w H. unfold bind, get_var, get. simpl.
  destruct (chartVars w !! "dynamicChart") as [old|] eqn:Hold; [|exact H].
  intros r c Hr Hd. simpl in *. rewrite list_lookup_alter in Hr.
  destruct (decide (old = r)) as [->|Hne].
  - destruct (charts w !! r); [|discriminate]. injection Hr as <-. discriminate.
  - pose proof (H r c Hr Hd) as V.
    rewrite lookup_delete_ne; [exact V|]. intros E. rewrite <- E, Hold in V. congruence.
Qed.

Lemma createDemoChart_registry_ok cv data type w :
  registry_ok w ->
  exists w',
    createDemoChart cv data type (chartVars w !! cv) (fun c => set_var cv (Some c)) w
      = Ok tt w' /\ registry_ok w'.
Proof.
  intros H. unfold createDemoChart, bind at 1, getElementById, get.
  destruct (els w !! cv) as [e|].
  - destruct (replace_chart_spec cv (demo_config data type) w H) as (w' & Hrun & Hok & _).
    exists w'. split; [exact Hrun | exact Hok].
  - exists w. split; [reflexivity | exact H].
Qed.

#[local] Instance registry_ok_chart_safe : ChartSafe registry_ok.
Proof.
  split.
  - intros cv cfg w H.
    destruct (replace_chart_spec cv cfg w H) as (w' & -> & Hok & _). exact Hok.
  - exact closeChart_registry_ok.
  - intros cv data type w H.
    destruct (createDemoChart_registry_ok cv data type w H) as (w' & -> & Hok). exact Hok.
Qed.

(** Every event leaves the registry in order. *)
Lemma steps_registry_ok es w : registry_ok w -> registry_ok (steps es w).
Proof. apply pres_steps; apply _. Qed.

(** *** Rendering into an occupied slot *)

Lemma renderDynamicChart_spec chartData w :
  registry_ok w ->
  present "chartPanel" w -> present "chartTitle" w -> present "dynamicChart" w ->
  exists w',
    renderDynamicChart chartData w = Ok tt w' /\
    registry_ok w' /\
    chartVars w' !! "dynamicChart" = Some (length (charts w)) /\
    live_on "dynamicChart" w' = [length (charts w)] /\
    charts w' !! length (charts w) =
      Some {| canvas := "dynamicChart"; config := dynamic_config chartData;
              destroyed := false |} /\
    length (charts w') = S (length (charts w)) /\
    trace w' = trace w ++
               match chartVars w !! "dynamicChart" with
               | Some old => [Destroy old]
               | None => []
               end ++ [Construct (length (charts w)) "dynamicChart"] /\
    (forall id, present id w' <-> present id w) /\
    uncaught w' = uncaught w.
Proof.
  intros Hok Hp Ht Hc.
  unfold renderDynamicChart, bind at 1, getElementById at 1, get.
  unfold bind at 1, getElementById at 1, get.
  destruct Hp as [ep Hp]. destruct Hc as [ec Hc]. rewrite Hp, Hc.
  unfold set_display, set_text.
  erewrite bind_ok; [|apply update_element_ok; exists ep; exact Hp].
  erewrite bind_ok; [|apply update_element_ok; apply present_updated; exact Ht].
  set (w0 := updated "chartTitle" _ (updated "chartPanel" _ w)).
  assert (Hok0 : registry_ok w0) by exact Hok.
  destruct (replace_chart_spec "dynamicChart" (dynamic_config chartData) w0 Hok0)
    as (w' & Hrun & Hok' & Hv & Hl & Hc' & Hn & Htr & He & _ & _ & _ & Hu).
  exists w'. repeat (split; [assumption|]). split; [|exact Hu].
  intros id. change (present id w') with (is_Some (els w' !! id)). rewrite He.
  change (is_Some (els w0 !! id)) with (present id w0). subst w0.
  rewrite !present_updated. reflexivity.
Qed.

Lemma createDemoChart_spec cv data type w :
  registry_ok w -> present cv w ->
  exists w',
    createDemoChart cv data type (chartVars w !! cv) (fun c => set_var cv (Some c)) w
      = Ok tt w' /\
    registry_ok w' /\
    chartVars w' !! cv = Some (length (charts w)) /\
    live_on cv w' = [length (charts w)] /\
    length (charts w') = S (length (charts w)) /\
    trace w' = trace w ++
               match chartVars w !! cv with
               | Some old => [Destroy old]
               | None => []
               end ++ [Construct (length (charts w)) cv] /\
    els w' = els w.
Proof.
  intros Hok [e He].
  unfold createDemoChart, bind at 1, getElementById, get. rewrite He.
  destruct (replace_chart_spec cv (demo_config data type) w Hok)
    as (w' & Hrun & Hok' & Hv & Hl & _ & Hn & Htr & Hels & _).
  exists w'. repeat (split; [assumption|]). exact Hels.
Qed.

Lemma run_ok (m : M unit) w w' : m w = Ok tt w' -> run m w = w'.
Proof. intros H. unfold run. rewrite H. reflexivity. Qed.

(** C3. Rendering into a slot that holds a live chart destroys that chart
    before the new one is constructed. With the registry in order and the
    elements in the document, two renders on the same slot, whatever the two
    specs, leave exactly one live Chart on the slot's canvas, the second,
    held by the slot's variable; the trace of the second render is the
    destruction of the first chart followed by the construction of the
    second; and whatever events follow, no canvas ever carries two live
    Charts. This holds for the dynamic slot ([renderDynamicChart]) and for the
    demographic slots ([createDemoChart] as [loadDemographics] calls it). *)
Theorem render_twice_leaves_one_instance (w : World) (spec1 spec2 : ChartData)
    (cv : string) (data1 data2 : Breakdown) (type1 type2 : string) :
  registry_ok w ->
  present "chartPanel" w -> present "chartTitle" w -> present "dynamicChart" w ->
  present cv w ->
  let setChart := fun c => set_var cv (Some c) in
  let n := length (charts w) in
  (let w1 := run (renderDynamicChart spec1) w in
   let w2 := run (renderDynamicChart spec2) w1 in
   live_on "dynamicChart" w1 = [n] /\
   trace w2 = trace w1 ++ [Destroy n; Construct (S n) "dynamicChart"] /\
   live_on "dynamicChart" w2 = [S n] /\
   chartVars w2 !! "dynamicChart" = Some (S n) /\
   forall es slot, (length (live_on slot (steps es w2)) <= 1)%nat) /\
  (let w1 := run (createDemoChart cv data1 type1 (chartVars w !! cv) setChart) w in
   let w2 := run (createDemoChart cv data2 type2 (chartVars w1 !! cv) setChart) w1 in
   live_on cv w1 = [n] /\
   trace w2 = trace w1 ++ [Destroy n; Construct (S n) cv] /\
   live_on cv w2 = [S n] /\
   chartVars w2 !! cv = Some (S n) /\
   forall es slot, (length (live_on slot (steps es w2)) <= 1)%nat).
Proof.
  intros Hok Hp Ht Hc Hcv setChart n. subst setChart n. split; cbv zeta.
  - destruct (renderDynamicChart_spec spec1 w Hok Hp Ht Hc)
      as (w1 & R1 & Hok1 & Hv1 & Hl1 & _ & Hn1 & _ & Hpres & _).
    rewrite (run_ok _ _ _ R1).
    destruct (renderDynamicChart_spec spec2 w1 Hok1) as
      (w2 & R2 & Hok2 & Hv2 & Hl2 & _ & _ & Htr2 & _); try (apply Hpres; assumption).
    rewrite (run_ok _ _ _ R2). simpl. rewrite Hv1 in Htr2. rewrite Hn1 in *.
    repeat (split; [assumption|]).
    intros es slot. apply registry_ok_at_most_one, steps_registry_ok, Hok2.
  - destruct (createDemoChart_spec cv data1 type1 w Hok Hcv)
      as (w1 & R1 & Hok1 & Hv1 & Hl1 & Hn1 & _ & Hels).
    rewrite (run_ok _ _ _ R1).
    destruct (createDemoChart_spec cv data2 type2 w1 Hok1) as
      (w2 & R2 & Hok2 & Hv2 & Hl2 & _ & Htr2 & _).
    { unfold present. rewrite Hels. exact Hcv. }
    rewrite (run_ok _ _ _ R2). simpl. rewrite Hv1 in Htr2. rewrite Hn1 in *.
    repeat (split; [assumption|]).
    intros es slot. apply registry_ok_at_most_one, steps_registry_ok, Hok2.
Qed.

Lemma render_twice_leaves_one_instance_witness :
  let w2 := run (renderDynamicChart seven_slices)
                (run (renderDynamicChart income_chart) page) in
  live_on "dynamicChart" w2 = [1%nat] /\
  chartVars w2 !! "dynamicChart" = Some 1%nat /\
  live_on "genderChart"
    (run (createDemoChart "genderChart" [("F", 70%float)] "gender"
            (chartVars (run (createDemoChart "genderChart" [("M", 50%float)] "gender"
                               None (fun c => set_var "genderChart" (Some c))) page)
               !! "genderChart")
            (fun c => set_var "genderChart" (Some c)))
       (run (createDemoChart "genderChart" [("M", 50%float)] "gender"
               None (fun c => set_var "genderChart" (Some c))) page)) = [1%nat].
Proof.
  assert (H0 : registry_ok page) by (intros r c H; discriminate H).
  assert (H1 : present "chartPanel" page) by (vm_compute; eexists; reflexivity).
  assert (H2 : present "chartTitle" page) by (vm_compute; eexists; reflexivity).
  assert (H3 : present "dynamicChart" page) by (vm_compute; eexists; reflexivity).
  assert (H4 : present "genderChart" page) by (vm_compute; eexists; reflexivity).
  destruct (render_twice_leaves_one_instance page income_chart seven_slices "genderChart"
              [("M", 50%float)] [("F", 70%float)] "gender" "gender" H0
              H1 H2 H3 H4)
    as ((_ & _ & Hl & Hv & _) & (_ & _ & Hg & _)).
  split; [exact Hl | split; [exact Hv | exact Hg]].
Defined.

(** ** Colours of the dynamic chart *)

Lemma resolve_colours (cs : list string) (i : nat) :
  cs <> [] -> resolve_indexable (Colours cs) i = cs !! (i mod length cs)%nat.
Proof. destruct cs; [congruence | reflexivity]. Qed.

Lemma resolve_firstn_palette (n i : nat) :
  (i < n)%nat ->
  resolve_indexable (Colours (slice0 n palette)) i = palette !! (i mod Nat.min n 6)%nat.
Proof.
  intros Hi. unfold slice0.
  assert (Hlen : length (firstn n palette) = Nat.min n 6) by apply length_take.
  rewrite resolve_colours.
  - rewrite Hlen. apply lookup_take_lt.
    assert ((i mod Nat.min n 6 < Nat.min n 6)%nat) by (apply Nat.mod_upper_bound; lia).
    lia.
  - intros E. rewrite E in Hlen. simpl in Hlen. lia.
Qed.

(** What Chart.js draws: its resolution of the list the script passes wraps
    around, so a position past the list reuses the list's colours. *)
Lemma chartjs_resolution_wraps (chartData : ChartData) (i : nat) :
  (i < length (cd_labels chartData))%nat ->
  resolve_indexable (cfg_backgroundColor (dynamic_config chartData)) i
    = palette !! (i mod Nat.min (length (cd_labels chartData)) 6)%nat.
Proof. intros Hi. apply resolve_firstn_palette, Hi. Qed.

(** Below the number of labels, wrapping at the cut list and wrapping at
    the palette are the same. *)
Lemma mod_min_palette (n i : nat) :
  (i < n)%nat -> (i mod Nat.min n 6 = i mod length palette)%nat.
Proof.
  intros Hi. change (length palette) with 6%nat.
  destruct (Nat.le_gt_cases 6 n) as [H|H].
  - rewrite Nat.min_r by exact H. reflexivity.
  - rewrite Nat.min_l by lia. rewrite !Nat.mod_small by lia. reflexivity.
Qed.

(** C9. In the chart [renderDynamicChart] draws, the colour of every
    position comes from the fixed six-colour palette by position: the script
    hands Chart.js the palette cut to the number of labels, and Chart.js
    resolves position [i] in that list modulo its length, so a position
    below the palette length gets palette colour [i] and, when there are
    more positions than palette colours, position [i] gets palette colour
    [i mod 6]: the colours cycle through the palette and do not run out. *)
Theorem dynamic_chart_colours_cycle (w : World) (chartData : ChartData) (i : nat) :
  registry_ok w ->
  present "chartPanel" w -> present "chartTitle" w -> present "dynamicChart" w ->
  (i < length (cd_labels chartData))%nat ->
  exists c,
    charts (run (renderDynamicChart chartData) w) !! length (charts w) = Some c /\
    canvas c = "dynamicChart" /\ destroyed c = false /\
    cfg_backgroundColor (config c)
      = Colours (slice0 (length (cd_labels chartData)) palette) /\
    resolve_indexable (cfg_backgroundColor (config c)) i
      = palette !! (i mod length palette)%nat /\
    is_Some (palette !! (i mod length palette)%nat) /\
    ((i < length palette)%nat ->
     resolve_indexable (cfg_backgroundColor (config c)) i = palette !! i).
Proof.
  intros Hok Hp Ht Hc Hi.
  destruct (renderDynamicChart_spec chartData w Hok Hp Ht Hc)
    as (w' & R & _ & _ & _ & Hch & _).
  unfold run. rewrite R. eexists. split; [exact Hch|].
  cbn [canvas destroyed config].
  assert (Hres : resolve_indexable (cfg_backgroundColor (dynamic_config chartData)) i
                 = palette !! (i mod length palette)%nat).
  { rewrite chartjs_resolution_wraps by exact Hi. rewrite mod_min_palette by exact Hi.
    reflexivity. }
  repeat split; try reflexivity.
  - exact Hres.
  - apply lookup_lt_is_Some. apply Nat.mod_upper_bound. discriminate.
  - intros Hlt. rewrite Hres, Nat.mod_small by exact Hlt. reflexivity.
Qed.

Lemma dynamic_chart_colours_cycle_witness :
  exists c,
    charts (run (renderDynamicChart seven_slices) page) !! 0%nat = Some c /\
    resolve_indexable (cfg_backgroundColor (config c)) 2 = Some "#ff6b6b" /\
    resolve_indexable (cfg_backgroundColor (config c)) 6 = Some "#00d4ff" /\
    palette !! 0%nat = Some "#00d4ff".
Proof.
  assert (Hok : registry_ok page) by (intros r c Hr; discriminate).
  assert (Hp : forall id, In id ["chartPanel"; "chartTitle"; "dynamicChart"] -> present id page).
  { intros id [<-|[<-|[<-|[]]]]; vm_compute; eexists; reflexivity. }
  destruct (dynamic_chart_colours_cycle page seven_slices 2 Hok
              (Hp _ ltac:(simpl; auto)) (Hp _ ltac:(simpl; auto)) (Hp _ ltac:(simpl; auto))
              ltac:(vm_compute; lia))
    as (c & Hc & _ & _ & _ & H2 & _).
  destruct (dynamic_chart_colours_cycle page seven_slices 6 Hok
              (Hp _ ltac:(simpl; auto)) (Hp _ ltac:(simpl; auto)) (Hp _ ltac:(simpl; auto))
              ltac:(vm_compute; lia))
    as (c' & Hc' & _ & _ & _ & H6 & _).
  assert (c' = c) by congruence. subst c'.
  exists c. split; [exact Hc|]. split; [exact H2|]. split; [exact H6 | reflexivity].
Defined.

(** ** Navigation *)

Lemma update_element_opt_ok id f w : update_element_opt id f w = Ok tt (updated id f w).
Proof.
  unfold update_element_opt, modify, updated. f_equal.
  destruct (els w !! id) as [e|] eqn:He.
  - f_equal. apply map_eq. intros k. destruct (decide (id = k)) as [->|Hne].
    + rewrite lookup_insert_eq, lookup_alter_eq, He. reflexivity.
    + rewrite lookup_insert_ne, lookup_alter_ne by exact Hne. reflexivity.
  - replace (alter f id (els w)) with (els w); [destruct w; reflexivity|].
    apply map_eq. intros k. destruct (decide (id = k)) as [->|Hne].
    + rewrite lookup_alter_eq, He. reflexivity.
    + rewrite lookup_alter_ne by exact Hne. reflexivity.
Qed.

Lemma lookup_alter_cond (f : Element -> Element) i (m : gmap string Element) k :
  alter f i m !! k = (fun e => if decide (i = k) then f e else e) <$> m !! k.
Proof.
  destruct (decide (i = k)) as [->|Hne].
  - rewrite lookup_alter_eq. destruct (m !! k); reflexivity.
  - rewrite lookup_alter_ne by exact Hne. destruct (m !! k); reflexivity.
Qed.

Lemma loadScreenData_ok screenId w :
  exists w', loadScreenData screenId w = Ok tt w' /\
    els w' = els w /\ uncaught w' = uncaught w /\
    trace w' = trace w ++ match refresh_request screenId with
                          | Some r => [Fetch r]
                          | None => []
                          end /\
    length (pending w') = (length (pending w) +
                           match refresh_request screenId with
                           | Some _ => 1
                           | None => 0
                           end)%nat.
Proof.
  unfold loadScreenData, refresh_request, loadDashboard, loadDemographics, loadGeography,
    loadCategories, loadTemporal.
  repeat (destruct (String.eqb screenId _);
          [eexists; split; [apply fetch_ok|]; simpl; rewrite length_app; auto|]).
  exists w. simpl. rewrite app_nil_r, Nat.add_0_r. auto.
Qed.

Lemma selectScreen_spec screenId w :
  present "pageTitle" w ->
  exists w', selectScreen screenId w = Ok tt w' /\
    (forall k, els w' !! k = selected screenId k <$> els w !! k) /\
    uncaught w' = uncaught w /\
    trace w' = trace w ++ match refresh_request screenId with
                          | Some r => [Fetch r]
                          | None => []
                          end /\
    length (pending w') = (length (pending w) +
                           match refresh_request screenId with
                           | Some _ => 1
                           | None => 0
                           end)%nat.
Proof.
  intros Hp. unfold selectScreen.
  erewrite bind_ok; [|reflexivity].
  erewrite bind_ok; [|apply update_element_opt_ok].
  erewrite bind_ok; [|apply set_text_ok].
  2:{ apply present_updated. unfold present in *. simpl. rewrite lookup_fmap.
      destruct Hp as [e ->]. eexists; reflexivity. }
  match goal with |- context [bind (loadScreenData _) _ ?w0] =>
    destruct (loadScreenData_ok screenId w0) as (w1 & R1 & He1 & Hu1 & Ht1 & Hn1) end.
  erewrite bind_ok; [|exact R1].
  rewrite update_element_opt_ok. eexists; split; [reflexivity|].
  split; [|split; [exact Hu1 | split; [exact Ht1 | exact Hn1]]].
  intros k. unfold updated at 1. simpl els. rewrite He1. unfold updated; simpl els.
  rewrite !lookup_alter_cond, lookup_fmap. unfold selected.
  destruct (els w !! k) as [e|]; reflexivity.
Qed.

Lemma is_screen_selected screenId k e : is_screen (selected screenId k e) = is_screen e.
Proof.
  unfold selected, deactivate, is_screen, add_class, remove_class.
  apply bool_decide_ext.
  destruct (decide (sidebar = k)), (decide ("pageTitle" = k)), (decide (screenId = k));
    destruct (bool_decide ("screen" ∈ el_class e)); simpl;
    rewrite ?elem_of_difference, ?elem_of_union, ?elem_of_difference, ?elem_of_singleton;
    intuition discriminate.
Qed.

Lemma is_active_selected screenId k e :
  is_screen e = true -> is_active (selected screenId k e) = bool_decide (screenId = k).
Proof.
  intros Hs. unfold selected, deactivate. rewrite Hs.
  unfold is_active, add_class, remove_class.
  apply bool_decide_ext.
  destruct (decide (sidebar = k)), (decide ("pageTitle" = k)), (decide (screenId = k));
    simpl;
    rewrite ?elem_of_difference, ?elem_of_union, ?elem_of_difference, ?elem_of_singleton;
    intuition (try discriminate; try congruence).
Qed.

Lemma active_screens_selected screenId w w' :
  (forall k, els w' !! k = selected screenId k <$> els w !! k) ->
  active_screens w' = if names_screen screenId w then {[screenId]} else ∅.
Proof.
  intros H. apply set_eq. intros k. unfold active_screens, names_screen.
  rewrite elem_of_dom. unfold is_Some. setoid_rewrite map_lookup_filter_Some.
  rewrite H. simpl. split.
  - intros (e' & He' & Hs & Ha).
    destruct (els w !! k) as [e|] eqn:Hk; [|discriminate]. injection He' as <-.
    rewrite is_screen_selected in Hs. rewrite (is_active_selected _ _ _ Hs) in Ha.
    apply bool_decide_eq_true in Ha. subst k. rewrite Hk, Hs. set_solver.
  - intros Hin. destruct (els w !! screenId) as [e|] eqn:Hid; [|set_solver].
    destruct (is_screen e) eqn:Hs; [|set_solver].
    apply elem_of_singleton in Hin. subst k. rewrite Hid.
    exists (selected screenId screenId e). split; [reflexivity|].
    rewrite is_screen_selected, (is_active_selected _ _ _ Hs). split; [exact Hs|].
    apply bool_decide_eq_true. reflexivity.
Qed.

Lemma selectScreen_run screenId w :
  present "pageTitle" w ->
  (forall k, els (run (selectScreen screenId) w) !! k = selected screenId k <$> els w !! k) /\
  uncaught (run (selectScreen screenId) w) = uncaught w /\
  trace (run (selectScreen screenId) w) =
    trace w ++ match refresh_request screenId with
               | Some r => [Fetch r]
               | None => []
               end /\
  length (pending (run (selectScreen screenId) w)) =
    (length (pending w) + match refresh_request screenId with
                          | Some _ => 1
                          | None => 0
                          end)%nat.
Proof.
  intros Hp. destruct (selectScreen_spec screenId w Hp) as (w' & R & H).
  unfold run. rewrite R. exact H.
Qed.

Lemma select_all_keeps ids w :
  present "pageTitle" w ->
  present "pageTitle" (select_all ids w) /\
  forall id, names_screen id (select_all ids w) = names_screen id w.
Proof.
  revert w. induction ids as [|i ids IH]; intros w Hp; [split; [exact Hp | reflexivity]|].
  destruct (selectScreen_run i w Hp) as (Hk & _).
  assert (Hp' : present "pageTitle" (run (selectScreen i) w)).
  { unfold present in *. rewrite Hk. destruct Hp as [e ->]. eexists; reflexivity. }
  destruct (IH _ Hp') as (IH1 & IH2). split; [exact IH1|].
  intros id. simpl. unfold select_all in IH2. rewrite IH2.
  unfold names_screen. rewrite Hk. destruct (els w !! id); [|reflexivity].
  apply is_screen_selected.
Qed.

Lemma page_title_mapped screenId title :
  (screenId, title) ∈ pageNames -> page_title screenId = title.
Proof.
  unfold pageNames. rewrite !elem_of_cons. rewrite elem_of_nil.
  intros [E|[E|[E|[E|[E|[E|[E|[E|[]]]]]]]]]; injection E as -> ->; reflexivity.
Qed.

Lemma page_title_unmapped screenId :
  screenId ∉ pageNames.*1 -> screenId ∉ Object_prototype -> page_title screenId = screenId.
Proof.
  intros Hn Ho. unfold page_title.
  assert (Hfind : List.find (fun kv => String.eqb (fst kv) screenId) pageNames = None).
  { unfold pageNames. cbn [List.find fst snd].
    repeat match goal with
           | |- context [String.eqb ?a screenId] =>
               destruct (String.eqb_spec a screenId) as [E|_];
               [exfalso; apply Hn; rewrite <- E; simpl;
                repeat first [apply list_elem_of_here | apply list_elem_of_further]|]
           end.
    reflexivity. }
  rewrite Hfind.
  assert (Hex : existsb (String.eqb screenId) Object_prototype = false).
  { apply not_true_is_false. intros E. apply existsb_exists in E as (x & Hin & Hx).
    apply String.eqb_eq in Hx. subst x. apply Ho, list_elem_of_In, Hin. }
  rewrite Hex. reflexivity.
Qed.

Lemma refresh_request_Some screenId :
  is_Some (refresh_request screenId) <->
  screenId ∈ ["dashboard"; "demographics"; "geography"; "categories"; "temporal"].
Proof.
  unfold refresh_request. rewrite !elem_of_cons, elem_of_nil.
  repeat match goal with
         | |- context [String.eqb screenId ?a] =>
             destruct (String.eqb_spec screenId a) as [E|?]; [split; eauto 10|]
         end.
  split; [intros [? ?]; discriminate | intros H; exfalso; intuition congruence].
Qed.

(** C4, as the script has it. After each [selectScreen] of any sequence,
    valid ids or not, at most one screen is active: the selected one when the
    id is that of a screen, none when it is not; the title shown is the
    mapping's entry for a mapped id and the id itself for an id that is
    neither mapped nor a name every object inherits; the call sends exactly
    one refresh request when the id is dashboard, demographics, geography,
    categories or temporal and none for any other id; and nothing is thrown. *)
Theorem selectScreen_activates_at_most_one (w : World) (ids : list string) (screenId : string) :
  present "pageTitle" w ->
  let w0 := select_all ids w in
  let w' := run (selectScreen screenId) w0 in
  active_screens w' = (if names_screen screenId w then {[screenId]} else ∅) /\
  text_of "pageTitle" w' = Some (page_title screenId) /\
  (forall title, (screenId, title) ∈ pageNames -> page_title screenId = title) /\
  ((screenId ∉ pageNames.*1) -> screenId ∉ Object_prototype -> page_title screenId = screenId) /\
  trace w' = trace w0 ++ match refresh_request screenId with
                         | Some r => [Fetch r]
                         | None => []
                         end /\
  length (pending w') = (length (pending w0) + match refresh_request screenId with
                                               | Some _ => 1
                                               | None => 0
                                               end)%nat /\
  (is_Some (refresh_request screenId) <->
   screenId ∈ ["dashboard"; "demographics"; "geography"; "categories"; "temporal"]) /\
  uncaught w' = uncaught w0.
Proof.
  intros Hp w0 w'. destruct (select_all_keeps ids w Hp) as (Hp0 & Hs0). fold w0 in Hp0.
  destruct (selectScreen_run screenId w0 Hp0) as (Hk & Hu & Ht & Hn). fold w' in Hk, Hu, Ht, Hn.
  split.
  { rewrite (active_screens_selected screenId w0 w' Hk). subst w0. rewrite Hs0. reflexivity. }
  split.
  { unfold text_of. rewrite Hk. destruct Hp0 as [e ->]. simpl. unfold selected.
    destruct (decide (sidebar = "pageTitle")) as [E|_]; [discriminate E|].
    destruct (decide ("pageTitle" = "pageTitle")) as [_|N]; [reflexivity | contradiction]. }
  split; [apply page_title_mapped|]. split; [apply page_title_unmapped|].
  split; [exact Ht|]. split; [exact Hn|]. split; [apply refresh_request_Some | exact Hu].
Qed.

Lemma selectScreen_activates_at_most_one_witness :
  active_screens (run (selectScreen "geography") (select_all ["chat"; "nowhere"] page))
    = {["geography"]} /\
  text_of "pageTitle" (run (selectScreen "geography") (select_all ["chat"; "nowhere"] page))
    = Some "Geographic Analysis".
Proof.
  assert (Hp : present "pageTitle" page) by (vm_compute; eexists; reflexivity).
  destruct (selectScreen_activates_at_most_one page ["chat"; "nowhere"] "geography" Hp)
    as (Ha & Ht & _).
  split; [exact Ha | exact Ht].
Defined.

(** C4 as stated fails: selecting an id that names no screen leaves no
    screen active, and the title is then the raw id, not a mapping entry. *)
Lemma selectScreen_unknown_id_leaves_no_screen :
  let w' := run (selectScreen "settings") page in
  active_screens page = {["dashboard"]} /\
  active_screens w' = ∅ /\
  size (active_screens w') <> 1%nat /\
  text_of "pageTitle" w' = Some "settings" /\
  ("settings" ∉ pageNames.*2) /\
  uncaught w' = [].
Proof.
  repeat split; try (vm_compute; reflexivity).
  - vm_compute. discriminate.
  - intros H. apply list_elem_of_In in H. simpl in H. intuition discriminate.
Qed.
(** ** Chat *)

Lemma append_node_ok n w :
  present "chatMessages" w ->
  append_node n w = Ok tt (set_transcript (transcript w ++ [n]) w).
Proof. intros [e He]. unfold append_node. rewrite He. reflexivity. Qed.

Lemma sendChatMessage_spec message w :
  present "chatMessages" w ->
  exists w',
    sendChatMessage message w = Ok tt w' /\
    transcript w' = transcript w ++ [Message "user" message; Typing (nodes w)] /\
    pending w' = pending w ++ [AwaitChat (nodes w) message (currentSession w)] /\
    trace w' = trace w ++ [Fetch (PostChat message (currentSession w))] /\
    currentSession w' = currentSession w /\
    uncaught w' = uncaught w.
Proof.
  intros Hp. unfold sendChatMessage, addMessageToChat.
  erewrite bind_ok; [|apply update_element_opt_ok].
  erewrite bind_ok; [|apply append_node_ok, present_updated, Hp].
  erewrite bind_ok; [|reflexivity].
  erewrite bind_ok; [|reflexivity].
  erewrite bind_ok; [|apply append_node_ok; apply present_updated, Hp].
  erewrite bind_ok; [|reflexivity].
  rewrite fetch_ok. eexists; split; [reflexivity|]. simpl.
  rewrite <- app_assoc. auto.
Qed.

#[local] Instance session_is_framed c : Framed (session_is c).
Proof. split; intros v w H; exact H. Qed.

#[local] Instance session_is_chart_safe c : ChartSafe (session_is c).
Proof.
  split.
  - intros cv cfg w H.
    unfold replace_chart, bind, get_var, get, destroy_if, destroy, new_Chart, set_var,
      modify, emit. simpl.
    destruct (chartVars w !! cv); exact H.
  - intros w H. unfold closeChart, bind, update_element_opt, modify, get_var, get. simpl.
    destruct (els w !! "chartPanel"); simpl;
      destruct (chartVars w !! "dynamicChart"); exact H.
  - intros cv data type w H.
    unfold createDemoChart, bind, getElementById, get. destruct (els w !! cv); [|exact H].
    unfold destroy_if, destroy, new_Chart, set_var, bind, modify, emit, get. simpl.
    destruct (chartVars w !! cv); exact H.
Qed.

(** A response never replaces a session the client already has. *)
Lemma resume_keeps_session typing a sid :
  sid <> "" -> preserves (session_is (Some sid)) (sendChatMessage_resume typing a).
Proof.
  intros Hne. unfold sendChatMessage_resume.
  apply preserves_try_catch; [|intros e; apply pres_chat_catch, _].
  destruct a as [msg|error|data].
  - apply preserves_throw.
  - apply preserves_bind; [apply pres_remove_typing, _ | intros _].
    apply pres_addMessageToChat, _.
  - apply preserves_bind; [apply pres_remove_typing, _ | intros _].
    intros w H. unfold bind at 1, get.
    assert (Hfresh : no_session w = false).
    { unfold no_session. rewrite H. apply String.eqb_neq, Hne. }
    rewrite Hfresh, andb_false_r.
    apply (pres_chat_finish (session_is (Some sid))), H.
Qed.

Lemma replace_chart_keeps_chat ns cv cfg : preserves (chat_shows ns) (replace_chart cv cfg).
Proof.
  intros w H.
  unfold replace_chart, bind, get_var, get, destroy_if, destroy, new_Chart, set_var,
    modify, emit. simpl.
  destruct (chartVars w !! cv); exact H.
Qed.

Lemma chat_shows_updated ns id f w : chat_shows ns w -> chat_shows ns (updated id f w).
Proof. intros [Ht Hp]. split; [exact Ht | apply present_updated, Hp]. Qed.

Lemma update_element_keeps_chat ns id f : preserves (chat_shows ns) (update_element id f).
Proof.
  intros w H. destruct (els w !! id) as [e|] eqn:He.
  - rewrite update_element_ok by (exists e; exact He). apply chat_shows_updated, H.
  - rewrite update_element_missing by exact He. exact H.
Qed.

Lemma renderDynamicChart_keeps_chat ns chartData :
  preserves (chat_shows ns) (renderDynamicChart chartData).
Proof.
  unfold renderDynamicChart.
  apply preserves_bind; [apply preserves_get | intros panel].
  apply preserves_bind; [apply preserves_get | intros ctx].
  destruct panel, ctx; try apply preserves_ret.
  apply preserves_bind; [apply update_element_keeps_chat | intros _].
  apply preserves_bind; [apply update_element_keeps_chat | intros _].
  apply replace_chart_keeps_chat.
Qed.

Lemma without_typing_app id a b :
  without_typing id (a ++ b) = without_typing id a ++ without_typing id b.
Proof. apply List.filter_app. Qed.

Lemma without_typing_idem id ns : without_typing id (without_typing id ns) = without_typing id ns.
Proof.
  induction ns as [|n ns IH]; [reflexivity|]. simpl.
  destruct (negb (is_typing id n)) eqn:E; simpl; [rewrite E|]; rewrite IH; reflexivity.
Qed.

Lemma chat_finish_shape reply chart typing w :
  present "chatMessages" w ->
  exists rest,
    transcript (run (try_catch (chat_finish reply chart) (chat_catch typing)) w)
      = without_typing typing (transcript w) ++ Message "assistant" reply :: rest
    \/ transcript (run (try_catch (chat_finish reply chart) (chat_catch typing)) w)
      = transcript w ++ Message "assistant" reply :: rest.
Proof.
  intros Hp. unfold run, try_catch, chat_finish, addMessageToChat.
  erewrite bind_ok; [|apply append_node_ok, Hp].
  set (w1 := set_transcript _ w).
  destruct chart as [chartData|]; [|exists []; right; reflexivity].
  assert (H1 : chat_shows (transcript w ++ [Message "assistant" reply]) w1)
    by (split; [reflexivity | exact Hp]).
  pose proof (renderDynamicChart_keeps_chat _ chartData w1 H1) as Hk.
  destruct (renderDynamicChart chartData w1) as [[] w2|e w2];
    unfold chat_shows in Hk; destruct Hk as [Ht2 Hp2].
  - exists []. right. exact Ht2.
  - unfold chat_catch, addMessageToChat.
    erewrite bind_ok; [|reflexivity].
    rewrite append_node_ok by exact Hp2. simpl. rewrite Ht2.
    exists [Message "assistant" ("Connection error: " +:+ e)]. left.
    fold (without_typing typing (transcript w ++ [Message "assistant" reply])).
    rewrite without_typing_app. simpl. rewrite <- app_assoc. reflexivity.
Qed.

Lemma run_session_is c (m : M unit) w :
  preserves (session_is c) m -> currentSession w = c -> currentSession (run m w) = c.
Proof.
  intros Hm H. apply (preserves_run (session_is c)); [intros; assumption | exact Hm | exact H].
Qed.

(** C1, as the script has it. A send is neither queued nor refused: it
    sends its request at once, whatever is already in flight, with the
    session id current at that moment. What keeps one conversation on one
    session id in the client is the adoption rule alone: a chat response
    never replaces a session the client has, and is adopted only when the
    client has none when it arrives; so of two responses to two sends made
    without a session the first to arrive sets the session and the second
    does not change it. *)
Theorem send_is_immediate_and_adoption_is_once (w : World) (message : string) :
  present "chatMessages" w ->
  let w' := run (sendChatMessage message) w in
  chat_in_flight w' = S (chat_in_flight w) /\
  pending w' = pending w ++ [AwaitChat (nodes w) message (currentSession w)] /\
  trace w' = trace w ++ [Fetch (PostChat message (currentSession w))] /\
  (forall typing a sid,
      currentSession w = Some sid -> sid <> "" ->
      currentSession (run (sendChatMessage_resume typing a) w) = Some sid) /\
  (forall typing reply chart,
      currentSession (run (sendChatMessage_resume2 typing reply chart) w) = currentSession w) /\
  (forall typing data sid,
      no_session w = true -> chat_session_id data = Some sid -> sid <> "" ->
      currentSession (run (sendChatMessage_resume typing (Success data)) w) = Some sid).
Proof.
  intros Hp w'.
  destruct (sendChatMessage_spec message w Hp) as (w1 & R & Ht & Hq & Htr & Hs & Hu).
  subst w'. rewrite (run_ok _ _ _ R).
  split.
  { unfold chat_in_flight. rewrite Hq, List.filter_app, length_app. simpl. lia. }
  split; [exact Hq|]. split; [exact Htr|]. split; [|split].
  - intros typing a sid Hsid Hne.
    apply run_session_is; [apply resume_keeps_session, Hne | exact Hsid].
  - intros typing reply chart.
    apply run_session_is; [apply pres_sendChatMessage_resume2; apply _ | reflexivity].
  - intros typing data sid Hfresh Hsid Hne.
    unfold run, sendChatMessage_resume, try_catch.
    erewrite bind_ok; [|reflexivity].
    erewrite bind_ok; [|reflexivity].
    change (no_session (set_transcript _ w)) with (no_session w).
    rewrite Hfresh, Hsid.
    assert (Htruthy : truthy (or_else (Some sid) "") = true).
    { destruct sid; [contradiction|]. reflexivity. }
    rewrite Htruthy. simpl. reflexivity.
Qed.

Lemma send_is_immediate_and_adoption_is_once_witness :
  chat_in_flight (run (sendChatMessage "second") (run (sendChatMessage "first") page)) = 2%nat /\
  trace (run (sendChatMessage "second") (run (sendChatMessage "first") page))
    = [Fetch (PostChat "first" None); Fetch (PostChat "second" None)].
Proof.
  assert (H1 : present "chatMessages" (run (sendChatMessage "first") page))
    by (vm_compute; eexists; reflexivity).
  destruct (send_is_immediate_and_adoption_is_once
              (run (sendChatMessage "first") page) "second" H1) as (Hn & _ & Ht & _).
  split; [exact Hn | exact Ht].
Defined.

(** C1 as stated fails: a second send made while the first is pending is
    sent at once. Both requests are in flight together, both without a
    session id, and the second message is shown with its own typing
    indicator, not held back or refused. When the backend answers the two
    with two new session ids, the client keeps the first. *)
Lemma second_send_is_not_held_back :
  chat_in_flight two_sends = 2%nat /\
  trace two_sends = [Fetch (PostChat "first" None); Fetch (PostChat "second" None)] /\
  transcript two_sends
    = [Message "user" "first"; Typing 0; Message "user" "second"; Typing 1] /\
  currentSession (steps [Deliver 0 (reply_for "s1" "one"); Deliver 0 (reply_for "s2" "two")]
                    two_sends) = Some "s1".
Proof. repeat split; vm_compute; reflexivity. Qed.

(** C2, as the script has it. The request carries the session id it was
    sent under, but nobody compares it on arrival: when the client has a
    session, whichever it is, a successful chat response is appended to the
    transcript on show, right after the typing indicator is removed, and
    the session stays as it is; after an adoption, it is appended once the
    session list is back. *)
Theorem chat_reply_is_appended_whatever_the_session (w : World) (typing : nat)
    (data : ChatData) :
  present "chatMessages" w ->
  no_session w = false ->
  let w' := run (sendChatMessage_resume typing (Success data)) w in
  (exists rest,
      transcript w' = without_typing typing (transcript w) ++
                      Message "assistant" (response data) :: rest) /\
  (chart_data data = None ->
   transcript w' = without_typing typing (transcript w) ++
                   [Message "assistant" (response data)]) /\
  currentSession w' = currentSession w /\
  (forall reply chart,
      let w'' := run (sendChatMessage_resume2 typing reply chart) w in
      exists rest,
        transcript w'' = without_typing typing (transcript w) ++
                         Message "assistant" reply :: rest \/
        transcript w'' = transcript w ++ Message "assistant" reply :: rest).
Proof.
  intros Hp Hs w'.
  assert (Hrun : w' = run (try_catch (chat_finish (response data) (chart_data data))
                             (chat_catch typing))
                          (set_transcript (without_typing typing (transcript w)) w)).
  { subst w'. unfold run, sendChatMessage_resume, try_catch.
    erewrite bind_ok; [|reflexivity].
    erewrite bind_ok; [|reflexivity].
    change (no_session (set_transcript _ w)) with (no_session w).
    rewrite Hs, andb_false_r. reflexivity. }
  split; [|split; [|split]].
  - destruct (chat_finish_shape (response data) (chart_data data) typing
                (set_transcript (without_typing typing (transcript w)) w) Hp) as (rest & H).
    exists rest. rewrite Hrun. simpl in H. rewrite without_typing_idem in H.
    destruct H as [H|H]; exact H.
  - intros Hc. rewrite Hrun, Hc. unfold run, try_catch, chat_finish, addMessageToChat.
    erewrite bind_ok; [|apply append_node_ok, Hp]. reflexivity.
  - destruct (currentSession w) as [sid|] eqn:E; [|unfold no_session in Hs; rewrite E in Hs; discriminate].
    assert (Hne : sid <> "").
    { intros ->. unfold no_session in Hs. rewrite E in Hs. discriminate. }
    subst w'. apply run_session_is; [apply resume_keeps_session, Hne | exact E].
  - intros reply chart. apply chat_finish_shape, Hp.
Qed.

Lemma chat_reply_is_appended_whatever_the_session_witness :
  transcript (run (sendChatMessage_resume 0
                     (Success {| chat_session_id := Some "A"; response := "Ward 7 is fine.";
                                 chart_data := None |}))
                  switched_while_pending)
    = [Message "user" "Any income bias?"; Message "assistant" "Ward 7 is fine."].
Proof.
  assert (Hp : present "chatMessages" switched_while_pending)
    by (vm_compute; eexists; reflexivity).
  assert (Hs : no_session switched_while_pending = false) by (vm_compute; reflexivity).
  exact (proj1 (proj2 (chat_reply_is_appended_whatever_the_session switched_while_pending 0
                         {| chat_session_id := Some "A"; response := "Ward 7 is fine.";
                            chart_data := None |} Hp Hs)) eq_refl).
Defined.

(** C2 as stated fails: a question is sent under session A, the user
    switches to session B and its history is shown, and then the answer to
    the question arrives: its request carried A, the current session is B,
    and the answer is appended to B's transcript. *)
Lemma stale_reply_is_appended :
  pending switched_while_pending = [AwaitChat 0 "And ward 7?" (Some "A")] /\
  currentSession switched_while_pending = Some "B" /\
  transcript switched_while_pending = [Message "user" "Any income bias?"] /\
  transcript (step (Deliver 0 (reply_for "A" "Ward 7 is fine.")) switched_while_pending)
    = [Message "user" "Any income bias?"; Message "assistant" "Ward 7 is fine."].
Proof. repeat split; vm_compute; reflexivity. Qed.

(** *** Blank messages *)

(** The listeners of the send button and of the Enter key drop a message
    that is blank after trimming. *)
Lemma blank_input_is_ignored w e :
  els w !! "chatInput" = Some e -> trim (el_value e) = "" ->
  step ClickSend w = w /\ step (KeypressChat "Enter" false) w = w.
Proof.
  intros He Hb.
  assert (Hs : send_from_input w = Ok tt w).
  { unfold send_from_input, bind, getElementById, get. rewrite He, Hb. reflexivity. }
  split.
  - simpl. unfold run, on, bind, getElementById, get.
    destruct (els w !! "sendBtn"); [rewrite Hs|]; reflexivity.
  - simpl. unfold run, on, bind, getElementById, get. rewrite He, Hs. reflexivity.
Qed.

(** [sendSuggestion], and the timer [quickAnalysis] sets, pass their query to
    [sendChatMessage] as it is. *)
Lemma suggestion_sends_any_message w message :
  present "chatMessages" w ->
  transcript (step (ClickSuggestion message) w)
    = transcript w ++ [Message "user" message; Typing (nodes w)] /\
  trace (step (ClickSuggestion message) w)
    = trace w ++ [Fetch (PostChat message (currentSession w))] /\
  forall i, pending w !! i = Some (TimerSend message) ->
    transcript (step (Deliver i TimerFired) w)
      = transcript w ++ [Message "user" message; Typing (nodes w)] /\
    trace (step (Deliver i TimerFired) w)
      = trace w ++ [Fetch (PostChat message (currentSession w))].
Proof.
  intros Hp. destruct (sendChatMessage_spec message w Hp) as (w1 & R & Ht & _ & Htr & _).
  split; [|split].
  - simpl. unfold sendSuggestion. rewrite (run_ok _ _ _ R). exact Ht.
  - simpl. unfold sendSuggestion. rewrite (run_ok _ _ _ R). exact Htr.
  - intros i Hi. simpl. unfold deliver. rewrite Hi. simpl.
    destruct (sendChatMessage_spec message (set_pending (delete i (pending w)) w) Hp)
      as (w2 & R2 & Ht2 & _ & Htr2 & _).
    rewrite (run_ok _ _ _ R2). split; [exact Ht2 | exact Htr2].
Qed.

(** C6 at the failing input: a suggestion of three spaces, blank after
    trimming, is shown as a user message with a typing indicator and sent
    to the backend, while the same text typed in the input and sent with
    the button changes nothing. *)
Theorem blank_suggestion_is_sent :
  trim "   " = "" /\
  transcript (step (ClickSuggestion "   ") page) = [Message "user" "   "; Typing 0] /\
  trace (step (ClickSuggestion "   ") page) = [Fetch (PostChat "   " None)] /\
  chat_in_flight (step (ClickSuggestion "   ") page) = 1%nat /\
  transcript (steps [ClickQuickAnalysis "   "; Deliver 0 TimerFired] page)
    = [Message "user" "   "; Typing 0] /\
  step ClickSend (step (TypeChat "   ") page) = step (TypeChat "   ") page.
Proof. repeat split; vm_compute; reflexivity. Qed.

(** ** Failures *)

(** C5, as the script has it. In chat every failure, of the network or
    reported by the backend, removes the typing indicator and appends an
    assistant bubble with the error; in search a network failure puts the
    error state in the results panel; in the dashboard a network failure is
    caught and logged to the console, and that is all: the page shows what
    it showed. None of these failures escapes its component. *)
Theorem failures_stop_at_the_component (w : World) (typing : nat) (message : string) :
  (present "chatMessages" w ->
   transcript (run (sendChatMessage_resume typing (NetworkFailure message)) w)
     = without_typing typing (transcript w) ++
       [Message "assistant" ("Connection error: " +:+ message)] /\
   transcript (run (sendChatMessage_resume typing (BackendError message)) w)
     = without_typing typing (transcript w) ++
       [Message "assistant" ("Error: " +:+ message)] /\
   uncaught (run (sendChatMessage_resume typing (NetworkFailure message)) w) = uncaught w /\
   uncaught (run (sendChatMessage_resume typing (BackendError message)) w) = uncaught w) /\
  (present "searchResults" w -> present panel_body w ->
   text_of panel_body (run (performSearch_resume (NetworkFailure message)) w)
     = Some ("Error: " +:+ message) /\
   uncaught (run (performSearch_resume (NetworkFailure message)) w) = uncaught w) /\
  run (loadDashboard_resume (NetworkFailure message)) w
    = set_trace (trace w ++ [ConsoleError "Dashboard error:" message]) w.
Proof.
  split; [|split].
  - intros Hp.
    assert (Hn : sendChatMessage_resume typing (NetworkFailure message) w
                 = Ok tt (set_transcript
                            (without_typing typing (transcript w) ++
                             [Message "assistant" ("Connection error: " +:+ message)]) w)).
    { unfold sendChatMessage_resume, try_catch, throw, chat_catch, addMessageToChat.
      erewrite bind_ok; [|reflexivity]. rewrite append_node_ok by exact Hp. reflexivity. }
    assert (Hb : sendChatMessage_resume typing (BackendError message) w
                 = Ok tt (set_transcript
                            (without_typing typing (transcript w) ++
                             [Message "assistant" ("Error: " +:+ message)]) w)).
    { unfold sendChatMessage_resume, try_catch, addMessageToChat.
      erewrite bind_ok; [|reflexivity]. rewrite append_node_ok by exact Hp. reflexivity. }
    unfold run. rewrite Hn, Hb. repeat split.
  - intros [e He] Hb. unfold run, performSearch_resume, try_catch, throw, set_panel.
    erewrite bind_ok; [|reflexivity]. simpl. rewrite He.
    rewrite set_text_ok by exact Hb. split; [|reflexivity].
    apply text_of_updated_eq, Hb.
  - reflexivity.
Qed.

Lemma failures_stop_at_the_component_witness :
  transcript (run (sendChatMessage_resume 0 (NetworkFailure "Failed to fetch"))
                (run (sendChatMessage "hello") page))
    = [Message "user" "hello"; Message "assistant" "Connection error: Failed to fetch"] /\
  text_of panel_body (run (performSearch_resume (NetworkFailure "Failed to fetch")) page)
    = Some "Error: Failed to fetch".
Proof.
  assert (H1 : present "chatMessages" (run (sendChatMessage "hello") page))
    by (vm_compute; eexists; reflexivity).
  assert (H2 : present "searchResults" page) by (vm_compute; eexists; reflexivity).
  assert (H3 : present panel_body page) by (vm_compute; eexists; reflexivity).
  split.
  - exact (proj1 (proj1 (failures_stop_at_the_component
                           (run (sendChatMessage "hello") page) 0 "Failed to fetch") H1)).
  - exact (proj1 (proj1 (proj2 (failures_stop_at_the_component page 0 "Failed to fetch"))
                    H2 H3)).
Defined.

(** C5 as stated fails: when the statistics request fails, the dashboard
    shows no message and no error state. On a network failure no element of
    the page changes and the only trace is a console line; on an answer with
    [success: false] nothing at all happens. *)
Lemma dashboard_failure_shows_nothing :
  els (run (loadDashboard_resume (NetworkFailure "Failed to fetch")) page) = els page /\
  transcript (run (loadDashboard_resume (NetworkFailure "Failed to fetch")) page) = [] /\
  trace (run (loadDashboard_resume (NetworkFailure "Failed to fetch")) page)
    = [ConsoleError "Dashboard error:" "Failed to fetch"] /\
  run (loadDashboard_resume (BackendError "stats unavailable")) page = page.
Proof. repeat split. Qed.

(** * Further properties of the script *)

(** ** Lookups after a write *)

Lemma els_updated id f w k :
  els (updated id f w) !! k = (fun e => if decide (id = k) then f e else e) <$> els w !! k.
Proof. unfold updated. simpl. apply lookup_alter_cond. Qed.

Lemma display_of_updated_ne id f w k :
  id <> k -> display_of k (updated id f w) = display_of k w.
Proof.
  intros H. unfold display_of. rewrite els_updated.
  destruct (els w !! k); [|reflexivity]. simpl. destruct (decide (id = k)); [contradiction | reflexivity].
Qed.

Lemma display_of_updated_eq id s w :
  present id w -> display_of id (updated id (with_display s) w) = Some s.
Proof.
  intros [e He]. unfold display_of. rewrite els_updated, He. simpl.
  destruct (decide (id = id)); [reflexivity | contradiction].
Qed.

Lemma set_display_ok id s w :
  present id w -> set_display id s w = Ok tt (updated id (with_display s) w).
Proof. apply update_element_ok. Qed.

Lemma bind_throw {A B} (m : M A) (k : A -> M B) w e w' :
  m w = Throw e w' -> bind m k w = Throw e w'.
Proof. intros H. unfold bind. rewrite H. reflexivity. Qed.

Lemma emit_ok e w : emit e w = Ok tt (set_trace (trace w ++ [e]) w).
Proof. reflexivity. Qed.

(** ** Report *)

(** The code of [runFullReport] inside [try ... catch]: whatever the answer
    and whatever of the report panel is missing, it ends normally with the
    status panel hidden. *)
Lemma report_body_ends (a : Answer string) w :
  present "runReportBtn" w -> present "reportStatus" w ->
  exists w1,
    try_catch
      (match a with
       | NetworkFailure msg => throw msg
       | BackendError error =>
           set_display "reportStatus" "none" ;; emit (Alert ("Error: " +:+ error))
       | Success report =>
           set_display "reportStatus" "none" ;;
           set_display "reportResults" "block" ;;
           set_text "reportContent" report
       end)
      (fun e => set_display "reportStatus" "none" ;; emit (Alert ("Error: " +:+ e))) w
      = Ok tt w1 /\
    present "runReportBtn" w1 /\
    display_of "reportStatus" w1 = Some "none" /\
    uncaught w1 = uncaught w /\
    match a with
    | Success _ => True
    | NetworkFailure m | BackendError m =>
        trace w1 = trace w ++ [Alert ("Error: " +:+ m)] /\
        display_of "reportResults" w1 = display_of "reportResults" w
    end.
Proof.
  intros Hb Hs.
  assert (Hcatch : forall e w0, present "runReportBtn" w0 -> present "reportStatus" w0 ->
            exists w1, (set_display "reportStatus" "none" ;; emit (Alert ("Error: " +:+ e))) w0
                       = Ok tt w1 /\
              present "runReportBtn" w1 /\ display_of "reportStatus" w1 = Some "none" /\
              uncaught w1 = uncaught w0 /\
              trace w1 = trace w0 ++ [Alert ("Error: " +:+ e)] /\
              display_of "reportResults" w1 = display_of "reportResults" w0).
  { intros e w0 Hb0 Hs0. erewrite bind_ok; [|apply set_display_ok, Hs0].
    rewrite emit_ok. eexists; split; [reflexivity|].
    split; [apply present_updated, Hb0|].
    split; [apply (display_of_updated_eq "reportStatus" "none" w0 Hs0)|].
    split; [reflexivity|]. split; [reflexivity|].
    apply (display_of_updated_ne "reportStatus" _ w0). discriminate. }
  unfold try_catch. destruct a as [msg|error|report].
  - unfold throw. destruct (Hcatch msg w Hb Hs) as (w1 & -> & H1 & H2 & H3 & H4 & H5).
    exists w1. repeat split; auto.
  - destruct (Hcatch error w Hb Hs) as (w1 & -> & H1 & H2 & H3 & H4 & H5).
    exists w1. repeat split; auto.
  - erewrite bind_ok; [|apply set_display_ok, Hs].
    set (w0 := updated "reportStatus" (with_display "none") w).
    assert (Hb0 : present "runReportBtn" w0) by (apply present_updated, Hb).
    assert (Hs0 : present "reportStatus" w0) by (apply present_updated, Hs).
    assert (Hd0 : display_of "reportStatus" w0 = Some "none")
      by (apply display_of_updated_eq, Hs).
    destruct (els w0 !! "reportResults") as [er|] eqn:Er.
    + erewrite bind_ok; [|apply set_display_ok; exists er; exact Er].
      set (w2 := updated "reportResults" (with_display "block") w0).
      assert (Hb2 : present "runReportBtn" w2) by (apply present_updated, Hb0).
      assert (Hs2 : present "reportStatus" w2) by (apply present_updated, Hs0).
      destruct (els w2 !! "reportContent") as [ec|] eqn:Ec.
      * rewrite set_text_ok by (exists ec; exact Ec). eexists; split; [reflexivity|].
        split; [apply present_updated, Hb2|]. split; [|split; [reflexivity | exact Logic.I]].
        rewrite display_of_updated_ne by discriminate.
        unfold w2. rewrite display_of_updated_ne by discriminate. exact Hd0.
      * unfold set_text. rewrite update_element_missing by exact Ec.
        destruct (Hcatch TypeError w2 Hb2 Hs2) as (w1 & -> & H1 & H2 & H3 & _).
        exists w1. repeat split; auto.
    + unfold set_display at 1. erewrite bind_throw; [|apply update_element_missing, Er].
      destruct (Hcatch TypeError w0 Hb0 Hs0) as (w1 & -> & H1 & H2 & H3 & _).
      exists w1. repeat split; auto.
Qed.

(** X1. The report trigger comes back in every outcome. Whatever the answer
    to the investigation request (a network failure, [success: false], a
    report) and whatever else of the report panel is missing, [runFullReport]
    ends with the button enabled and relabelled and the status panel hidden,
    and throws nothing; on a failure it alerts the error and leaves the
    results panel as it was. *)
Theorem report_trigger_is_reenabled (w : World) (a : Answer string) :
  present "runReportBtn" w -> present "reportStatus" w ->
  let w' := run (runFullReport_resume a) w in
  disabled_of "runReportBtn" w' = Some false /\
  text_of "runReportBtn" w' = Some "RUN FULL INVESTIGATION" /\
  display_of "reportStatus" w' = Some "none" /\
  uncaught w' = uncaught w /\
  match a with
  | Success _ => True
  | NetworkFailure m | BackendError m =>
      trace w' = trace w ++ [Alert ("Error: " +:+ m)] /\
      display_of "reportResults" w' = display_of "reportResults" w
  end.
Proof.
  intros Hb Hs w'.
  destruct (report_body_ends a w Hb Hs) as (w1 & R & Hb1 & Hd1 & Hu1 & Hf).
  assert (Hw : w' = updated "runReportBtn"
                      (fun e => with_text "RUN FULL INVESTIGATION" (with_disabled false e)) w1).
  { subst w'. unfold run, runFullReport_resume, try_finally. rewrite R.
    rewrite update_element_ok by exact Hb1. reflexivity. }
  rewrite Hw. destruct Hb1 as [e He].
  split; [unfold disabled_of; rewrite els_updated, He; simpl;
          destruct (decide ("runReportBtn" = "runReportBtn")); [reflexivity | contradiction]|].
  split; [unfold text_of; rewrite els_updated, He; simpl;
          destruct (decide ("runReportBtn" = "runReportBtn")); [reflexivity | contradiction]|].
  split; [rewrite display_of_updated_ne by discriminate; exact Hd1|].
  split; [exact Hu1|].
  destruct a; [| |exact Logic.I]; destruct Hf as [Ht Hr];
    (split; [exact Ht | rewrite display_of_updated_ne by discriminate; exact Hr]).
Qed.

Lemma report_trigger_is_reenabled_witness :
  disabled_of "runReportBtn" (run runFullReport page) = Some true /\
  disabled_of "runReportBtn"
    (run (runFullReport_resume (NetworkFailure "timeout")) (run runFullReport page))
    = Some false /\
  display_of "reportResults"
    (run (runFullReport_resume (NetworkFailure "timeout")) (run runFullReport page))
    = Some "none".
Proof.
  assert (H1 : present "runReportBtn" (run runFullReport page))
    by (vm_compute; eexists; reflexivity).
  assert (H2 : present "reportStatus" (run runFullReport page))
    by (vm_compute; eexists; reflexivity).
  destruct (report_trigger_is_reenabled (run runFullReport page) (NetworkFailure "timeout")
              H1 H2) as (Hd & _ & _ & _ & _ & Hr).
  split; [vm_compute; reflexivity|]. split; [exact Hd|]. rewrite Hr. vm_compute. reflexivity.
Defined.

(** X2. Starting a report disables the trigger, shows the status panel,
    hides the results panel and sends exactly one investigation request. *)
Theorem report_start_disables_trigger (w : World) :
  present "runReportBtn" w -> present "reportStatus" w -> present "reportResults" w ->
  let w' := run runFullReport w in
  disabled_of "runReportBtn" w' = Some true /\
  display_of "reportStatus" w' = Some "block" /\
  display_of "reportResults" w' = Some "none" /\
  trace w' = trace w ++ [Fetch PostInvestigate] /\
  pending w' = pending w ++ [AwaitReport] /\
  uncaught w' = uncaught w.
Proof.
  intros Hb Hs Hr w'. subst w'. unfold run, runFullReport.
  erewrite bind_ok; [|apply update_element_ok, Hb].
  erewrite bind_ok; [|apply set_display_ok, present_updated, Hs].
  erewrite bind_ok; [|apply set_display_ok; do 2 apply present_updated; exact Hr].
  rewrite fetch_ok. unfold fetched.
  set (w1 := updated "runReportBtn" _ w).
  set (w2 := updated "reportStatus" _ w1).
  set (w3 := updated "reportResults" _ w2).
  change (disabled_of "runReportBtn" w3 = Some true /\
          display_of "reportStatus" w3 = Some "block" /\
          display_of "reportResults" w3 = Some "none" /\
          trace w ++ [Fetch PostInvestigate] = trace w ++ [Fetch PostInvestigate] /\
          pending w ++ [AwaitReport] = pending w ++ [AwaitReport] /\
          uncaught w = uncaught w).
  split; [|split; [|split; [|auto]]].
  - unfold disabled_of, w3, w2, w1. rewrite !els_updated. destruct Hb as [e ->]. reflexivity.
  - unfold w3. rewrite display_of_updated_ne by discriminate.
    apply display_of_updated_eq, present_updated, Hs.
  - apply display_of_updated_eq. do 2 apply present_updated. exact Hr.
Qed.

Lemma report_start_disables_trigger_witness :
  disabled_of "runReportBtn" (run runFullReport page) = Some true /\
  trace (run runFullReport page) = [Fetch PostInvestigate].
Proof.
  assert (H1 : present "runReportBtn" page) by (vm_compute; eexists; reflexivity).
  assert (H2 : present "reportStatus" page) by (vm_compute; eexists; reflexivity).
  assert (H3 : present "reportResults" page) by (vm_compute; eexists; reflexivity).
  destruct (report_start_disables_trigger page H1 H2 H3) as (Hd & _ & _ & Ht & _).
  split; [exact Hd | exact Ht].
Defined.

(** ** Search *)

(** X3. A search with nothing to search for asks for a query and does
    nothing else: when the input is missing or holds only white space,
    [performSearch] raises the prompt, sends no request and leaves the
    results panel and every other element as they were. *)
Theorem blank_search_only_prompts (w : World) :
  search_query w = "" ->
  performSearch w = Ok tt (set_trace (trace w ++ [Alert "Please enter a search query"]) w).
Proof.
  unfold search_query. intros H.
  unfold performSearch, bind, getElementById, get.
  destruct (els w !! "searchInput") as [e|]; simpl; [rewrite H|]; reflexivity.
Qed.

Lemma blank_search_only_prompts_witness :
  trace (run performSearch (searching_for "   " true page))
    = [Alert "Please enter a search query"] /\
  pending (run performSearch (searching_for "   " true page)) = [].
Proof.
  assert (H : search_query (searching_for "   " true page) = "") by (vm_compute; reflexivity).
  unfold run. rewrite (blank_search_only_prompts _ H). split; reflexivity.
Defined.

Lemma set_panel_ok s w :
  present "searchResults" w -> present panel_body w ->
  set_panel s w = Ok tt (updated panel_body (with_text s) w).
Proof.
  intros [er Hr] Hb. unfold set_panel, bind, getElementById, get. rewrite Hr.
  apply set_text_ok, Hb.
Qed.

(** What a search with a query leaves behind. *)
Lemma performSearch_ok (w : World) :
  search_query w <> "" ->
  present "searchResults" w -> present panel_body w ->
  performSearch w
  = Ok tt (fetched (PostSearch (search_query w) 20
                      (if silenced_only w then Some 70%nat else None))
             AwaitSearch
             (updated panel_body (with_text "Searching...") w)).
Proof.
  intros Hq Hr Hb.
  unfold search_query, silenced_only in *.
  unfold performSearch, bind at 1, getElementById at 1, get.
  unfold bind at 1, getElementById at 1, get.
  destruct (els w !! "searchInput") as [e|]; [|contradiction]. simpl.
  assert (Ht : truthy (trim (el_value e)) = true).
  { unfold truthy. apply negb_true_iff, String.eqb_neq, Hq. }
  rewrite Ht. simpl.
  erewrite bind_ok; [|apply set_panel_ok; assumption]. rewrite fetch_ok.
  destruct (els w !! "silencedOnly"); reflexivity.
Qed.

(** X4. A search with a query shows the loading state and sends one request
    with the trimmed query, twenty results asked for, and the threshold 70
    exactly when "silenced only" is ticked (no threshold otherwise). *)
Theorem search_request_shape (w : World) :
  search_query w <> "" ->
  present "searchResults" w -> present panel_body w ->
  let w' := run performSearch w in
  text_of panel_body w' = Some "Searching..." /\
  trace w' = trace w ++
             [Fetch (PostSearch (search_query w) 20
                       (if silenced_only w then Some 70%nat else None))] /\
  pending w' = pending w ++ [AwaitSearch] /\
  uncaught w' = uncaught w.
Proof.
  intros Hq Hr Hb w'.
  subst w'. unfold run. rewrite (performSearch_ok w Hq Hr Hb). unfold fetched. simpl.
  split; [apply text_of_updated_eq, Hb | auto].
Qed.

Lemma search_request_shape_witness :
  trace (run performSearch (searching_for " sewage " true page))
    = [Fetch (PostSearch "sewage" 20 (Some 70%nat))] /\
  trace (run performSearch (searching_for "sewage" false page))
    = [Fetch (PostSearch "sewage" 20 None)] /\
  trace (run performSearch (searching_for (no_break_space +:+ "sewage" +:+ no_break_space)
                              false page))
    = [Fetch (PostSearch "sewage" 20 None)].
Proof.
  assert (Hr : forall t b, present "searchResults" (searching_for t b page))
    by (intros; vm_compute; eexists; reflexivity).
  assert (Hb : forall t b, present panel_body (searching_for t b page))
    by (intros; vm_compute; eexists; reflexivity).
  split; [|split].
  - exact (proj1 (proj2 (search_request_shape (searching_for " sewage " true page)
                           ltac:(vm_compute; discriminate) (Hr _ _) (Hb _ _)))).
  - exact (proj1 (proj2 (search_request_shape (searching_for "sewage" false page)
                           ltac:(vm_compute; discriminate) (Hr _ _) (Hb _ _)))).
  - exact (proj1 (proj2 (search_request_shape
                           (searching_for (no_break_space +:+ "sewage" +:+ no_break_space)
                              false page)
                           ltac:(vm_compute; discriminate) (Hr _ _) (Hb _ _)))).
Defined.

(** A box that holds nothing but no-break spaces is blank to [trim]: the
    search asks for a query and sends nothing. *)
Lemma no_break_spaces_are_blank :
  let w := searching_for (no_break_space +:+ no_break_space) false page in
  search_query w = "" /\
  trace (run performSearch w) = [Alert "Please enter a search query"] /\
  pending (run performSearch w) = [].
Proof. vm_compute. repeat split. Qed.

Lemma result_card_starts_with_hash r : exists rest, result_card r = String "#"%char rest.
Proof. unfold result_card. eexists. reflexivity. Qed.

(** X5. The results panel shows the answer and nothing of what it showed
    before: an empty result list gives the empty state, a non-empty one the
    cards of its results in order, whose text starts with the first card's
    [#] and so is none of the loading, empty or error states. *)
Theorem search_results_replace_panel (w : World) (results : list SearchResult) :
  present "searchResults" w -> present panel_body w ->
  let w' := run (performSearch_resume (Success results)) w in
  text_of panel_body w' =
    Some (match results with
          | [] => "No results found"
          | _ => String.concat "" (List.map result_card results)
          end) /\
  (results <> [] -> exists rest, text_of panel_body w' = Some (String "#"%char rest)) /\
  trace w' = trace w /\ uncaught w' = uncaught w.
Proof.
  intros Hr Hb w'. subst w'. unfold run, performSearch_resume, try_catch.
  destruct results as [|r rs].
  - simpl. rewrite set_panel_ok by assumption.
    split; [apply text_of_updated_eq, Hb|]. split; [intros H; contradiction|]. auto.
  - change (length (r :: rs) =? 0)%nat with false. cbv iota.
    rewrite set_panel_ok by assumption.
    split; [apply text_of_updated_eq, Hb|]. split; [|auto].
    intros _. rewrite text_of_updated_eq by exact Hb.
    destruct (result_card_starts_with_hash r) as (rest & Hc).
    cbn [List.map String.concat]. rewrite Hc.
    destruct (List.map result_card rs); eexists; reflexivity.
Qed.

Lemma search_results_replace_panel_witness :
  text_of panel_body (run (performSearch_resume (Success []))
                        (run performSearch (searching_for "sewage" true page)))
    = Some "No results found".
Proof.
  assert (Hr : present "searchResults" (run performSearch (searching_for "sewage" true page)))
    by (vm_compute; eexists; reflexivity).
  assert (Hb : present panel_body (run performSearch (searching_for "sewage" true page)))
    by (vm_compute; eexists; reflexivity).
  exact (proj1 (search_results_replace_panel _ [] Hr Hb)).
Defined.

(** X6. An answer with [success: false] leaves a search where it was: the
    panel keeps showing the loading state the search put there, and nothing
    is alerted, logged or thrown. *)
Theorem refused_search_stays_loading (w : World) (error : string) :
  search_query w <> "" ->
  present "searchResults" w -> present panel_body w ->
  let w' := run (performSearch_resume (BackendError error)) (run performSearch w) in
  text_of panel_body w' = Some "Searching..." /\
  trace w' = trace w ++
             [Fetch (PostSearch (search_query w) 20
                       (if silenced_only w then Some 70%nat else None))] /\
  uncaught w' = uncaught w.
Proof.
  intros Hq Hr Hb w'.
  subst w'. change (run (performSearch_resume (BackendError error)) (run performSearch w))
    with (run performSearch w).
  unfold run. rewrite (performSearch_ok w Hq Hr Hb). unfold fetched. simpl.
  split; [apply text_of_updated_eq, Hb | auto].
Qed.

Lemma refused_search_stays_loading_witness :
  text_of panel_body
    (run (performSearch_resume (BackendError "index offline"))
       (run performSearch (searching_for "sewage" false page))) = Some "Searching...".
Proof.
  assert (Hr : present "searchResults" (searching_for "sewage" false page))
    by (vm_compute; eexists; reflexivity).
  assert (Hb : present panel_body (searching_for "sewage" false page))
    by (vm_compute; eexists; reflexivity).
  exact (proj1 (refused_search_stays_loading (searching_for "sewage" false page)
                  "index offline" ltac:(vm_compute; discriminate) Hr Hb)).
Defined.

(** ** Sessions *)

(** [loadSessions] after its answer: it never throws and writes nothing but
    the options of the select (and the console). *)
Lemma loadSessions_resume_ok (a : Answer (list SessionInfo)) w :
  exists w',
    loadSessions_resume a w = Ok tt w' /\
    transcript w' = transcript w /\ els w' = els w /\
    currentSession w' = currentSession w /\ uncaught w' = uncaught w /\
    pending w' = pending w /\ nodes w' = nodes w /\
    sessionOptions w' =
      match a with
      | Success sessions =>
          match els w !! "sessionSelect" with
          | Some _ => ("", "New Investigation") ::
                      List.map (fun s => (session_id s, session_label s)) sessions
          | None => sessionOptions w
          end
      | _ => sessionOptions w
      end.
Proof.
  unfold loadSessions_resume, try_catch. destruct a as [msg|error|sessions].
  - eexists. split; [reflexivity|]. simpl. auto 10.
  - eexists. split; [reflexivity|]. simpl. auto 10.
  - unfold bind, getElementById, get. destruct (els w !! "sessionSelect");
      (eexists; split; [reflexivity|]; simpl; auto 10).
Qed.

(** X7. The session list always starts with the "New Investigation"
    placeholder, whose value is empty, followed by one option per session of
    the answer, in the answer's order and with the session's id as value; a
    failed or refused answer leaves the options as they were; nothing is
    thrown either way. *)
Theorem session_options_start_with_placeholder (w : World) (a : Answer (list SessionInfo)) :
  present "sessionSelect" w ->
  let w' := run (loadSessions_resume a) w in
  match a with
  | Success sessions =>
      head (sessionOptions w') = Some ("", "New Investigation") /\
      (sessionOptions w').*1 = "" :: List.map session_id sessions
  | _ => sessionOptions w' = sessionOptions w
  end /\
  uncaught w' = uncaught w.
Proof.
  intros [e He] w'. destruct (loadSessions_resume_ok a w) as (w1 & R & _ & _ & _ & Hu & _ & _ & Ho).
  subst w'. rewrite (run_ok _ _ _ R). split; [|exact Hu].
  destruct a as [msg|error|sessions]; try exact Ho.
  rewrite He in Ho. rewrite Ho. split; [reflexivity|]. simpl. f_equal.
  clear. induction sessions as [|s rest IH]; [reflexivity|]. simpl. f_equal. exact IH.
Qed.

Lemma session_options_start_with_placeholder_witness :
  sessionOptions (run (loadSessions_resume (Success two_sessions)) page)
    = [("", "New Investigation"); ("3f9a2c1e-77aa", "Ward 12");
       ("b01d5e6f-0042", "Session b01d5e6f")] /\
  sessionOptions (run (loadSessions_resume (NetworkFailure "offline"))
                    (run (loadSessions_resume (Success two_sessions)) page))
    = sessionOptions (run (loadSessions_resume (Success two_sessions)) page).
Proof.
  assert (H1 : present "sessionSelect" page) by (vm_compute; eexists; reflexivity).
  assert (H2 : present "sessionSelect" (run (loadSessions_resume (Success two_sessions)) page))
    by (vm_compute; eexists; reflexivity).
  split.
  - vm_compute. reflexivity.
  - exact (proj1 (session_options_start_with_placeholder _ (NetworkFailure "offline") H2)).
Defined.

Lemma forEach_addMessageToChat (messages : list HistoryMessage) w :
  present "chatMessages" w ->
  forEach (fun msg => addMessageToChat (role msg) (content msg)) messages w
    = Ok tt (set_transcript (transcript w ++ List.map history_node messages) w).
Proof.
  revert w. induction messages as [|m rest IH]; intros w Hp; simpl.
  - rewrite app_nil_r. destruct w; reflexivity.
  - unfold addMessageToChat at 1. erewrite bind_ok; [|apply append_node_ok, Hp].
    rewrite IH by exact Hp. simpl. rewrite <- app_assoc. reflexivity.
Qed.

(** X8. Selecting a session replaces the transcript by that session's
    history, message for message and in order, whatever was shown before,
    and makes the session current; a failed or refused history request
    changes neither the transcript nor the current session. *)
Theorem history_replaces_transcript (w : World) (sessionId : string)
    (a : Answer (list HistoryMessage)) :
  present "chatMessages" w ->
  let w' := run (loadSessionHistory_resume sessionId a) w in
  match a with
  | Success messages =>
      transcript w' = List.map history_node messages /\
      currentSession w' = Some sessionId /\ trace w' = trace w
  | NetworkFailure msg =>
      transcript w' = transcript w /\ currentSession w' = currentSession w /\
      trace w' = trace w ++ [ConsoleError "Load history error:" msg]
  | BackendError _ => w' = w
  end /\
  uncaught w' = uncaught w.
Proof.
  intros Hp w'. subst w'.
  destruct a as [msg|error|messages]; [split; [repeat split | reflexivity]
                                      | split; reflexivity |].
  assert (Hrun : loadSessionHistory_resume sessionId (Success messages) w
                 = Ok tt (set_transcript (List.map history_node messages)
                            (set_currentSession (Some sessionId) w))).
  { unfold loadSessionHistory_resume, try_catch.
    erewrite bind_ok; [|reflexivity].
    unfold replace_nodes, bind. simpl. destruct Hp as [e He]. rewrite He.
    rewrite forEach_addMessageToChat by (exists e; exact He). reflexivity. }
  unfold run. rewrite Hrun. repeat split.
Qed.

Lemma history_replaces_transcript_witness :
  transcript (run (loadSessionHistory_resume "B" (Success history_B)) two_sends)
    = [Message "user" "Any income bias?"] /\
  currentSession (run (loadSessionHistory_resume "B" (Success history_B)) two_sends)
    = Some "B".
Proof.
  assert (Hp : present "chatMessages" two_sends) by (vm_compute; eexists; reflexivity).
  destruct (history_replaces_transcript two_sends "B" (Success history_B) Hp)
    as ((Ht & Hs & _) & _).
  split; [exact Ht | exact Hs].
Defined.

(** X9. A history answer that finds no [#chatMessages] in the document still
    switches the current session: the session is set before the transcript
    is touched, the failure is caught and logged, and the transcript stays. *)
Theorem history_without_container_switches_session (w : World) (sessionId : string)
    (messages : list HistoryMessage) :
  els w !! "chatMessages" = None ->
  let w' := run (loadSessionHistory_resume sessionId (Success messages)) w in
  currentSession w' = Some sessionId /\
  transcript w' = transcript w /\
  trace w' = trace w ++ [ConsoleError "Load history error:" TypeError] /\
  uncaught w' = uncaught w.
Proof.
  intros Hn w'. subst w'.
  assert (Hrun : loadSessionHistory_resume sessionId (Success messages) w
                 = Ok tt (set_trace (trace w ++ [ConsoleError "Load history error:" TypeError])
                            (set_currentSession (Some sessionId) w))).
  { unfold loadSessionHistory_resume, try_catch.
    erewrite bind_ok; [|reflexivity].
    unfold replace_nodes, bind. simpl. rewrite Hn. reflexivity. }
  unfold run. rewrite Hrun. repeat split.
Qed.

Lemma history_without_container_switches_session_witness :
  currentSession (run (loadSessionHistory_resume "A" (Success history_A))
                    (without ["chatMessages"] page)) = Some "A" /\
  transcript (run (loadSessionHistory_resume "A" (Success history_A))
                (without ["chatMessages"] page)) = [].
Proof.
  destruct (history_without_container_switches_session (without ["chatMessages"] page) "A"
              history_A eq_refl) as (Hs & Ht & _).
  split; [exact Hs | exact Ht].
Defined.

(** X10. Choosing the "New Investigation" placeholder forgets the current
    session without a request and without clearing what the chat shows; the
    next message is then sent without a session id. *)
Theorem placeholder_starts_fresh_conversation (w : World) (message : string) :
  present "chatMessages" w ->
  let w1 := run (session_changed "") w in
  let w2 := run (sendChatMessage message) w1 in
  currentSession w1 = None /\
  transcript w1 = transcript w /\
  trace w1 = trace w /\ pending w1 = pending w /\
  trace w2 = trace w ++ [Fetch (PostChat message None)].
Proof.
  intros Hp w1 w2.
  assert (H1 : w1 = set_currentSession None (updated "sessionSelect" (with_value "") w)).
  { subst w1. unfold run, session_changed. erewrite bind_ok; [|apply update_element_opt_ok].
    reflexivity. }
  assert (Hp1 : present "chatMessages" w1).
  { rewrite H1. apply (present_updated "chatMessages" "sessionSelect"), Hp. }
  destruct (sendChatMessage_spec message w1 Hp1) as (w2' & R & _ & _ & Htr & _).
  subst w2. rewrite (run_ok _ _ _ R), Htr. rewrite H1. simpl. auto.
Qed.

Lemma placeholder_starts_fresh_conversation_witness :
  currentSession switched_while_pending = Some "B" /\
  trace (run (sendChatMessage "hello") (run (session_changed "") switched_while_pending))
    = trace switched_while_pending ++ [Fetch (PostChat "hello" None)].
Proof.
  assert (Hp : present "chatMessages" switched_while_pending)
    by (vm_compute; eexists; reflexivity).
  destruct (placeholder_starts_fresh_conversation switched_while_pending "hello" Hp)
    as (_ & _ & _ & _ & Ht).
  split; [vm_compute; reflexivity | exact Ht].
Defined.

(** X11. A new session is adopted as soon as the backend has created it, and
    once the session list is back, whether reloading it worked or failed,
    the transcript is replaced by the banner naming the session and the
    first eight characters of its id; nothing is thrown. *)
Theorem new_session_is_announced (w : World) (name sid : string)
    (a : Answer (list SessionInfo)) :
  present "chatMessages" w ->
  let w1 := run (createNewSession_resume name (Success sid)) w in
  let w2 := run (sessions_answered a (ResumeNewSession name)) w1 in
  currentSession w1 = Some sid /\
  transcript w1 = transcript w /\
  trace w1 = trace w ++ [Fetch GetSessions] /\
  currentSession w2 = Some sid /\
  transcript w2 = [new_session_banner name sid] /\
  uncaught w2 = uncaught w.
Proof.
  intros Hp w1 w2.
  assert (H1 : w1 = fetched GetSessions (AwaitSessions (ResumeNewSession name))
                      (set_currentSession (Some sid) w)) by reflexivity.
  split; [rewrite H1; reflexivity|]. split; [rewrite H1; reflexivity|].
  split; [rewrite H1; reflexivity|].
  destruct (loadSessions_resume_ok a w1) as (w' & R & Ht & He & Hs & Hu & _).
  assert (H2 : w2 = set_transcript [new_session_banner name sid]
                      (updated "sessionSelect"
                         (with_value (select_value (sessionOptions w') sid)) w')).
  { subst w2. unfold run, sessions_answered. erewrite bind_ok; [|exact R].
    unfold after_sessions, createNewSession_resume2, try_catch.
    erewrite bind_ok; [|reflexivity]. erewrite bind_ok; [|reflexivity].
    erewrite bind_ok; [|apply update_element_opt_ok].
    rewrite Hs, H1. simpl.
    unfold replace_nodes. simpl.
    assert (Hc : is_Some (alter (with_value (select_value (sessionOptions w') sid))
                            "sessionSelect" (els w') !! "chatMessages")).
    { apply lookup_alter_is_Some. rewrite He, H1. exact Hp. }
    destruct Hc as [e ->]. reflexivity. }
  rewrite H2. simpl. rewrite Hs, Hu, H1. auto.
Qed.

Lemma new_session_is_announced_witness :
  transcript (run (sessions_answered (NetworkFailure "offline") (ResumeNewSession "Night shift"))
                (run (createNewSession_resume "Night shift" (Success "3f9a2c1e-77aa")) page))
    = [Banner "NEW SESSION: Night shift" "Session ID: 3f9a2c1e..."].
Proof.
  assert (Hp : present "chatMessages" page) by (vm_compute; eexists; reflexivity).
  exact (proj1 (proj2 (proj2 (proj2 (proj2
           (new_session_is_announced page "Night shift" "3f9a2c1e-77aa"
              (NetworkFailure "offline") Hp)))))).
Defined.

(** X12. If the session was cleared while a new session was being set up
    (the placeholder chosen before the session list came back), the banner
    is not written: reading the id of no session fails, the failure is
    caught and logged, and the transcript stays as it was. *)
Theorem new_session_banner_needs_session (w : World) (name : string) :
  currentSession w = None ->
  let w' := run (createNewSession_resume2 name) w in
  transcript w' = transcript w /\
  trace w' = trace w ++ [ConsoleError "Create session error:" TypeError] /\
  uncaught w' = uncaught w.
Proof.
  intros Hs w'.
  assert (Hrun : createNewSession_resume2 name w
                 = Ok tt (set_trace (trace w ++ [ConsoleError "Create session error:" TypeError])
                            (updated "sessionSelect"
                               (with_value (select_value (sessionOptions w) "")) w))).
  { unfold createNewSession_resume2, try_catch.
    erewrite bind_ok; [|reflexivity]. erewrite bind_ok; [|reflexivity].
    erewrite bind_ok; [|apply update_element_opt_ok]. rewrite Hs. reflexivity. }
  subst w'. unfold run. rewrite Hrun. repeat split.
Qed.

Lemma new_session_banner_needs_session_witness :
  transcript (run (createNewSession_resume2 "Night shift") two_sends) = transcript two_sends.
Proof.
  exact (proj1 (new_session_banner_needs_session two_sends "Night shift" eq_refl)).
Defined.

(** ** A send on a page without its transcript *)

(** X14. [sendChatMessage] on a page without [#chatMessages] fails before
    anything is sent: the input is cleared, no request leaves, nothing is
    left pending, and the error is nobody's to catch. *)
Theorem send_without_transcript_is_lost (w : World) (message : string) :
  els w !! "chatMessages" = None ->
  let w' := run (sendChatMessage message) w in
  uncaught w' = uncaught w ++ [TypeError] /\
  trace w' = trace w /\ pending w' = pending w /\ transcript w' = transcript w /\
  (present "chatInput" w -> value_of "chatInput" w' = Some "").
Proof.
  intros Hn w'.
  assert (Hrun : sendChatMessage message w
                 = Throw TypeError (updated "chatInput" (with_value "") w)).
  { unfold sendChatMessage. erewrite bind_ok; [|apply update_element_opt_ok].
    apply bind_throw. unfold addMessageToChat, append_node. simpl.
    rewrite lookup_alter_ne by discriminate. rewrite Hn. reflexivity. }
  subst w'. unfold run. rewrite Hrun. repeat split.
  intros [e He]. unfold value_of. simpl. rewrite lookup_alter_eq, He. reflexivity.
Qed.

Lemma send_without_transcript_is_lost_witness :
  uncaught (run (sendChatMessage "hello") (without ["chatMessages"] page)) = [TypeError] /\
  trace (run (sendChatMessage "hello") (without ["chatMessages"] page)) = [].
Proof.
  destruct (send_without_transcript_is_lost (without ["chatMessages"] page) "hello" eq_refl)
    as (Hu & Ht & _).
  split; [exact Hu | exact Ht].
Defined.

Lemma resume_sessions k a :
  resume (AwaitSessions k) (SessionsReply a) = Some (sessions_answered a k).
Proof. reflexivity. Qed.

(** ** Typing indicators *)

Lemma In_without_typing id n ns :
  In n (without_typing id ns) <-> In n ns /\ is_typing id n = false.
Proof.
  unfold without_typing. rewrite filter_In, negb_true_iff. reflexivity.
Qed.

Lemma typing_gone id ns : ~ In (Typing id) (without_typing id ns).
Proof.
  rewrite In_without_typing. simpl. rewrite Nat.eqb_refl. intros [_ H]. discriminate.
Qed.

Lemma others_kept id ns : keeps_other_typing id ns (without_typing id ns).
Proof.
  intros other Hne Hin. apply In_without_typing. split; [exact Hin|].
  simpl. apply Nat.eqb_neq. exact Hne.
Qed.

Lemma settled_append id before r c w :
  settled id before w -> settled id before (set_transcript (transcript w ++ [Message r c]) w).
Proof.
  intros (Hp & Hn & Hk). split; [exact Hp|]. simpl. split.
  - rewrite in_app_iff. intros [H|[H|[]]]; [exact (Hn H) | discriminate].
  - intros other Hne Hin. apply in_app_iff. left. exact (Hk other Hne Hin).
Qed.

Lemma settled_addMessageToChat id before r c :
  preserves (settled id before) (addMessageToChat r c).
Proof.
  intros w H. unfold addMessageToChat. rewrite append_node_ok by apply H.
  apply settled_append, H.
Qed.

Lemma settled_renderDynamicChart id before chartData :
  preserves (settled id before) (renderDynamicChart chartData).
Proof.
  intros w (Hp & Hn & Hk).
  pose proof (renderDynamicChart_keeps_chat (transcript w) chartData w (conj eq_refl Hp)) as H.
  destruct (renderDynamicChart chartData w) as [[] w'|e w']; destruct H as [Ht Hp'];
    (split; [exact Hp' | rewrite Ht; split; assumption]).
Qed.

Lemma settled_chat_finish id before reply chart :
  preserves (settled id before) (chat_finish reply chart).
Proof.
  unfold chat_finish. apply preserves_bind; [apply settled_addMessageToChat | intros _].
  destruct chart; [apply settled_renderDynamicChart | apply preserves_ret].
Qed.

Lemma settled_remove_typing id before w :
  present "chatMessages" w -> keeps_other_typing id before (transcript w) ->
  settled id before (set_transcript (without_typing id (transcript w)) w).
Proof.
  intros Hp Hk. split; [exact Hp|]. simpl. split; [apply typing_gone|].
  intros other Hne Hin. apply others_kept; [exact Hne | exact (Hk other Hne Hin)].
Qed.

Lemma chat_catch_settles id before e w :
  present "chatMessages" w -> keeps_other_typing id before (transcript w) ->
  exists w', chat_catch id e w = Ok tt w' /\ settled id before w'.
Proof.
  intros Hp Hk. unfold chat_catch. erewrite bind_ok; [|reflexivity].
  unfold addMessageToChat. rewrite append_node_ok by exact Hp.
  eexists. split; [reflexivity|].
  apply settled_append. apply (settled_remove_typing id before w Hp Hk).
Qed.

(** X15. Once a chat request is answered, in whatever way, its typing
    indicator is gone from the transcript, and the indicators of the other
    pending sends are all still there. *)
Theorem answer_removes_its_own_indicator (w : World) (typing : nat) (a : Answer ChatData) :
  present "chatMessages" w ->
  let w' := run (sendChatMessage_resume typing a) w in
  ~ In (Typing typing) (transcript w') /\
  keeps_other_typing typing (transcript w) (transcript w').
Proof.
  intros Hp w'.
  assert (Hk0 : keeps_other_typing typing (transcript w) (transcript w))
    by (intros other _ H; exact H).
  pose proof (settled_remove_typing typing (transcript w) w Hp Hk0) as H0.
  assert (Hs : exists w1, sendChatMessage_resume typing a w = Ok tt w1 /\
                          settled typing (transcript w) w1).
  { unfold sendChatMessage_resume, try_catch. destruct a as [msg|error|data].
    - apply chat_catch_settles; assumption.
    - erewrite bind_ok; [|reflexivity].
      pose proof (settled_addMessageToChat typing (transcript w) "assistant"
                    ("Error: " +:+ error) _ H0) as H1.
      destruct (addMessageToChat _ _ _) as [[] w1|e w1].
      + exists w1. split; [reflexivity | exact H1].
      + destruct H1 as (Hp1 & _ & Hk1). apply chat_catch_settles; assumption.
    - erewrite bind_ok; [|reflexivity]. erewrite bind_ok; [|reflexivity].
      destruct (truthy (or_else (chat_session_id data) "") && _).
      + eexists. split; [reflexivity | exact H0].
      + pose proof (settled_chat_finish typing (transcript w) (response data)
                      (chart_data data) _ H0) as H1.
        destruct (chat_finish _ _ _) as [[] w1|e w1].
        * exists w1. split; [reflexivity | exact H1].
        * destruct H1 as (Hp1 & _ & Hk1). apply chat_catch_settles; assumption. }
  destruct Hs as (w1 & R & _ & Hn & Hk). subst w'. rewrite (run_ok _ _ _ R).
  split; assumption.
Qed.

Lemma answer_removes_its_own_indicator_witness :
  transcript (run (sendChatMessage_resume 0 (NetworkFailure "offline")) two_sends)
    = [Message "user" "first"; Message "user" "second"; Typing 1;
       Message "assistant" "Connection error: offline"] /\
  ~ In (Typing 0) (transcript (run (sendChatMessage_resume 0 (NetworkFailure "offline"))
                                 two_sends)).
Proof.
  assert (Hp : present "chatMessages" two_sends) by (vm_compute; eexists; reflexivity).
  split; [vm_compute; reflexivity|].
  exact (proj1 (answer_removes_its_own_indicator two_sends 0 (NetworkFailure "offline") Hp)).
Defined.

(** ** Adoption and the reply *)

(** X16. When a reply brings the first session id, the id is adopted at once
    and the reply itself is held back until the session list is answered;
    it is then appended whether the list could be reloaded or not, so a
    failing session list never costs the assistant's reply. *)
Theorem adopted_reply_survives_session_list_failure (w : World) (typing : nat)
    (data : ChatData) (sid : string) (a : Answer (list SessionInfo)) :
  present "chatMessages" w ->
  no_session w = true -> chat_session_id data = Some sid -> sid <> "" ->
  let w1 := run (sendChatMessage_resume typing (Success data)) w in
  let w2 := run (sessions_answered a (ResumeChat typing (response data) (chart_data data)))
                w1 in
  currentSession w1 = Some sid /\
  transcript w1 = without_typing typing (transcript w) /\
  trace w1 = trace w ++ [Fetch GetSessions] /\
  exists rest,
    transcript w2 = without_typing typing (transcript w) ++
                    Message "assistant" (response data) :: rest.
Proof.
  intros Hp Hfresh Hsid Hne w1 w2.
  assert (H1 : w1 = fetched GetSessions
                      (AwaitSessions (ResumeChat typing (response data) (chart_data data)))
                      (set_currentSession (Some sid)
                         (set_transcript (without_typing typing (transcript w)) w))).
  { subst w1. unfold run, sendChatMessage_resume, try_catch.
    erewrite bind_ok; [|reflexivity]. erewrite bind_ok; [|reflexivity].
    change (no_session (set_transcript _ w)) with (no_session w).
    rewrite Hfresh, Hsid.
    assert (Htruthy : truthy (or_else (Some sid) "") = true)
      by (destruct sid; [contradiction | reflexivity]).
    rewrite Htruthy. reflexivity. }
  split; [rewrite H1; reflexivity|]. split; [rewrite H1; reflexivity|].
  split; [rewrite H1; reflexivity|].
  destruct (loadSessions_resume_ok a w1) as (w' & R & Ht & He & _).
  assert (Hp' : present "chatMessages" w').
  { unfold present. rewrite He, H1. exact Hp. }
  destruct (chat_finish_shape (response data) (chart_data data) typing w' Hp') as (rest & Hshape).
  exists rest.
  assert (H2 : w2 = run (try_catch (chat_finish (response data) (chart_data data))
                           (chat_catch typing)) w').
  { subst w2. unfold run at 1, sessions_answered. erewrite bind_ok; [|exact R]. reflexivity. }
  rewrite H2. rewrite Ht, H1 in Hshape. simpl in Hshape.
  rewrite without_typing_idem in Hshape. destruct Hshape as [H|H]; exact H.
Qed.

Lemma adopted_reply_survives_session_list_failure_witness :
  transcript
    (run (sessions_answered (NetworkFailure "offline") (ResumeChat 0 "Ward 12 leads." None))
       (run (sendChatMessage_resume 0
               (Success {| chat_session_id := Some "s1"; response := "Ward 12 leads.";
                           chart_data := None |}))
          (run (sendChatMessage "Which ward?") page)))
    = [Message "user" "Which ward?"; Message "assistant" "Ward 12 leads."].
Proof.
  assert (Hp : present "chatMessages" (run (sendChatMessage "Which ward?") page))
    by (vm_compute; eexists; reflexivity).
  destruct (adopted_reply_survives_session_list_failure
              (run (sendChatMessage "Which ward?") page) 0
              {| chat_session_id := Some "s1"; response := "Ward 12 leads.";
                 chart_data := None |} "s1" (NetworkFailure "offline") Hp eq_refl eq_refl
              ltac:(discriminate)) as (_ & Ht & _).
  vm_compute. reflexivity.
Defined.

(** X17. For a client that already has a session, a reply whose chart
    cannot be drawn because [#chartTitle] is missing still shows the reply
    and then reports the failure as a connection error: the chart panel has
    been made visible, no Chart is constructed or destroyed, nothing is
    thrown, and the transcript ends with the assistant's reply followed by a
    bubble that starts with "Connection error: " (what follows is the
    message of the TypeError, which is the engine's). *)
Theorem undrawable_chart_reads_as_connection_error (w : World) (typing : nat)
    (data : ChatData) (chartData : ChartData) :
  present "chatMessages" w -> present "chartPanel" w -> present "dynamicChart" w ->
  els w !! "chartTitle" = None ->
  no_session w = false -> chart_data data = Some chartData ->
  let w' := run (sendChatMessage_resume typing (Success data)) w in
  (exists detail,
     transcript w' = without_typing typing (transcript w) ++
                     [Message "assistant" (response data);
                      Message "assistant" ("Connection error: " +:+ detail)]) /\
  display_of "chartPanel" w' = Some "flex" /\
  charts w' = charts w /\ chartVars w' = chartVars w /\
  trace w' = trace w /\
  uncaught w' = uncaught w.
Proof.
  intros Hm [ep Hp] [ec Hc] Ht Hs Hd w'.
  set (T := without_typing typing (transcript w)).
  assert (Hrun : sendChatMessage_resume typing (Success data) w
                 = Ok tt (set_transcript
                            (T ++ [Message "assistant" (response data);
                                   Message "assistant" ("Connection error: " +:+ TypeError)])
                            (updated "chartPanel" (with_display "flex") w))).
  { unfold sendChatMessage_resume, try_catch.
    erewrite bind_ok; [|reflexivity]. erewrite bind_ok; [|reflexivity].
    change (no_session (set_transcript _ w)) with (no_session w).
    rewrite Hs, andb_false_r. unfold chat_finish, addMessageToChat.
    erewrite bind_ok; [|apply append_node_ok, Hm]. rewrite Hd.
    unfold renderDynamicChart, bind at 1, getElementById at 1, get.
    unfold bind at 1, getElementById at 1, get. cbn [els set_transcript]. rewrite Hp, Hc.
    erewrite bind_ok; [|apply set_display_ok; exists ep; exact Hp].
    erewrite bind_throw.
    2:{ unfold set_text. apply update_element_missing.
        rewrite els_updated. cbn [els set_transcript]. rewrite Ht. reflexivity. }
    unfold chat_catch, addMessageToChat. erewrite bind_ok; [|reflexivity].
    rewrite append_node_ok by (apply present_updated; exact Hm). simpl.
    change (List.filter (fun n => negb (is_typing typing n))) with (without_typing typing).
    rewrite without_typing_app, without_typing_idem. simpl. rewrite <- app_assoc.
    reflexivity. }
  subst w'. unfold run. rewrite Hrun. simpl.
  split; [exists TypeError; reflexivity|]. split; [|auto].
  apply (display_of_updated_eq "chartPanel" "flex" w). exists ep; exact Hp.
Qed.

Lemma undrawable_chart_reads_as_connection_error_witness :
  exists detail,
    transcript
      (run (sendChatMessage_resume 0
              (Success {| chat_session_id := Some "A"; response := "Here is the chart.";
                          chart_data := Some ward_chart |}))
         (without ["chartTitle"] switched_while_pending))
    = [Message "user" "Any income bias?"; Message "assistant" "Here is the chart.";
       Message "assistant" ("Connection error: " +:+ detail)].
Proof.
  assert (H1 : present "chatMessages" (without ["chartTitle"] switched_while_pending))
    by (vm_compute; eexists; reflexivity).
  assert (H2 : present "chartPanel" (without ["chartTitle"] switched_while_pending))
    by (vm_compute; eexists; reflexivity).
  assert (H3 : present "dynamicChart" (without ["chartTitle"] switched_while_pending))
    by (vm_compute; eexists; reflexivity).
  exact (proj1 (undrawable_chart_reads_as_connection_error
                  (without ["chartTitle"] switched_while_pending) 0
                  {| chat_session_id := Some "A"; response := "Here is the chart.";
                     chart_data := Some ward_chart |} ward_chart H1 H2 H3 eq_refl eq_refl
                  eq_refl)).
Defined.

(** ** Analytics views *)

(** Replacing a chart always goes through, and writes the chart objects,
    their variable and the trace only. *)
Lemma replace_chart_frame cv cfg w :
  exists w',
    replace_chart cv cfg w = Ok tt w' /\
    els w' = els w /\ uncaught w' = uncaught w /\ transcript w' = transcript w /\
    pending w' = pending w /\ currentSession w' = currentSession w /\
    trace w' = trace w ++ replace_events cv w.
Proof.
  unfold replace_chart, replace_events, bind, get_var, get, destroy_if, destroy, new_Chart,
    set_var, modify, emit. simpl.
  destruct (chartVars w !! cv); eexists; (split; [reflexivity|]); simpl;
    rewrite ?length_alter, <- ?app_assoc; auto 10.
Qed.

(** The chart part of a view, canvas or not. *)
Lemma chart_part_frame cv cfg w :
  exists w',
    match els w !! cv with
    | Some _ => replace_chart cv cfg
    | None => ret tt
    end w = Ok tt w' /\
    els w' = els w /\ uncaught w' = uncaught w /\ transcript w' = transcript w /\
    pending w' = pending w /\ currentSession w' = currentSession w /\
    trace w' = trace w ++ chart_events cv w.
Proof.
  unfold chart_events.
  destruct (els w !! cv).
  - apply replace_chart_frame.
  - exists w. rewrite app_nil_r. auto 10.
Qed.






Lemma string_app_assoc (a b c : string) : (a +:+ b) +:+ c = a +:+ (b +:+ c).
Proof.
  induction a as [|x a IH]; [reflexivity|].
  change (String x ((a +:+ b) +:+ c) = String x (a +:+ (b +:+ c))). f_equal. exact IH.
Qed.

Lemma string_app_nil_r (a : string) : a +:+ "" = a.
Proof.
  induction a as [|x a IH]; [reflexivity|].
  change (String x (a +:+ "") = String x a). f_equal. exact IH.
Qed.

Lemma updated_twice id f g w :
  updated id f (updated id g w) = updated id (fun e => f (g e)) w.
Proof.
  assert (H : alter f id (alter g id (els w)) = alter (fun e => f (g e)) id (els w)).
  { apply map_eq. intros k. destruct (decide (id = k)) as [->|Hne].
    - rewrite !lookup_alter_eq. destruct (els w !! k); reflexivity.
    - rewrite !lookup_alter_ne by exact Hne. reflexivity. }
  unfold updated. cbn [els set_els]. rewrite H. reflexivity.
Qed.

Lemma append_text_updated id acc s w :
  present id w ->
  append_text id s (updated id (with_text acc) w)
    = Ok tt (updated id (with_text (acc +:+ s)) w).
Proof.
  intros Hp. unfold append_text.
  rewrite update_element_ok by (apply present_updated; exact Hp).
  rewrite updated_twice. reflexivity.
Qed.




Lemma createDemoChart_replace cv data type w :
  createDemoChart cv data type (chartVars w !! cv) (fun c => set_var cv (Some c)) w
  = match els w !! cv with
    | Some _ => replace_chart cv (demo_config data type)
    | None => ret tt
    end w.
Proof.
  unfold createDemoChart, bind at 1, getElementById, get.
  destruct (els w !! cv); reflexivity.
Qed.

Lemma chart_events_no_error cv w label message :
  ~ In (ConsoleError label message) (chart_events cv w).
Proof.
  unfold chart_events, replace_events.
  destruct (els w !! cv); [|intros []].
  destruct (chartVars w !! cv); simpl; intros H; intuition discriminate.
Qed.

Lemma ratio_finding_updated b k1 k2 say acc w :
  present "demoFindings" w ->
  ratio_finding b k1 k2 say (updated "demoFindings" (with_text acc) w)
    = Ok tt (updated "demoFindings" (with_text (acc +:+ ratio_line b k1 k2 say)) w).
Proof.
  intros Hp. unfold ratio_finding, ratio_line.
  destruct (lookup_key k1 b); [destruct (lookup_key k2 b)|];
    try (rewrite string_app_nil_r; reflexivity).
  apply append_text_updated, Hp.
Qed.

(** X21. The demographic findings are rewritten from the answer: after the
    three charts are rebuilt the list holds, in this order, the gender, the
    income and the caste line, each one only if both of its groups are in
    the answer; a missing group or a zero denominator raises nothing, and
    what the list showed before is gone. *)
Theorem demographic_findings_are_rewritten (w : World) (data : Demographic) :
  present "demoFindings" w ->
  let w' := run (loadDemographics_resume (Success data)) w in
  text_of "demoFindings" w' =
    Some (ratio_line (by_gender data) "F" "M"
            (fun ratio => "Women face " +:+ ratio +:+ "x higher silence scores than men") +:+
          ratio_line (by_income data) "0-3L" "10L+"
            (fun ratio => "Lowest income bracket silenced " +:+ ratio +:+ "x more than highest") +:+
          ratio_line (by_caste data) "SC" "General"
            (fun ratio => "SC caste faces " +:+ ratio +:+ "x higher silence rates than General")) /\
  (forall label message,
     In (ConsoleError label message) (trace w') -> In (ConsoleError label message) (trace w)) /\
  uncaught w' = uncaught w.
Proof.
  intros Hp w'.
  set (incomeData := omap (fun k => (fun v => (k, v)) <$> lookup_key k (by_income data))
                          ["0-3L"; "3-6L"; "6-10L"; "10L+"]).
  destruct (chart_part_frame "genderChart" (demo_config (by_gender data) "gender") w)
    as (w1 & R1 & He1 & Hu1 & _ & _ & _ & Ht1).
  destruct (chart_part_frame "casteChart" (demo_config (by_caste data) "caste") w1)
    as (w2 & R2 & He2 & Hu2 & _ & _ & _ & Ht2).
  destruct (chart_part_frame "incomeChart" (demo_config incomeData "income") w2)
    as (w3 & R3 & He3 & Hu3 & _ & _ & _ & Ht3).
  assert (Hp3 : present "demoFindings" w3).
  { unfold present. rewrite He3, He2, He1. exact Hp. }
  eassert (Hrun : loadDemographics_resume (Success data) w
                  = Ok tt (updated "demoFindings" (with_text _) w3)).
  { unfold loadDemographics_resume, try_catch.
    unfold bind at 1, get_var at 1, get at 1.
    erewrite bind_ok; [|rewrite createDemoChart_replace; exact R1].
    unfold bind at 1, get_var at 1, get at 1.
    erewrite bind_ok; [|rewrite createDemoChart_replace; exact R2].
    cbv zeta.
    unfold bind at 1, get_var at 1, get at 1.
    erewrite bind_ok; [|rewrite createDemoChart_replace; exact R3].
    unfold bind at 1, getElementById at 1, get at 1.
    destruct Hp3 as [e He]. rewrite He. cbv beta iota.
    erewrite bind_ok; [|apply set_text_ok; exists e; exact He].
    erewrite bind_ok; [|apply ratio_finding_updated; exists e; exact He].
    erewrite bind_ok; [|apply ratio_finding_updated; exists e; exact He].
    rewrite ratio_finding_updated by (exists e; exact He).
    reflexivity. }
  subst w'. unfold run. rewrite Hrun.
  split.
  { rewrite text_of_updated_eq by exact Hp3. f_equal.
    rewrite string_app_assoc. reflexivity. }
  split; [|cbn; congruence].
  intros label message. cbn [trace updated set_els]. rewrite Ht3, Ht2, Ht1.
  rewrite !in_app_iff. intros [[[H|H]|H]|H]; [exact H| | |];
    exfalso; eapply chart_events_no_error; exact H.
Qed.

Lemma demographic_findings_are_rewritten_witness :
  text_of "demoFindings" (run (loadDemographics_resume (Success partial_breakdown)) page)
  = Some ("Women face Infinityx higher silence scores than men" +:+ newline +:+
          "SC caste faces 1.50x higher silence rates than General" +:+ newline).
Proof.
  assert (Hp : present "demoFindings" page) by (vm_compute; eexists; reflexivity).
  exact (proj1 (demographic_findings_are_rewritten page partial_breakdown Hp)).
Defined.

(** ** Dashboard *)

Lemma set_text_then {B} id s (k : M B) w :
  (set_text id s ;; k) w
  = match els w !! id with
    | Some _ => k (updated id (with_text s) w)
    | None => Throw TypeError w
    end.
Proof.
  destruct (els w !! id) eqn:E.
  - erewrite bind_ok; [reflexivity|]. apply set_text_ok. eexists; exact E.
  - erewrite bind_throw; [reflexivity|]. apply update_element_missing, E.
Qed.

Ltac on_page H :=
  apply (ex_intro (fun e => _ = Some e)) in H;
  repeat (apply present_updated in H).

(** X22. When one of the eight elements of the statistics cards is not on
    the page, a dashboard answer ends in one logged TypeError: the request
    for the overview chart, which comes after the cards, is not sent, and
    the error goes no further. *)
Theorem dashboard_stops_at_missing_element (w : World) (data : Stats) (id : string) :
  In id stat_ids ->
  els w !! id = None ->
  let w' := run (loadDashboard_resume (Success data)) w in
  trace w' = trace w ++ [ConsoleError "Dashboard error:" TypeError] /\
  pending w' = pending w /\
  uncaught w' = uncaught w.
Proof.
  intros Hin Hnone w'. subst w'.
  unfold run, loadDashboard_resume, try_catch. cbv zeta.
  rewrite set_text_then.
  destruct (els w !! "totalCases") eqn:E1; [|cbn; auto].
  rewrite set_text_then.
  destruct (els _ !! "headerCases") eqn:E2; [|cbn; auto].
  rewrite set_text_then.
  destruct (els _ !! "silencedCount") eqn:E3; [|cbn; auto].
  rewrite set_text_then.
  destruct (els _ !! "silenceRate") eqn:E4; [|cbn; auto].
  rewrite set_text_then.
  destruct (els _ !! "headerSilenced") eqn:E5; [|cbn; auto].
  rewrite set_text_then.
  destruct (els _ !! "avgScore") eqn:E6; [|cbn; auto].
  rewrite set_text_then.
  destruct (els _ !! "avgDays") eqn:E7; [|cbn; auto].
  rewrite set_text_then.
  destruct (els _ !! "alertText") eqn:E8; [|cbn; auto].
  exfalso.
  on_page E1. on_page E2. on_page E3. on_page E4.
  on_page E5. on_page E6. on_page E7. on_page E8.
  unfold present, is_Some in *.
  unfold stat_ids in Hin. simpl in Hin.
  repeat (destruct Hin as [<-|Hin];
          [match goal with H : exists e, els w !! _ = Some e |- _ =>
             destruct H as [? H]; congruence end|]).
  exact Hin.
Qed.

Lemma dashboard_stops_at_missing_element_witness :
  trace (run (loadDashboard_resume (Success some_stats)) (without ["avgDays"] page))
  = [ConsoleError "Dashboard error:" TypeError].
Proof.
  assert (Hin : In "avgDays" stat_ids) by (simpl; auto 10).
  assert (Hnone : els (without ["avgDays"] page) !! "avgDays" = None) by (vm_compute; reflexivity).
  exact (proj1 (dashboard_stops_at_missing_element (without ["avgDays"] page) some_stats
                  "avgDays" Hin Hnone)).
Defined.

(** ** Closing the chart panel *)

Lemma closeChart_ok w :
  closeChart w =
  Ok tt (let w1 := updated "chartPanel" (with_display "none") w in
         match chartVars w !! "dynamicChart" with
         | Some old =>
             set_chartVars (delete "dynamicChart" (chartVars w))
               (set_trace (trace w ++ [Destroy old])
                  (set_charts (alter mark_destroyed old (charts w)) w1))
         | None => w1
         end).
Proof.
  unfold closeChart. erewrite bind_ok; [|apply update_element_opt_ok].
  unfold bind, get_var, get, destroy, set_var, modify, emit. cbn.
  destruct (chartVars w !! "dynamicChart"); reflexivity.
Qed.

(** X23. Closing the chart panel destroys the dynamic chart once: with the
    registry in order no Chart is left alive on the dynamic canvas and the
    variable is empty, so closing again destroys nothing and leaves the page
    as it is. *)
Theorem closing_leaves_no_dynamic_chart (w : World) :
  registry_ok w ->
  let w' := run closeChart w in
  live_on "dynamicChart" w' = [] /\
  chartVars w' !! "dynamicChart" = None /\
  trace w' = trace w ++ match chartVars w !! "dynamicChart" with
                        | Some old => [Destroy old]
                        | None => []
                        end /\
  run closeChart w' = w'.
Proof.
  intros Hok w'.
  assert (Hvar : chartVars w' !! "dynamicChart" = None).
  { subst w'. unfold run. rewrite closeChart_ok.
    destruct (chartVars w !! "dynamicChart") eqn:Hv; cbn.
    - apply lookup_delete_eq.
    - exact Hv. }
  split; [|split; [exact Hvar|split]].
  - subst w'. unfold run. rewrite closeChart_ok. unfold live_on.
    apply live_from_none. intros r c Hr.
    destruct (alive_on "dynamicChart" c) eqn:Ha; [exfalso|reflexivity].
    apply alive_on_true in Ha as [Hcv Hd].
    destruct (chartVars w !! "dynamicChart") as [old|] eqn:Hv; cbn in Hr.
    + rewrite list_lookup_alter in Hr.
      destruct (decide (old = r)) as [->|Hne].
      * destruct (charts w !! r); [|discriminate]. injection Hr as <-. discriminate.
      * pose proof (Hok r c Hr Hd) as V. rewrite Hcv, Hv in V. congruence.
    + pose proof (Hok r c Hr Hd) as V. rewrite Hcv, Hv in V. discriminate.
  - subst w'. unfold run. rewrite closeChart_ok.
    destruct (chartVars w !! "dynamicChart"); cbn; [reflexivity|].
    rewrite app_nil_r. reflexivity.
  - unfold run at 1. rewrite closeChart_ok, Hvar. cbv zeta.
    subst w'. unfold run. rewrite closeChart_ok. cbv zeta.
    assert (H : alter (with_display "none") "chartPanel"
                  (alter (with_display "none") "chartPanel" (els w))
                = alter (with_display "none") "chartPanel" (els w)).
    { apply map_eq. intros k. destruct (decide ("chartPanel" = k)) as [<-|Hne].
      - rewrite !lookup_alter_eq. destruct (els w !! "chartPanel"); reflexivity.
      - rewrite !lookup_alter_ne by exact Hne. reflexivity. }
    destruct (chartVars w !! "dynamicChart"); unfold updated; cbn; rewrite H; reflexivity.
Qed.

Lemma closing_leaves_no_dynamic_chart_witness :
  live_on "dynamicChart" charted = [0%nat] /\
  live_on "dynamicChart" (run closeChart charted) = [].
Proof.
  assert (Hok : registry_ok charted).
  { apply (steps_registry_ok [] (run (renderDynamicChart income_chart) page)).
    pose proof (renderDynamicChart_spec income_chart page) as S.
    destruct S as (w1 & R & Hok1 & _).
    - intros r c Hr. discriminate.
    - vm_compute; eexists; reflexivity.
    - vm_compute; eexists; reflexivity.
    - vm_compute; eexists; reflexivity.
    - unfold run. rewrite R. exact Hok1. }
  split; [vm_compute; reflexivity|].
  exact (proj1 (closing_leaves_no_dynamic_chart charted Hok)).
Defined.

(** X24. Chart data without a type (or with an empty one) is drawn as a bar
    chart with axes, but with square corners and no curve: the default
    applies to the chart's type only, while the corner radius and the
    tension are decided on the type as it was sent. *)
Theorem untyped_chart_is_square_bar (w : World) (chartData : ChartData) :
  registry_ok w ->
  present "chartPanel" w -> present "chartTitle" w -> present "dynamicChart" w ->
  cd_type chartData = None \/ cd_type chartData = Some "" ->
  exists c,
    charts (run (renderDynamicChart chartData) w) !! length (charts w) = Some c /\
    canvas c = "dynamicChart" /\
    cfg_type (config c) = "bar" /\
    cfg_borderRadius (config c) = 0%Z /\
    cfg_tension (config c) = 0%float /\
    cfg_scales (config c) = Some {| value_max := None; index_axis_y := false |}.
Proof.
  intros Hok Hp Ht Hc Hty.
  destruct (renderDynamicChart_spec chartData w Hok Hp Ht Hc)
    as (w' & R & _ & _ & _ & Hch & _).
  unfold run. rewrite R. eexists. split; [exact Hch|].
  cbn [canvas config dynamic_config cfg_type cfg_borderRadius cfg_tension cfg_scales].
  unfold is_type. destruct Hty as [-> | ->]; cbn; auto.
Qed.

Lemma untyped_chart_is_square_bar_witness :
  exists c,
    charts (run (renderDynamicChart untyped_chart) page) !! 0%nat = Some c /\
    canvas c = "dynamicChart" /\
    cfg_type (config c) = "bar" /\
    cfg_borderRadius (config c) = 0%Z /\
    cfg_tension (config c) = 0%float /\
    cfg_scales (config c) = Some {| value_max := None; index_axis_y := false |}.
Proof.
  apply (untyped_chart_is_square_bar page untyped_chart).
  - intros r c Hr. discriminate.
  - vm_compute; eexists; reflexivity.
  - vm_compute; eexists; reflexivity.
  - vm_compute; eexists; reflexivity.
  - left. reflexivity.
Defined.

(** ** Navigation *)

Lemma loadScreenData_frame screenId w :
  exists w', loadScreenData screenId w = Ok tt w' /\
    navItems w' = navItems w /\ els w' = els w.
Proof.
  unfold loadScreenData, loadDashboard, loadDemographics, loadGeography,
    loadCategories, loadTemporal.
  repeat (destruct (String.eqb screenId _);
          [eexists; split; [apply fetch_ok|]; simpl; auto|]).
  exists w. auto.
Qed.

Lemma selectScreen_navItems screenId w :
  navItems (run (selectScreen screenId) w) = navItems w.
Proof.
  unfold run, selectScreen.
  erewrite bind_ok; [|reflexivity].
  erewrite bind_ok; [|apply update_element_opt_ok].
  rewrite set_text_then.
  destruct (els _ !! "pageTitle"); [|reflexivity].
  match goal with |- context [bind (loadScreenData _) _ ?w0] =>
    destruct (loadScreenData_frame screenId w0) as (w1 & R & Hn & _) end.
  erewrite bind_ok; [|exact R].
  rewrite update_element_opt_ok. cbn. exact Hn.
Qed.

Lemma navClick_run i item w :
  navItems w !! i = Some item ->
  run (navClick i) w
  = run (selectScreen (data_screen item)) (set_navItems (highlight i (navItems w)) w).
Proof.
  intros Hi. unfold run, navClick. unfold bind at 1, get at 1. rewrite Hi.
  erewrite bind_ok; [|reflexivity]. reflexivity.
Qed.

Lemma highlight_lookup i items j it :
  highlight i items !! j = Some it -> (nav_active it = true <-> j = i).
Proof.
  unfold highlight. rewrite list_lookup_imap.
  destruct (items !! j) as [x|]; [|discriminate].
  intros [= <-]. simpl. apply Nat.eqb_eq.
Qed.

Lemma imap_keeps_screens (p : nat -> bool) (items : list NavItem) :
  List.map data_screen
    (imap (fun j it => {| data_screen := data_screen it; nav_active := p j |}) items)
  = List.map data_screen items.
Proof.
  revert p. induction items as [|x items IH]; intros p; [reflexivity|].
  cbn. f_equal. apply (IH (fun j => p (S j))).
Qed.

Lemma highlight_screens i items :
  List.map data_screen (highlight i items) = List.map data_screen items.
Proof. apply (imap_keeps_screens (fun j => Nat.eqb j i)). Qed.

(** X25. A click on a nav item, on a page that has the title element,
    highlights that item and no other, leaves every item's screen as it was,
    shows the screen's title and closes the mobile menu, open or not. *)
Theorem nav_click_highlights_and_closes_menu (w : World) (i : nat) (item : NavItem) :
  present "pageTitle" w ->
  navItems w !! i = Some item ->
  let w' := step (ClickNav i) w in
  (forall j it, navItems w' !! j = Some it -> (nav_active it = true <-> j = i)) /\
  List.map data_screen (navItems w') = List.map data_screen (navItems w) /\
  text_of "pageTitle" w' = Some (page_title (data_screen item)) /\
  (forall e, els w' !! sidebar = Some e -> "open" ∉ el_class e).
Proof.
  intros Hp Hi w'.
  assert (Hw : w' = run (selectScreen (data_screen item))
                      (set_navItems (highlight i (navItems w)) w)).
  { subst w'. cbn [step handler]. apply navClick_run, Hi. }
  set (w0 := set_navItems (highlight i (navItems w)) w) in Hw.
  assert (Hp0 : present "pageTitle" w0) by exact Hp.
  destruct (selectScreen_run (data_screen item) w0 Hp0) as (Hk & _).
  rewrite <- Hw in Hk.
  assert (Hn : navItems w' = highlight i (navItems w)).
  { rewrite Hw, selectScreen_navItems. reflexivity. }
  split; [|split; [|split]].
  - intros j it. rewrite Hn. apply highlight_lookup.
  - rewrite Hn. apply highlight_screens.
  - unfold text_of. rewrite Hk. destruct Hp0 as [e ->]. simpl. unfold selected.
    destruct (decide (sidebar = "pageTitle")) as [E|_]; [discriminate E|].
    destruct (decide ("pageTitle" = "pageTitle")) as [_|N]; [reflexivity | contradiction].
  - intros e. rewrite Hk. destruct (els w0 !! sidebar) as [e0|]; [|discriminate].
    intros [= <-]. unfold selected.
    destruct (decide (sidebar = sidebar)) as [_|N]; [|contradiction].
    unfold remove_class. cbn [el_class with_class].
    rewrite elem_of_difference, elem_of_singleton. intros [_ N]. apply N. reflexivity.
Qed.

Lemma nav_click_highlights_and_closes_menu_witness :
  (exists e, els menu_open !! sidebar = Some e /\ "open" ∈ el_class e) /\
  (forall e, els (step (ClickNav 1) menu_open) !! sidebar = Some e -> "open" ∉ el_class e).
Proof.
  split.
  - eexists. split; [vm_compute; reflexivity|]. vm_compute. reflexivity.
  - assert (Hp : present "pageTitle" menu_open) by (vm_compute; eexists; reflexivity).
    assert (Hi : navItems menu_open !! 1%nat
                 = Some {| data_screen := "chat"; nav_active := false |})
      by (vm_compute; reflexivity).
    exact (proj2 (proj2 (proj2 (nav_click_highlights_and_closes_menu menu_open 1 _ Hp Hi)))).
Defined.

(** X26. On a page without the title element a click on a nav item stops at
    the title: the highlight has moved and the screens are switched, but no
    refresh request leaves, an open mobile menu stays open, and the
    TypeError leaves the listener uncaught. *)
Theorem nav_click_without_title_stops_halfway (w : World) (i : nat) (item : NavItem) :
  els w !! "pageTitle" = None ->
  navItems w !! i = Some item ->
  let w' := step (ClickNav i) w in
  uncaught w' = uncaught w ++ [TypeError] /\
  trace w' = trace w /\ pending w' = pending w /\
  (forall j it, navItems w' !! j = Some it -> (nav_active it = true <-> j = i)) /\
  (forall k, els w' !! k =
             (fun e => if decide (data_screen item = k)
                       then add_class "active" (deactivate e) else deactivate e)
               <$> els w !! k) /\
  (forall e, els w !! sidebar = Some e -> "open" ∈ el_class e ->
             exists e', els w' !! sidebar = Some e' /\ "open" ∈ el_class e').
Proof.
  intros Hnone Hi w'.
  set (w0 := set_navItems (highlight i (navItems w)) w).
  set (w2 := updated (data_screen item) (add_class "active")
               (set_els (deactivate <$> els w0) w0)).
  assert (Hnone2 : els w2 !! "pageTitle" = None).
  { subst w2 w0. rewrite els_updated. cbn [els set_els set_navItems].
    rewrite lookup_fmap, Hnone. reflexivity. }
  assert (Hw : w' = set_uncaught (uncaught w2 ++ [TypeError]) w2).
  { subst w'. cbn [step handler]. rewrite (navClick_run i item w Hi). fold w0.
    unfold run, selectScreen.
    erewrite bind_ok; [|reflexivity].
    erewrite bind_ok; [|apply update_element_opt_ok].
    fold w2. rewrite set_text_then, Hnone2. reflexivity. }
  assert (Hk : forall k, els w' !! k =
             (fun e => if decide (data_screen item = k)
                       then add_class "active" (deactivate e) else deactivate e)
               <$> els w !! k).
  { intros k. rewrite Hw. cbn [els set_uncaught]. subst w2 w0. rewrite els_updated.
    cbn [els set_els set_navItems]. rewrite lookup_fmap.
    destruct (els w !! k); reflexivity. }
  rewrite Hw. repeat split; try reflexivity.
  - apply highlight_lookup in H. exact (proj1 H).
  - apply highlight_lookup in H. exact (proj2 H).
  - rewrite <- Hw. exact Hk.
  - intros e He Hopen. rewrite <- Hw, Hk, He. eexists. split; [reflexivity|].
    assert (Hd : "open" ∈ el_class (deactivate e)).
    { unfold deactivate. destruct (is_screen e); [|exact Hopen].
      unfold remove_class. cbn [el_class with_class].
      rewrite elem_of_difference, elem_of_singleton. split; [exact Hopen | discriminate]. }
    destruct (decide (data_screen item = sidebar)); [|exact Hd].
    unfold add_class. cbn [el_class with_class]. rewrite elem_of_union. right. exact Hd.
Qed.

Lemma nav_click_without_title_stops_halfway_witness :
  uncaught (step (ClickNav 4) (without ["pageTitle"] menu_open)) = [TypeError] /\
  trace (step (ClickNav 4) (without ["pageTitle"] menu_open)) = [].
Proof.
  assert (Hn : els (without ["pageTitle"] menu_open) !! "pageTitle" = None)
    by (vm_compute; reflexivity).
  assert (Hi : navItems (without ["pageTitle"] menu_open) !! 4%nat
               = Some {| data_screen := "geography"; nav_active := false |})
    by (vm_compute; reflexivity).
  destruct (nav_click_without_title_stops_halfway _ 4 _ Hn Hi) as (Hu & Ht & _).
  split; [exact Hu | exact Ht].
Defined.

(** ** Quick analysis *)

Lemma find_index_Some {A} (p : A -> bool) (l : list A) i :
  find_index p l = Some i -> exists x, l !! i = Some x /\ p x = true.
Proof.
  revert i. induction l as [|y l IH]; intros i; [discriminate|].
  cbn [find_index]. destruct (p y) eqn:Hy.
  - intros [= <-]. exists y. auto.
  - destruct (find_index p l) as [j|]; [|discriminate].
    intros [= <-]. destruct (IH j eq_refl) as (x & Hx & Hpx). exists x. auto.
Qed.

(** Selecting the chat screen asks the backend nothing and leaves the
    conversation alone, with or without the title element. *)
Lemma selectScreen_chat_frame w :
  let w' := run (selectScreen "chat") w in
  pending w' = pending w /\ trace w' = trace w /\ transcript w' = transcript w /\
  currentSession w' = currentSession w /\ nodes w' = nodes w /\
  (present "chatMessages" w -> present "chatMessages" w').
Proof.
  unfold run, selectScreen.
  erewrite bind_ok; [|reflexivity].
  erewrite bind_ok; [|apply update_element_opt_ok].
  rewrite set_text_then.
  destruct (els _ !! "pageTitle").
  - erewrite bind_ok; [|reflexivity].
    rewrite update_element_opt_ok. cbn. repeat split.
    intros Hp. do 3 apply present_updated. unfold present. cbn.
    rewrite lookup_fmap. destruct Hp as [e0 ->]. eexists; reflexivity.
  - cbn. repeat split.
    intros Hp. apply (present_updated "chatMessages" "chat"). unfold present. cbn.
    rewrite lookup_fmap. destruct Hp as [e0 ->]. eexists; reflexivity.
Qed.

(** X27. A quick analysis sends nothing at the click: it goes to the chat
    screen (if a nav item leads there) and sets a timer; the message is shown
    and posted only when the timer fires, under the session current then;
    this holds even if the navigation failed for want of the title element. *)
Theorem quick_analysis_sends_on_timer (w : World) (query : string) :
  present "chatMessages" w ->
  let w1 := step (ClickQuickAnalysis query) w in
  let w2 := step (Deliver (length (pending w)) TimerFired) w1 in
  (pending w1 = pending w ++ [TimerSend query] /\
   trace w1 = trace w /\ transcript w1 = transcript w) /\
  (transcript w2 = transcript w ++ [Message "user" query; Typing (nodes w)] /\
   trace w2 = trace w ++ [Fetch (PostChat query (currentSession w))] /\
   pending w2 = pending w ++ [AwaitChat (nodes w) query (currentSession w)]).
Proof.
  intros Hp w1 w2.
  assert (Hnav : exists wn,
            w1 = set_pending (pending wn ++ [TimerSend query]) wn /\
            pending wn = pending w /\ trace wn = trace w /\ transcript wn = transcript w /\
            currentSession wn = currentSession w /\ nodes wn = nodes w /\
            present "chatMessages" wn).
  { subst w1. cbn [step handler]. unfold run, quickAnalysis.
    unfold bind at 1, get at 1.
    destruct (find_index _ (navItems w)) as [i|] eqn:Hf.
    - apply find_index_Some in Hf as (item & Hi & Hc). apply String.eqb_eq in Hc.
      exists (run (navClick i) w). split; [reflexivity|].
      rewrite (navClick_run i item w Hi), Hc.
      destruct (selectScreen_chat_frame (set_navItems (highlight i (navItems w)) w))
        as (H1 & H2 & H3 & H4 & H5 & H6).
      repeat split; try assumption. apply H6. exact Hp.
    - exists w. repeat split; try reflexivity. exact Hp. }
  destruct Hnav as (wn & Hw1 & Hpe & Htr & Hts & Hcs & Hno & Hpn).
  split.
  { rewrite Hw1. cbn. rewrite Hpe. auto. }
  assert (Hw2 : w2 = run (sendChatMessage query) (set_pending (pending w) wn)).
  { subst w2. cbn [step]. unfold deliver. rewrite Hw1. cbn [pending set_pending].
    rewrite <- Hpe at 1. rewrite list_lookup_middle by reflexivity. cbn [resume].
    rewrite <- Hpe at 1. rewrite delete_middle, app_nil_r, Hpe.
    destruct wn; reflexivity. }
  destruct (sendChatMessage_spec query (set_pending (pending w) wn) Hpn)
    as (w3 & R & Ht3 & Hp3 & Hr3 & _).
  rewrite Hw2. unfold run. rewrite R. cbn in Ht3, Hp3, Hr3.
  rewrite Ht3, Hp3, Hr3, Hts, Htr, Hcs, Hno. auto.
Qed.

Lemma quick_analysis_sends_on_timer_witness :
  trace (step (ClickQuickAnalysis "Show bias") page) = [] /\
  trace (step (Deliver 0 TimerFired) (step (ClickQuickAnalysis "Show bias") page))
    = [Fetch (PostChat "Show bias" None)].
Proof.
  assert (Hp : present "chatMessages" page) by (vm_compute; eexists; reflexivity).
  destruct (quick_analysis_sends_on_timer page "Show bias" Hp) as ((_ & H1 & _) & (_ & H2 & _)).
  split; [exact H1 | exact H2].
Defined.

(** ** The income chart of the demographics screen *)

Lemma chart_part_ok cv cfg w :
  registry_ok w ->
  exists w',
    match els w !! cv with
    | Some _ => replace_chart cv cfg
    | None => ret tt
    end w = Ok tt w' /\
    registry_ok w' /\ els w' = els w.
Proof.
  intros Hok. destruct (els w !! cv).
  - destruct (replace_chart_spec cv cfg w Hok) as (w' & R & Hok' & _ & _ & _ & _ & _ & He & _).
    exists w'. auto.
  - exists w. auto.
Qed.

Lemma income_labels (b : Breakdown) :
  List.map fst (omap (fun k => (fun v => (k, v)) <$> lookup_key k b) income_order)
  = List.filter (fun k => bool_decide (is_Some (lookup_key k b))) income_order.
Proof.
  unfold income_order. cbn [omap list_omap List.filter].
  destruct (lookup_key "0-3L" b), (lookup_key "3-6L" b), (lookup_key "6-10L" b),
    (lookup_key "10L+" b); reflexivity.
Qed.

Lemma income_values (b : Breakdown) :
  List.map snd (omap (fun k => (fun v => (k, v)) <$> lookup_key k b) income_order)
  = omap (fun k => lookup_key k b) income_order.
Proof.
  unfold income_order. cbn [omap list_omap].
  destruct (lookup_key "0-3L" b), (lookup_key "3-6L" b), (lookup_key "6-10L" b),
    (lookup_key "10L+" b); reflexivity.
Qed.

(** X28. The income chart of the demographics screen shows the brackets in
    the script's own order, 0-3L, 3-6L, 6-10L, 10L+, whatever order the
    answer has them in, and leaves out a bracket the answer lacks (the
    dashboard's overview chart draws it as 0). *)
Theorem income_chart_follows_fixed_order (w : World) (data : Demographic) :
  registry_ok w ->
  present "incomeChart" w ->
  let w' := run (loadDemographics_resume (Success data)) w in
  exists r c,
    chartVars w' !! "incomeChart" = Some r /\
    charts w' !! r = Some c /\
    destroyed c = false /\
    cfg_labels (config c)
      = List.filter (fun k => bool_decide (is_Some (lookup_key k (by_income data))))
                    income_order /\
    cfg_data (config c) = omap (fun k => lookup_key k (by_income data)) income_order.
Proof.
  intros Hok Hp w'.
  set (incomeData := omap (fun k => (fun v => (k, v)) <$> lookup_key k (by_income data))
                          ["0-3L"; "3-6L"; "6-10L"; "10L+"]).
  destruct (chart_part_ok "genderChart" (demo_config (by_gender data) "gender") w Hok)
    as (w1 & R1 & Hok1 & He1).
  destruct (chart_part_ok "casteChart" (demo_config (by_caste data) "caste") w1 Hok1)
    as (w2 & R2 & Hok2 & He2).
  destruct (replace_chart_spec "incomeChart" (demo_config incomeData "income") w2 Hok2)
    as (w3 & R3 & _ & Hv3 & _ & Hc3 & _ & _ & He3 & _).
  assert (Hp2 : present "incomeChart" w2).
  { unfold present. rewrite He2, He1. exact Hp. }
  assert (Hrun : exists w4, loadDemographics_resume (Success data) w = Ok tt w4 /\
                            chartVars w4 = chartVars w3 /\ charts w4 = charts w3).
  { unfold loadDemographics_resume, try_catch.
    unfold bind at 1, get_var at 1, get at 1.
    erewrite bind_ok; [|rewrite createDemoChart_replace; exact R1].
    unfold bind at 1, get_var at 1, get at 1.
    erewrite bind_ok; [|rewrite createDemoChart_replace; exact R2].
    cbv zeta.
    unfold bind at 1, get_var at 1, get at 1.
    erewrite bind_ok.
    2:{ rewrite createDemoChart_replace. destruct Hp2 as [e ->]. exact R3. }
    unfold bind at 1, getElementById at 1, get at 1.
    destruct (els w3 !! "demoFindings") as [e|] eqn:He; [|exists w3; auto].
    cbv beta iota.
    erewrite bind_ok; [|apply set_text_ok; exists e; exact He].
    erewrite bind_ok; [|apply ratio_finding_updated; exists e; exact He].
    erewrite bind_ok; [|apply ratio_finding_updated; exists e; exact He].
    rewrite ratio_finding_updated by (exists e; exact He).
    eexists. split; [reflexivity|]. auto. }
  destruct Hrun as (w4 & R4 & Hv4 & Hc4).
  subst w'. unfold run. rewrite R4, Hv4, Hc4.
  eexists _, _. split; [exact Hv3|]. split; [exact Hc3|].
  cbn [destroyed config demo_config cfg_labels cfg_data]. split; [reflexivity|].
  split; [apply income_labels | apply income_values].
Qed.

Lemma income_chart_follows_fixed_order_witness :
  exists r c,
    chartVars (run (loadDemographics_resume (Success shuffled_income)) page) !! "incomeChart"
      = Some r /\
    charts (run (loadDemographics_resume (Success shuffled_income)) page) !! r = Some c /\
    cfg_labels (config c) = ["0-3L"; "6-10L"; "10L+"] /\
    cfg_data (config c) = [72; 44; 31]%float.
Proof.
  assert (Hok : registry_ok page) by (intros r c Hr; discriminate).
  assert (Hp : present "incomeChart" page) by (vm_compute; eexists; reflexivity).
  destruct (income_chart_follows_fixed_order page shuffled_income Hok Hp)
    as (r & c & Hv & Hc & _ & Hl & Hd).
  exists r, c. split; [exact Hv|]. split; [exact Hc|]. split; [exact Hl | exact Hd].
Defined.

(** ** Clearing the chat *)

(** X29. In a conversation that already has a session, clearing the chat
    display replaces the transcript by one banner and touches nothing else,
    and a message still waiting for its answer is not cancelled: when its
    answer arrives it is appended right under the banner, the session stays
    as it is, and for an answer without a chart nothing else is shown and no
    request or log entry is made. *)
Theorem clearing_does_not_cancel_pending_answer (w : World) (i typing : nat)
    (message : string) (tag : option string) (data : ChatData) :
  present "chatMessages" w ->
  present "clearChatBtn" w ->
  pending w !! i = Some (AwaitChat typing message tag) ->
  no_session w = false ->
  let w1 := step ClickClearChat w in
  let w2 := step (Deliver i (ChatReply (Success data))) w1 in
  w1 = set_transcript [cleared_banner] w /\
  (exists rest,
     transcript w2 = cleared_banner :: Message "assistant" (response data) :: rest) /\
  currentSession w2 = currentSession w /\
  (chart_data data = None ->
   transcript w2 = [cleared_banner; Message "assistant" (response data)] /\
   trace w2 = trace w).
Proof.
  intros Hp Hb Hi Hs w1 w2.
  assert (Hw1 : w1 = set_transcript [cleared_banner] w).
  { subst w1. cbn [step handler]. unfold run, on, bind, getElementById, get.
    destruct Hb as [b ->]. unfold clear_chat, replace_nodes.
    destruct Hp as [c ->]. reflexivity. }
  split; [exact Hw1|].
  set (w0 := set_pending (delete i (pending w)) (set_transcript [cleared_banner] w)).
  assert (Hp0 : present "chatMessages" w0) by exact Hp.
  assert (Hw2 : w2 = run (sendChatMessage_resume typing (Success data)) w0).
  { subst w2. cbn [step]. unfold deliver. rewrite Hw1. cbn [pending set_transcript].
    rewrite Hi. reflexivity. }
  assert (Hfin : w2 = run (try_catch (chat_finish (response data) (chart_data data))
                             (chat_catch typing)) w0).
  { rewrite Hw2. unfold run, sendChatMessage_resume, try_catch.
    erewrite bind_ok; [|reflexivity].
    erewrite bind_ok; [|reflexivity].
    match goal with |- context [no_session ?v] => change (no_session v) with (no_session w) end.
    rewrite Hs, andb_false_r. destruct w; reflexivity. }
  split; [|split].
  - destruct (chat_finish_shape (response data) (chart_data data) typing w0 Hp0)
      as (rest & H).
    exists rest. rewrite Hfin. destruct H as [H|H]; exact H.
  - destruct (currentSession w) as [sid|] eqn:E;
      [|unfold no_session in Hs; rewrite E in Hs; discriminate].
    assert (Hne : sid <> "").
    { intros ->. unfold no_session in Hs. rewrite E in Hs. discriminate. }
    rewrite Hw2. apply run_session_is; [apply resume_keeps_session, Hne | exact E].
  - intros Hc. rewrite Hfin, Hc. unfold run, try_catch, chat_finish, addMessageToChat.
    erewrite bind_ok; [|apply append_node_ok, Hp0]. auto.
Qed.

Lemma clearing_does_not_cancel_pending_answer_witness :
  transcript (step (Deliver 0 (ChatReply (Success {| chat_session_id := Some "A";
                                                     response := "Ward 7 and Ward 2.";
                                                     chart_data := None |})))
                (step ClickClearChat waiting_for_answer))
  = [cleared_banner; Message "assistant" "Ward 7 and Ward 2."].
Proof.
  assert (Hp : present "chatMessages" waiting_for_answer) by (vm_compute; eexists; reflexivity).
  assert (Hb : present "clearChatBtn" waiting_for_answer) by (vm_compute; eexists; reflexivity).
  assert (Hi : pending waiting_for_answer !! 0%nat
               = Some (AwaitChat 0 "Which wards are worst?" (Some "A")))
    by (vm_compute; reflexivity).
  assert (Hs : no_session waiting_for_answer = false) by (vm_compute; reflexivity).
  exact (proj1 (proj2 (proj2 (proj2
           (clearing_does_not_cancel_pending_answer waiting_for_answer 0 0
              "Which wards are worst?" (Some "A")
              {| chat_session_id := Some "A"; response := "Ward 7 and Ward 2.";
                 chart_data := None |} Hp Hb Hi Hs))) eq_refl)).
Defined.

(** ** Page start *)

(** X30. On load the page writes the clock and then asks for the
    statistics and for the session list, in this order and without waiting
    for either; on a page without the clock element the start-up stops at
    the clock with a TypeError and neither request leaves. *)
Theorem page_start_requests (w : World) (now : string) :
  let w' := step (DOMContentLoaded now) w in
  trace w' = trace w ++ match els w !! "timestamp" with
                        | Some _ => [Fetch GetStats; Fetch GetSessions]
                        | None => []
                        end /\
  pending w' = pending w ++ match els w !! "timestamp" with
                            | Some _ => [AwaitStats; AwaitSessions Detached]
                            | None => []
                            end /\
  uncaught w' = uncaught w ++ match els w !! "timestamp" with
                              | Some _ => []
                              | None => [TypeError]
                              end /\
  text_of "timestamp" w' = (fun _ => now) <$> els w !! "timestamp".
Proof.
  intros w'. subst w'. cbn [step handler]. unfold run, updateTimestamp.
  rewrite set_text_then. unfold text_of.
  destruct (els w !! "timestamp") as [e|] eqn:He.
  - unfold loadDashboard, loadSessions.
    erewrite bind_ok; [|apply fetch_ok]. rewrite fetch_ok.
    cbn [trace pending uncaught els fetched set_pending set_trace updated set_els].
    rewrite <- !app_assoc, app_nil_r.
    rewrite lookup_alter_eq, He. auto.
  - cbn. rewrite He, !app_nil_r. auto.
Qed.
